(** * Document ingestion, extraction and session/query persistence

    A shallow embedding of the document pipeline of the repository:
    - [src/core/document_processor.py]  (class [DocumentProcessor]),
    - [src/core/database.py]            (the relational schema and its ORM
                                         relationship configuration),
    - [src/services/document_service.py] (class [DocumentService]),
    - [src/api/routers/analysis.py], [src/api/routers/query.py].

    Python dictionaries are finite maps, the file store and the database are
    explicit state, exceptions are an outcome of a small state-and-exception
    monad, and the third-party parsers are oracles of an environment record. *)

From Stdlib Require Import ZArith String Ascii List Lia Bool.
From Stdlib.Strings Require Import Byte.
From stdpp Require Import base option gmap strings list fin_maps pretty.

Set Warnings "-register-all".

Open Scope string_scope.
Open Scope list_scope.
Open Scope Z_scope.

(* ===================================================================== *)
(** ** Python strings and bytes *)
(* ===================================================================== *)

(** A Python [str] holding text is a sequence of Unicode code points.
    Identifiers, paths, MIME types and database keys are kept as [string];
    [lit] injects them into text (one code point per character). *)
Definition pystr := list Z.

Definition lit (s : string) : pystr :=
  map (fun a => Z.of_N (N_of_ascii a)) (list_ascii_of_string s).

Arguments lit : simpl never.

Definition LF : Z := 10.
Definition CR : Z := 13.

(** [sep.join(parts)] *)
Fixpoint join (sep : pystr) (parts : list pystr) : pystr :=
  match parts with
  | [] => []
  | [p] => p
  | p :: rest => p ++ sep ++ join sep rest
  end.

(** [s.count(c)] for a one-character needle *)
Definition count (c : Z) (s : pystr) : Z :=
  Z.of_nat (length (filter (fun x => x = c) s)).

(** [str.isspace] on one code point *)
Definition py_isspace (c : Z) : bool :=
  ((9 <=? c) && (c <=? 13)) || ((28 <=? c) && (c <=? 32))
  || (c =? 133) || (c =? 160) || (c =? 5760)
  || ((8192 <=? c) && (c <=? 8202))
  || (c =? 8232) || (c =? 8233) || (c =? 8239) || (c =? 8287) || (c =? 12288).

Fixpoint lstrip (s : pystr) : pystr :=
  match s with
  | c :: r => if py_isspace c then lstrip r else s
  | [] => []
  end.

Definition rstrip (s : pystr) : pystr := rev (lstrip (rev s)).

(** [s.strip()] *)
Definition strip (s : pystr) : pystr := rstrip (lstrip s).

(** [str(n)] for an integer *)
Definition str_of_Z (n : Z) : pystr := lit (pretty n).
Arguments str_of_Z : simpl never.

(** *** Decoding file contents *)

Definition byte_val (b : byte) : Z := Z.of_N (Byte.to_N b).

(** The bytes of an ASCII literal, for writing file contents down. *)
Definition bytes_of (s : string) : list byte := list_byte_of_string s.

Definition is_cont (b : Z) : bool := (128 <=? b) && (b <=? 191).
Definition in_range (lo hi b : Z) : bool := (lo <=? b) && (b <=? hi).

(** Strict UTF-8 ([bytes.decode("utf-8")]): [None] stands for
    [UnicodeDecodeError].  Over-long forms, surrogates and code points above
    U+10FFFF are rejected. *)
Fixpoint utf8_decode (bs : list Z) : option pystr :=
  match bs with
  | [] => Some []
  | b0 :: r0 =>
    if b0 <? 128 then cons b0 <$> utf8_decode r0
    else
      match r0 with
      | [] => None
      | b1 :: r1 =>
        if in_range 194 223 b0 then
          if is_cont b1
          then cons ((b0 - 192) * 64 + (b1 - 128)) <$> utf8_decode r1
          else None
        else
          match r1 with
          | [] => None
          | b2 :: r2 =>
            if in_range 224 239 b0 then
              if (if b0 =? 224 then in_range 160 191 b1
                  else if b0 =? 237 then in_range 128 159 b1
                  else is_cont b1) && is_cont b2
              then cons ((b0 - 224) * 4096 + (b1 - 128) * 64 + (b2 - 128))
                     <$> utf8_decode r2
              else None
            else
              match r2 with
              | [] => None
              | b3 :: r3 =>
                if in_range 240 244 b0 then
                  if (if b0 =? 240 then in_range 144 191 b1
                      else if b0 =? 244 then in_range 128 143 b1
                      else is_cont b1) && is_cont b2 && is_cont b3
                  then cons ((b0 - 240) * 262144 + (b1 - 128) * 4096
                             + (b2 - 128) * 64 + (b3 - 128))
                         <$> utf8_decode r3
                  else None
                else None
              end
          end
      end
  end.

(** [bytes.decode("latin-1")]: every byte is its own code point. *)
Definition latin1_decode (bs : list Z) : pystr := bs.

(** Text-mode reading translates ["\r\n"] and a lone ["\r"] to ["\n"]. *)
Fixpoint universal_newlines (s : pystr) : pystr :=
  match s with
  | [] => []
  | c :: r =>
    if c =? CR then
      match r with
      | d :: r' => if d =? LF then LF :: universal_newlines r'
                   else LF :: universal_newlines r
      | [] => [LF]
      end
    else c :: universal_newlines r
  end.

(* ===================================================================== *)
(** ** Python values, exceptions *)
(* ===================================================================== *)

(** The values an extraction result can hold.  [VFloat] and [VDateTime]
    (spreadsheet cells) carry their [str()] rendering. *)
Inductive pyval :=
| VNone
| VBool (b : bool)
| VInt (n : Z)
| VFloat (shown : pystr)
| VDateTime (shown : pystr)
| VStr (s : pystr)
| VList (l : list pyval)
| VDict (l : list (pystr * pyval)).

(** A result dictionary of the processor: keys are the literal names used in
    the source. *)
Abbreviation docinfo := (gmap string pyval).

Inductive exc :=
| HTTPException (status_code : Z) (detail : string)
| PyExc (cls : string) (msg : string).

(** [str(e)]; Starlette renders an [HTTPException] as ["{status}: {detail}"]. *)
Definition exc_str (e : exc) : string :=
  match e with
  | HTTPException c d => pretty c +:+ ": " +:+ d
  | PyExc _ m => m
  end.

Definition is_ImportError (e : exc) : bool :=
  match e with
  | PyExc cls _ =>
      bool_decide (cls = "ImportError") || bool_decide (cls = "ModuleNotFoundError")
  | _ => false
  end.

Inductive outcome (A : Type) :=
| Ok (a : A)
| Raise (e : exc).
Arguments Ok {A} a.
Arguments Raise {A} e.

(** Iterating a value ([for x in v]). *)
Definition py_iter (v : pyval) : outcome (list pyval) :=
  match v with
  | VList l => Ok l
  | VStr s => Ok (map (fun c => VStr [c]) s)
  | VDict l => Ok (map (fun kv => VStr (fst kv)) l)
  | _ => Raise (PyExc "TypeError" "object is not iterable")
  end.

(** [v.items()] *)
Definition py_items (v : pyval) : outcome (list (pystr * pyval)) :=
  match v with
  | VDict l => Ok l
  | _ => Raise (PyExc "AttributeError" "object has no attribute 'items'")
  end.

(** [len(v)] *)
Definition py_len (v : pyval) : outcome Z :=
  match v with
  | VStr s => Ok (Z.of_nat (length s))
  | VList l => Ok (Z.of_nat (length l))
  | VDict l => Ok (Z.of_nat (length l))
  | _ => Raise (PyExc "TypeError" "object has no len()")
  end.

(** [sep.join(items)]: every item has to be a [str]. *)
Fixpoint all_str (items : list pyval) : outcome (list pystr) :=
  match items with
  | [] => Ok []
  | VStr s :: rest =>
      match all_str rest with
      | Ok l => Ok (s :: l)
      | Raise e => Raise e
      end
  | _ :: _ => Raise (PyExc "TypeError" "sequence item: expected str instance")
  end.

Definition py_join (sep : pystr) (v : pyval) : outcome pystr :=
  match py_iter v with
  | Ok items =>
      match all_str items with
      | Ok l => Ok (join sep l)
      | Raise e => Raise e
      end
  | Raise e => Raise e
  end.

(** [json.dumps] accepts everything but dates. *)
Fixpoint json_serializable (v : pyval) : bool :=
  match v with
  | VDateTime _ => false
  | VList l => forallb json_serializable l
  | VDict l => forallb (fun kv => json_serializable (snd kv)) l
  | _ => true
  end.

Section PyStr.
(** [repr] of containers (quoting rules of the interpreter). *)
Variable py_repr : pyval -> pystr.

(** [str(v)] *)
Definition py_str (v : pyval) : pystr :=
  match v with
  | VNone => lit "None"
  | VBool true => lit "True"
  | VBool false => lit "False"
  | VInt n => str_of_Z n
  | VFloat s => s
  | VDateTime s => s
  | VStr s => s
  | VList _ | VDict _ => py_repr v
  end.
End PyStr.

(* ===================================================================== *)
(** ** The relational schema ([src/core/database.py]) *)
(* ===================================================================== *)

(** Timestamps are ticks of the clock of the world. *)
Module Document.
Record t := {
  file_name : string;
  file_path : string;
  mime_type : string;
  doc_metadata : option docinfo;   (* the dictionary that was serialised *)
  status : string;
  created_at : Z;
  updated_at : Z }.
End Document.

Module DocumentContent.
Record t := {
  analysis : option pystr;
  extracted_text : option pystr }.
End DocumentContent.

Module AnalysisSession.
Record t := {
  summary : option pystr;
  context : option pystr;
  created_at : Z;
  updated_at : Z }.
End AnalysisSession.

Module Query.
Record t := {
  analysis_id : string;
  query_text : pystr;
  response_text : option pystr;
  created_at : Z;
  updated_at : Z }.
End Query.

(** Tables are keyed by their primary key; the association table of the
    many-to-many relationship is a list of [(document_id, analysis_id)]. *)
Record Database := {
  documents : gmap string Document.t;
  document_contents : gmap string DocumentContent.t;
  analysis_sessions : gmap string AnalysisSession.t;
  document_analysis_association : list (string * string);
  queries : gmap Z Query.t }.

Definition empty_db : Database :=
  {| documents := ∅; document_contents := ∅; analysis_sessions := ∅;
     document_analysis_association := []; queries := ∅ |}.

(** *** Relationship options

    [relationship(..., cascade="...")]: the option string is parsed into
    flags; ["all"] stands for every cascade but [delete-orphan]. *)
Record CascadeOptions := {
  save_update : bool; merge : bool; refresh_expire : bool;
  expunge : bool; delete : bool; delete_orphan : bool }.

Definition no_cascade : CascadeOptions :=
  {| save_update := false; merge := false; refresh_expire := false;
     expunge := false; delete := false; delete_orphan := false |}.

Definition add_cascade (o : CascadeOptions) (name : string) : CascadeOptions :=
  if bool_decide (name = "all") then
    {| save_update := true; merge := true; refresh_expire := true;
       expunge := true; delete := true; delete_orphan := delete_orphan o |}
  else if bool_decide (name = "save-update") then
    {| save_update := true; merge := merge o; refresh_expire := refresh_expire o;
       expunge := expunge o; delete := delete o; delete_orphan := delete_orphan o |}
  else if bool_decide (name = "merge") then
    {| save_update := save_update o; merge := true; refresh_expire := refresh_expire o;
       expunge := expunge o; delete := delete o; delete_orphan := delete_orphan o |}
  else if bool_decide (name = "refresh-expire") then
    {| save_update := save_update o; merge := merge o; refresh_expire := true;
       expunge := expunge o; delete := delete o; delete_orphan := delete_orphan o |}
  else if bool_decide (name = "expunge") then
    {| save_update := save_update o; merge := merge o; refresh_expire := refresh_expire o;
       expunge := true; delete := delete o; delete_orphan := delete_orphan o |}
  else if bool_decide (name = "delete") then
    {| save_update := save_update o; merge := merge o; refresh_expire := refresh_expire o;
       expunge := expunge o; delete := true; delete_orphan := delete_orphan o |}
  else if bool_decide (name = "delete-orphan") then
    {| save_update := save_update o; merge := merge o; refresh_expire := refresh_expire o;
       expunge := expunge o; delete := delete o; delete_orphan := true |}
  else o.

Definition cascade (names : list string) : CascadeOptions :=
  fold_left add_cascade names no_cascade.

(** The four relationships of the schema, with the option strings of the
    source. *)
Definition Document_analysis_sessions : CascadeOptions := cascade ["all"; "delete"].
Definition Document_content : CascadeOptions := cascade ["all"; "delete-orphan"].
Definition AnalysisSession_documents : CascadeOptions := cascade ["all"].
Definition AnalysisSession_queries : CascadeOptions := cascade ["all"; "delete-orphan"].

(** Attribute names the declarative constructor of [AnalysisSession]
    accepts as keywords. *)
Definition AnalysisSession_attributes : list string :=
  ["id"; "summary"; "context"; "created_at"; "updated_at"; "documents"; "queries"].

(* ===================================================================== *)
(** ** The world: file store, database, clock, calls to collaborators *)
(* ===================================================================== *)

Record file := {
  f_bytes : list byte;
  f_ctime : Z;
  f_mtime : Z }.

Inductive extractor :=
| PDF | DOCX | PPTX | XLSX | EMAIL | IMAGE | TEXT | GENERIC.

(** Calls that leave the core: the extraction dispatcher being entered and
    the generation capability being asked. *)
Inductive call :=
| CallExtract (file_path : string)
| CallGenerate (prompt : pystr).

Record World := {
  fs : gmap string file;
  db : Database;
  clock : Z;
  calls : list call }.

Definition with_fs (f : gmap string file) (w : World) : World :=
  {| fs := f; db := db w; clock := clock w; calls := calls w |}.
Definition with_db (d : Database) (w : World) : World :=
  {| fs := fs w; db := d; clock := clock w; calls := calls w |}.
Definition with_clock (c : Z) (w : World) : World :=
  {| fs := fs w; db := db w; clock := c; calls := calls w |}.
Definition with_calls (l : list call) (w : World) : World :=
  {| fs := fs w; db := db w; clock := clock w; calls := l |}.

(** *** State and exceptions *)

Definition M (A : Type) : Type := World -> outcome A * World.

Definition ret {A} (a : A) : M A := fun w => (Ok a, w).
Definition raise {A} (e : exc) : M A := fun w => (Raise e, w).
Definition bind {A B} (m : M A) (k : A -> M B) : M B :=
  fun w =>
    match m w with
    | (Ok a, w') => k a w'
    | (Raise e, w') => (Raise e, w')
    end.

(** [try: m  except Exception as e: h e] — what [m] did to the world before
    it raised stays done. *)
Definition try_except {A} (m : M A) (h : exc -> M A) : M A :=
  fun w =>
    match m w with
    | (Ok a, w') => (Ok a, w')
    | (Raise e, w') => h e w'
    end.

Definition lift {A} (o : outcome A) : M A := fun w => (o, w).
Definition gets {A} (f : World -> A) : M A := fun w => (Ok (f w), w).
Definition modify (f : World -> World) : M unit := fun w => (Ok tt, f w).

#[global] Instance M_ret : MRet M := @ret.
#[global] Instance M_bind : MBind M := fun A B k m => bind m k.

(** Pure computations that may raise use the same notation. *)
#[global] Instance outcome_ret : MRet outcome := @Ok.
#[global] Instance outcome_bind : MBind outcome :=
  fun A B k o => match o with Ok a => k a | Raise e => Raise e end.
#[global] Instance outcome_fmap : FMap outcome :=
  fun A B f o => match o with Ok a => Ok (f a) | Raise e => Raise e end.

Fixpoint mapM_outcome {A B} (f : A -> outcome B) (l : list A) : outcome (list B) :=
  match l with
  | [] => Ok []
  | a :: rest => b ← f a; bs ← mapM_outcome f rest; Ok (b :: bs)
  end.

(** [datetime.now()] *)
Definition datetime_now : M Z :=
  fun w => (Ok (clock w), with_clock (clock w + 1) w).

Definition record_call (c : call) : M unit :=
  modify (fun w => with_calls (calls w ++ [c]) w).

(* ===================================================================== *)
(** ** Collaborators outside the core *)
(* ===================================================================== *)

Record email_part := {
  part_content_type : string;
  part_content : outcome pystr;               (* [part.get_content()] *)
  part_content_disposition : option string;
  part_filename : option string;
  part_payload : option (list byte) }.
                    (* [part.get_payload(decode=True)]: [None] for a part that
                       is itself multipart *)

Record email_message := {
  msg_From : pystr; msg_To : pystr; msg_Subject : pystr; msg_Date : pystr;
                                              (* [msg.get(h, "")] *)
  msg_is_multipart : bool;
  msg_parts : list email_part;
  msg_content : outcome pystr }.              (* [msg.get_content()] *)

(** What the runtime and the third-party libraries answer.  A parser is a
    function of the bytes it is given; it either returns what it parsed or
    raises. *)
Record Env := {
  guess_type : string -> option string;       (* [mimetypes.guess_type(p)[0]] *)
  isoformat : Z -> string;                    (* [datetime.fromtimestamp(t).isoformat()] *)
  py_repr : pyval -> pystr;
  PDF2IMAGE_AVAILABLE : bool;
  DOCX_AVAILABLE : bool;
  PPTX_AVAILABLE : bool;
  XLSX_AVAILABLE : bool;
  EMAIL_AVAILABLE : bool;
  PdfReader : list byte -> outcome (list (outcome pystr));
                                              (* pages, each with [extract_text()] *)
  convert_from_path : list byte -> outcome (list (list byte));
                                              (* the pages rendered as JPEG *)
  docx_Document :
    list byte -> outcome (list pystr * outcome (list (list (list pystr))));
                                              (* paragraphs; tables, read after them *)
  Presentation : list byte -> outcome (list (list (option pystr)));
                                              (* slides, shapes, [shape.text] if any *)
  load_workbook : list byte -> outcome (list (pystr * list (list pyval)));
                                              (* sheets in order, rows, cells *)
  BytesParser_parse : list byte -> outcome email_message;
  write_fault : string -> option exc;         (* a write to this path fails *)
  remove_fault : string -> option exc;        (* [os.remove] of this path fails *)
  commit_fault : option exc;                  (* the store refuses the commit *)
  generate_content : pystr -> outcome pystr   (* the generation capability *)
}.

(** *** Paths and files *)

Fixpoint basename_go (acc s : string) : string :=
  match s with
  | EmptyString => acc
  | String c r =>
      if Ascii.eqb c "/" then basename_go "" r
      else basename_go (acc +:+ String c "") r
  end.

(** [os.path.basename] *)
Definition basename (p : string) : string := basename_go "" p.

Fixpoint ends_with_slash (s : string) : bool :=
  match s with
  | EmptyString => false
  | String c EmptyString => Ascii.eqb c "/"
  | String _ r => ends_with_slash r
  end.

(** [os.path.join(a, b)] *)
Definition path_join (a b : string) : string :=
  if String.prefix "/" b then b
  else if bool_decide (a = "") || ends_with_slash a then a +:+ b
  else a +:+ "/" +:+ b.

(** [os.path.exists] *)
Definition path_exists (p : string) : M bool :=
  gets (fun w => bool_decide (is_Some (fs w !! p))).

Definition stat (p : string) : M file :=
  fun w =>
    match fs w !! p with
    | Some f => (Ok f, w)
    | None => (Raise (PyExc "FileNotFoundError"
                        ("[Errno 2] No such file or directory: '" +:+ p +:+ "'")), w)
    end.

(** [open(p, "rb").read()] *)
Definition read_bytes (p : string) : M (list byte) :=
  f ← stat p; mret (f_bytes f).

(** [open(p, "r", encoding=...).read()] *)
Definition read_text_utf8 (p : string) : M pystr :=
  bs ← read_bytes p;
  match utf8_decode (map byte_val bs) with
  | Some s => mret (universal_newlines s)
  | None => raise (PyExc "UnicodeDecodeError" "'utf-8' codec can't decode byte")
  end.

Definition read_text_latin1 (p : string) : M pystr :=
  bs ← read_bytes p;
  mret (universal_newlines (latin1_decode (map byte_val bs))).

Definition is_UnicodeDecodeError (e : exc) : bool :=
  match e with
  | PyExc cls _ => bool_decide (cls = "UnicodeDecodeError")
  | _ => false
  end.

(** [try: m  except SomeError: h] — other exceptions pass through. *)
Definition try_except_if {A} (p : exc -> bool) (m : M A) (h : exc -> M A) : M A :=
  try_except m (fun e => if p e then h e else raise e).

Section FileStore.
Variable env : Env.

(** [open(p, "wb").write(bs)] *)
Definition write_bytes (p : string) (bs : list byte) : M unit :=
  match write_fault env p with
  | Some e => raise e
  | None =>
      fun w =>
        (Ok tt,
         with_fs (<[p := {| f_bytes := bs; f_ctime := clock w; f_mtime := clock w |}]> (fs w)) w)
  end.

(** [os.remove(p)] *)
Definition os_remove (p : string) : M unit :=
  match remove_fault env p with
  | Some e => raise e
  | None =>
      fun w =>
        match fs w !! p with
        | Some _ => (Ok tt, with_fs (base.delete p (fs w)) w)
        | None => (Raise (PyExc "FileNotFoundError"
                        ("[Errno 2] No such file or directory: '" +:+ p +:+ "'")), w)
        end
  end.
End FileStore.

(* ===================================================================== *)
(** ** [DocumentProcessor] ([src/core/document_processor.py]) *)
(* ===================================================================== *)

Definition MIME_PDF := "application/pdf".
Definition MIME_DOCX :=
  "application/vnd.openxmlformats-officedocument.wordprocessingml.document".
Definition MIME_PPTX :=
  "application/vnd.openxmlformats-officedocument.presentationml.presentation".
Definition MIME_XLSX :=
  "application/vnd.openxmlformats-officedocument.spreadsheetml.sheet".
Definition MIME_RFC822 := "message/rfc822".
Definition MIME_OUTLOOK := "application/vnd.ms-outlook".

(** [{"error": str(e), "file_path": file_path}] *)
Definition error_info (e : exc) (file_path : string) : docinfo :=
  <["file_path" := VStr (lit file_path)]>
    (<["error" := VStr (lit (exc_str e))]> ∅).

Definition vlen {A} (l : list A) : pyval := VInt (Z.of_nat (length l)).

(** *** Loading the module

    The head of [document_processor.py] imports the format libraries:
    [PyPDF2] by a plain [import], the others under [try] / [except
    ImportError], each setting its [..._AVAILABLE] flag.  [installed] tells
    which modules the runtime can import. *)
Record Availability := {
  pdf2image_available : bool;
  docx_available : bool;
  pptx_available : bool;
  xlsx_available : bool;
  email_available : bool }.

(** [import name] *)
Definition import_module (installed : string -> bool) (name : string) : outcome unit :=
  if installed name then Ok tt
  else Raise (PyExc "ModuleNotFoundError" ("No module named '" +:+ name +:+ "'")).

(** [try: import name; FLAG = True  except ImportError: FLAG = False] *)
Definition try_import (installed : string -> bool) (name : string) : outcome bool :=
  match import_module installed name with
  | Ok _ => Ok true
  | Raise e => if is_ImportError e then Ok false else Raise e
  end.

Definition import_document_processor (installed : string -> bool)
  : outcome Availability :=
  _ ← import_module installed "PyPDF2";
  pdf2image ← try_import installed "pdf2image";
  docx ← try_import installed "docx";
  pptx ← try_import installed "pptx";
  openpyxl ← try_import installed "openpyxl";
  email ← try_import installed "email";
  Ok {| pdf2image_available := pdf2image;
        docx_available := docx;
        pptx_available := pptx;
        xlsx_available := openpyxl;
        email_available := email |}.

(** The flags of a loaded module, as the methods read them. *)
Definition loaded_with (env : Env) (a : Availability) : Prop :=
  PDF2IMAGE_AVAILABLE env = pdf2image_available a
  /\ DOCX_AVAILABLE env = docx_available a
  /\ PPTX_AVAILABLE env = pptx_available a
  /\ XLSX_AVAILABLE env = xlsx_available a
  /\ EMAIL_AVAILABLE env = email_available a.

(** The body of the page loop of [process_pdf]: pages that yield no text are
    skipped, the others get a ["Page n:"] header. *)
Fixpoint extract_pages (page_num : Z) (pages : list (outcome pystr))
  : outcome (list pystr) :=
  match pages with
  | [] => Ok []
  | Raise e :: _ => Raise e
  | Ok page_text :: rest =>
      match extract_pages (page_num + 1) rest with
      | Raise e => Raise e
      | Ok l =>
          Ok (match page_text with
              | [] => l
              | _ => (lit "Page " ++ str_of_Z (page_num + 1) ++ lit ":" ++ [LF]
                      ++ page_text) :: l
              end)
      end
  end.

(** [slide_text += shape.text + "\n"] over the shapes that have text. *)
Definition slide_text (shapes : list (option pystr)) : pystr :=
  strip (concat (map (fun sh => match sh with
                                 | Some t => t ++ [LF]
                                 | None => []
                                 end) shapes)).

(** [for part in msg.iter_parts(): if part.get_content_type() == "text/plain":
    body += part.get_content()] *)
Fixpoint plain_parts_content (parts : list email_part) : outcome pystr :=
  match parts with
  | [] => Ok []
  | part :: rest =>
      if bool_decide (part_content_type part = "text/plain") then
        content ← part_content part;
        body ← plain_parts_content rest;
        Ok (content ++ body)
      else plain_parts_content rest
  end.

(** The body of an e-mail: the [text/plain] parts of a multipart message, the
    content of a simple one.  Reading a content can raise. *)
Definition email_body (msg : email_message) : outcome pystr :=
  if msg_is_multipart msg then plain_parts_content (msg_parts msg)
  else msg_content msg.

Module DocumentProcessor.
Section Methods.
Variable env : Env.
Variable upload_folder : string.

Definition get_mime_type (filename : string) : string :=
  match guess_type env filename with
  | Some mime_type => mime_type
  | None => "application/octet-stream"
  end.

Definition get_file_info (file_path : string) : M docinfo :=
  try_except
    (f ← stat file_path;
     let file_size := Z.of_nat (length (f_bytes f)) in
     let file_name := basename file_path in
     let mime_type := get_mime_type file_path in
     let created_time := f_ctime f in
     let modified_time := f_mtime f in
     mret (<["modified_time" := VStr (lit (isoformat env modified_time))]>
          (<["created_time" := VStr (lit (isoformat env created_time))]>
          (<["file_size" := VInt file_size]>
          (<["mime_type" := VStr (lit mime_type)]>
          (<["file_name" := VStr (lit file_name)]>
          (<["file_path" := VStr (lit file_path)]> ∅)))))))
    (fun e => mret (error_info e file_path)).

(** [except ImportError: pass] / [except Exception as e: result[...] = str(e)] *)
Definition text_extraction_failed (e : exc) (result : docinfo) : docinfo :=
  if is_ImportError e then result
  else <["text_extraction_error" := VStr (lit (exc_str e))]> result.

Fixpoint save_images (file_path : string) (i : Z) (images : list (list byte))
  : M (list string) :=
  match images with
  | [] => mret []
  | image :: rest =>
      let image_path :=
        path_join upload_folder
          ("pdf_page_" +:+ pretty (i + 1) +:+ "_" +:+ basename file_path +:+ ".jpg") in
      _ ← write_bytes env image_path image;
      image_paths ← save_images file_path (i + 1) rest;
      mret (image_path :: image_paths)
  end.

(** In the text step the dictionary keeps ["page_count"] when a page raises
    after the reader was opened: the two handlers below are the one
    [except] clause of the source, at the two states [result] can be in. *)
Definition process_pdf (file_path : string) : M docinfo :=
  try_except
    (result ← get_file_info file_path;
     result ←
       try_except
         (bs ← read_bytes file_path;
          pages ← lift (PdfReader env bs);
          let result := <["page_count" := vlen pages]> result in
          try_except
            (pdf_text ← lift (extract_pages 0 pages);
             mret (match pdf_text with
                   | [] => result
                   | _ => <["text_content" := VStr (join [LF; LF] pdf_text)]> result
                   end))
            (fun e => mret (text_extraction_failed e result)))
         (fun e => mret (text_extraction_failed e result));
     if PDF2IMAGE_AVAILABLE env then
       try_except
         (bs ← read_bytes file_path;
          images ← lift (convert_from_path env bs);
          image_paths ← save_images file_path 0 (take 3 images);
          let result :=
            <["extracted_images" := VList (map (fun p => VStr (lit p)) image_paths)]> result in
          let result := <["num_images_extracted" := vlen image_paths]> result in
          mret result)
         (fun e => mret (<["image_extraction_error" := VStr (lit (exc_str e))]> result))
     else mret result)
    (fun e => mret (error_info e file_path)).

(** The tables are read after ["text_content"] and ["paragraph_count"] are
    set: the two handlers below are the one [except] clause of the source,
    at the two states [result] can be in. *)
Definition process_docx (file_path : string) : M docinfo :=
  try_except
    (result ← get_file_info file_path;
     if DOCX_AVAILABLE env then
       try_except
         (bs ← read_bytes file_path;
          doc ← lift (docx_Document env bs);
          let paragraphs := fst doc in
          let result := <["text_content" := VStr (join [LF] paragraphs)]> result in
          let result := <["paragraph_count" := vlen paragraphs]> result in
          try_except
            (tables ← lift (snd doc);
             let result :=
               <["tables" := VList (map (fun table_data =>
                    VList (map (fun row_data => VList (map VStr row_data)) table_data))
                    tables)]> result in
             let result := <["table_count" := vlen tables]> result in
             mret result)
            (fun e => mret (<["docx_extraction_error" := VStr (lit (exc_str e))]> result)))
         (fun e => mret (<["docx_extraction_error" := VStr (lit (exc_str e))]> result))
     else mret result)
    (fun e => mret (error_info e file_path)).

Definition process_pptx (file_path : string) : M docinfo :=
  try_except
    (result ← get_file_info file_path;
     if PPTX_AVAILABLE env then
       try_except
         (bs ← read_bytes file_path;
          prs ← lift (Presentation env bs);
          let slides := map slide_text prs in
          let result := <["slides" := VList (map VStr slides)]> result in
          let result := <["slide_count" := vlen slides]> result in
          mret result)
         (fun e => mret (<["pptx_extraction_error" := VStr (lit (exc_str e))]> result))
     else mret result)
    (fun e => mret (error_info e file_path)).

Definition process_xlsx (file_path : string) : M docinfo :=
  try_except
    (result ← get_file_info file_path;
     if XLSX_AVAILABLE env then
       try_except
         (bs ← read_bytes file_path;
          workbook ← lift (load_workbook env bs);
          let sheets :=
            map (fun sheet => (fst sheet, VList (map VList (take 100 (snd sheet)))))
                workbook in
          let result := <["sheets" := VDict sheets]> result in
          let result := <["sheet_count" := vlen sheets]> result in
          mret result)
         (fun e => mret (<["xlsx_extraction_error" := VStr (lit (exc_str e))]> result))
     else mret result)
    (fun e => mret (error_info e file_path)).

Fixpoint save_attachments (parts : list email_part) : M (list pyval) :=
  match parts with
  | [] => mret []
  | part :: rest =>
      match part_content_disposition part, part_filename part with
      | Some disposition, Some filename =>
          if bool_decide (disposition = "attachment") && negb (bool_decide (filename = ""))
          then
            let attachment_path := path_join upload_folder ("attachment_" +:+ filename) in
            _ ← match part_payload part with
                | Some payload => write_bytes env attachment_path payload
                | None =>
                    (* [open] has created the file when [f.write(None)] raises *)
                    _ ← write_bytes env attachment_path [];
                    raise (PyExc "TypeError"
                             "a bytes-like object is required, not 'NoneType'")
                end;
            attachments ← save_attachments rest;
            mret (VDict [(lit "filename", VStr (lit filename));
                         (lit "path", VStr (lit attachment_path));
                         (lit "mime_type", VStr (lit (part_content_type part)))]
                  :: attachments)
          else save_attachments rest
      | _, _ => save_attachments rest
      end
  end.

(** As in [process_pdf], the handlers are the one [except] clause of the
    source at the states [result] can be in: nothing added yet, ["headers"]
    set (reading the body raised), ["headers"] and ["body"] set. *)
Definition process_email (file_path : string) : M docinfo :=
  try_except
    (result ← get_file_info file_path;
     if EMAIL_AVAILABLE env then
       try_except
         (bs ← read_bytes file_path;
          msg ← lift (BytesParser_parse env bs);
          let headers :=
            VDict [(lit "From", VStr (msg_From msg)); (lit "To", VStr (msg_To msg));
                   (lit "Subject", VStr (msg_Subject msg));
                   (lit "Date", VStr (msg_Date msg))] in
          let result := <["headers" := headers]> result in
          try_except
            (body ← lift (email_body msg);
             let result := <["body" := VStr body]> result in
             try_except
               (attachments ←
                  (if msg_is_multipart msg then save_attachments (msg_parts msg)
                   else mret []);
                let result := <["attachments" := VList attachments]> result in
                let result := <["attachment_count" := vlen attachments]> result in
                mret result)
               (fun e =>
                  mret (<["email_extraction_error" := VStr (lit (exc_str e))]> result)))
            (fun e => mret (<["email_extraction_error" := VStr (lit (exc_str e))]> result)))
         (fun e => mret (<["email_extraction_error" := VStr (lit (exc_str e))]> result))
     else mret result)
    (fun e => mret (error_info e file_path)).

Definition process_image (file_path : string) : M docinfo :=
  try_except
    (result ← get_file_info file_path;
     mret result)
    (fun e => mret (error_info e file_path)).

Definition process_text (file_path : string) : M docinfo :=
  try_except
    (result ← get_file_info file_path;
     try_except_if is_UnicodeDecodeError
       (content ← read_text_utf8 file_path;
        let result := <["text_content" := VStr content]> result in
        let result := <["line_count" := VInt (count LF content + 1)]> result in
        mret result)
       (fun _ =>
        content ← read_text_latin1 file_path;
        let result := <["text_content" := VStr content]> result in
        let result := <["line_count" := VInt (count LF content + 1)]> result in
        mret result))
    (fun e => mret (error_info e file_path)).

(** The [if]/[elif] chain of [process_document] over the MIME type. *)
Definition select_extractor (mime_type : string) : extractor :=
  if bool_decide (mime_type = MIME_PDF) then PDF
  else if bool_decide (mime_type = MIME_DOCX) then DOCX
  else if bool_decide (mime_type = MIME_PPTX) then PPTX
  else if bool_decide (mime_type = MIME_XLSX) then XLSX
  else if bool_decide (mime_type ∈ [MIME_RFC822; MIME_OUTLOOK]) then EMAIL
  else if String.prefix "image/" mime_type then IMAGE
  else if String.prefix "text/" mime_type then TEXT
  else GENERIC.

Definition run_extractor (x : extractor) (file_path : string) : M docinfo :=
  match x with
  | PDF => process_pdf file_path
  | DOCX => process_docx file_path
  | PPTX => process_pptx file_path
  | XLSX => process_xlsx file_path
  | EMAIL => process_email file_path
  | IMAGE => process_image file_path
  | TEXT => process_text file_path
  | GENERIC => get_file_info file_path
  end.

(** [DocumentProcessor.process_document(file_path)] *)
Definition process_document (file_path : string) : M docinfo :=
  _ ← record_call (CallExtract file_path);
  found ← path_exists file_path;
  if negb found then
    mret (<["error" := VStr (lit ("File not found: " +:+ file_path))]> ∅)
  else
    let mime_type := get_mime_type file_path in
    run_extractor (select_extractor mime_type) file_path.
End Methods.
End DocumentProcessor.

(* ===================================================================== *)
(** ** The ORM session: pending rows, commit, cascading delete *)
(* ===================================================================== *)

(** Objects handed to [session.add].  The text of a content row is bound as
    an SQL parameter when the row is flushed. *)
Inductive pending_row :=
| NewDocument (id : string) (row : Document.t)
| NewDocumentContent (id : string) (analysis : option pystr) (extracted_text : pyval)
| NewAnalysisSession (id : option string) (row : AnalysisSession.t)
                     (document_ids : list string).

Definition bind_text (v : pyval) : outcome (option pystr) :=
  match v with
  | VStr s => Ok (Some s)
  | VNone => Ok None
  | _ => Raise (PyExc "InterfaceError" "Error binding parameter: type is not supported")
  end.

Definition with_documents (t : gmap string Document.t) (d : Database) : Database :=
  {| documents := t; document_contents := document_contents d;
     analysis_sessions := analysis_sessions d;
     document_analysis_association := document_analysis_association d;
     queries := queries d |}.

Definition with_document_contents (t : gmap string DocumentContent.t) (d : Database)
  : Database :=
  {| documents := documents d; document_contents := t;
     analysis_sessions := analysis_sessions d;
     document_analysis_association := document_analysis_association d;
     queries := queries d |}.

Definition with_analysis_session (id : string) (row : AnalysisSession.t)
    (document_ids : list string) (d : Database) : Database :=
  {| documents := documents d; document_contents := document_contents d;
     analysis_sessions := <[id := row]> (analysis_sessions d);
     document_analysis_association :=
       document_analysis_association d ++ map (fun doc_id => (doc_id, id)) document_ids;
     queries := queries d |}.

(** One INSERT; a primary key that is taken is an [IntegrityError]. *)
Definition insert_row (d : Database) (r : pending_row) : outcome Database :=
  match r with
  | NewDocument id row =>
      match documents d !! id with
      | Some _ => Raise (PyExc "IntegrityError" "UNIQUE constraint failed: documents.id")
      | None => Ok (with_documents (<[id := row]> (documents d)) d)
      end
  | NewDocumentContent id analysis extracted_text =>
      text ← bind_text extracted_text;
      match document_contents d !! id with
      | Some _ =>
          Raise (PyExc "IntegrityError" "UNIQUE constraint failed: document_contents.id")
      | None =>
          Ok (with_document_contents
                (<[id := {| DocumentContent.analysis := analysis;
                            DocumentContent.extracted_text := text |}]>
                   (document_contents d)) d)
      end
  | NewAnalysisSession None _ _ =>
      Raise (PyExc "IntegrityError" "NOT NULL constraint failed: analysis_sessions.id")
  | NewAnalysisSession (Some id) row document_ids =>
      match analysis_sessions d !! id with
      | Some _ =>
          Raise (PyExc "IntegrityError" "UNIQUE constraint failed: analysis_sessions.id")
      | None => Ok (with_analysis_session id row document_ids d)
      end
  end.

(** The INSERTs of a flush run on a working copy inside the transaction. *)
Fixpoint flush (pending : list pending_row) (d : Database) : outcome Database :=
  match pending with
  | [] => Ok d
  | r :: rest => d' ← insert_row d r; flush rest d'
  end.

Section Session.
Variable env : Env.

(** [session.commit()]: flush, then publish the working copy.  If the
    flush or the commit raises, the committed database is as before. *)
Definition commit (pending : list pending_row) : M unit :=
  fun w =>
    match flush pending (db w) with
    | Raise e => (Raise e, w)
    | Ok d' =>
        match commit_fault env with
        | Some e => (Raise e, w)
        | None => (Ok tt, with_db d' w)
        end
    end.

(** [session.rollback()]: the pending rows and the working copy of the
    transaction are dropped; nothing of them was published. *)
Definition rollback : M unit := mret tt.
End Session.

(** *** Cascading delete

    [session.delete(document)] marks the document and everything the
    ["delete"] cascade reaches from it, following the relationships whose
    options include [delete]; the rows of the association table between two
    loaded ends go with either end. *)
Definition linked_sessions (d : Database) (docs : gset string) : gset string :=
  list_to_set
    (map snd (filter (fun r => r.1 ∈ docs ∧ r.2 ∈ dom (analysis_sessions d))
                     (document_analysis_association d))).

Definition linked_documents (d : Database) (sessions : gset string) : gset string :=
  list_to_set
    (map fst (filter (fun r => r.2 ∈ sessions ∧ r.1 ∈ dom (documents d))
                     (document_analysis_association d))).

Definition cascade_step (d : Database) (marked : gset string * gset string)
  : gset string * gset string :=
  (if delete AnalysisSession_documents
   then marked.1 ∪ linked_documents d marked.2 else marked.1,
   if delete Document_analysis_sessions
   then marked.2 ∪ linked_sessions d marked.1 else marked.2).

Fixpoint cascade_iter (n : nat) (d : Database) (marked : gset string * gset string)
  : gset string * gset string :=
  match n with
  | O => marked
  | S n' => cascade_iter n' d (cascade_step d marked)
  end.

(** Documents and sessions marked for deletion when [document_id] is
    deleted.  Every round that is not yet stable marks a new row, so as many
    rounds as there are rows reach the fixed point ([delete_cascade_closed]). *)
Definition delete_cascade (d : Database) (document_id : string)
  : gset string * gset string :=
  cascade_iter (size (documents d) + size (analysis_sessions d)) d ({[document_id]}, ∅).

(** The DELETEs of the flush. *)
Definition delete_marked (d : Database) (marked : gset string * gset string) : Database :=
  {| documents := filter (fun kv => kv.1 ∉ marked.1) (documents d);
     document_contents :=
       if delete Document_content
       then filter (fun kv => kv.1 ∉ marked.1) (document_contents d)
       else document_contents d;
     analysis_sessions := filter (fun kv => kv.1 ∉ marked.2) (analysis_sessions d);
     document_analysis_association :=
       filter (fun r => ¬ ((r.1 ∈ marked.1 ∧ r.2 ∈ dom (analysis_sessions d))
                          ∨ (r.2 ∈ marked.2 ∧ r.1 ∈ dom (documents d))))
              (document_analysis_association d);
     queries :=
       if delete AnalysisSession_queries
       then filter (fun kv => Query.analysis_id kv.2 ∉ marked.2) (queries d)
       else queries d |}.

Section SessionDelete.
Variable env : Env.

(** [session.delete(document); session.commit()] *)
Definition delete_and_commit (document_id : string) : M unit :=
  fun w =>
    match commit_fault env with
    | Some e => (Raise e, w)
    | None => (Ok tt, with_db (delete_marked (db w) (delete_cascade (db w) document_id)) w)
    end.
End SessionDelete.

(* ===================================================================== *)
(** ** [DocumentService] ([src/services/document_service.py]) *)
(* ===================================================================== *)

(** [k in d] and [d[k]] *)
Definition has_key (d : docinfo) (k : string) : bool := bool_decide (is_Some (d !! k)).

Definition item (d : docinfo) (k : string) : outcome pyval :=
  match d !! k with
  | Some v => Ok v
  | None => Raise (PyExc "KeyError" k)
  end.

(** The dictionaries the service methods return. *)
Inductive process_result :=
| Success (document_id : string)
| Error (document_id : string) (error : string).

Definition result_status (r : process_result) : string :=
  match r with
  | Success _ => "success"
  | Error _ _ => "error"
  end.

(** What [get_document] returns. *)
Record document_view := {
  view_document_id : string;
  view_file_name : string;
  view_mime_type : string;
  view_file_path : string;
  view_status : string;
  view_analysis : option pystr;
  view_extracted_text : option pystr;
  view_metadata : docinfo;
  view_created_at : Z;
  view_updated_at : Z }.

Definition json_dumps (d : docinfo) : outcome docinfo :=
  if bool_decide (map_Forall (fun _ v => json_serializable v = true) d) then Ok d
  else Raise (PyExc "TypeError" "Object of type datetime is not JSON serializable").

Module DocumentService.
Section Methods.
Variable env : Env.
Variable upload_folder : string.

(** *** Flattening an extraction result into the text to store *)

(** ["\t".join([str(cell) if cell is not None else "" for cell in row]) + "\n"] *)
Definition row_text (row : pyval) : outcome pystr :=
  cells ← py_iter row;
  Ok (join [9] (map (fun cell => match cell with
                                 | VNone => []
                                 | _ => py_str (py_repr env) cell
                                 end) cells) ++ [LF]).

Definition sheet_text (sheet : pystr * pyval) : outcome pystr :=
  let sheet_name := fst sheet in
  rows ← py_iter (snd sheet);
  lines ← mapM_outcome row_text rows;
  Ok (lit "Sheet: " ++ sheet_name ++ [LF] ++ concat lines).

Definition sheets_text (sheets : pyval) : outcome pystr :=
  items ← py_items sheets;
  sheet_texts ← mapM_outcome sheet_text items;
  Ok (join [LF; LF] sheet_texts).

Definition metadata_text (metadata : pyval) : outcome pystr :=
  items ← py_items metadata;
  Ok (lit "Metadata:" ++ [LF]
      ++ concat (map (fun kv => fst kv ++ lit ": " ++ py_str (py_repr env) (snd kv) ++ [LF])
                     items)).

Definition images_note (extracted_images : pyval) : outcome pystr :=
  n ← py_len extracted_images;
  Ok ([LF] ++ lit "Note: " ++ str_of_Z n ++ lit " images were extracted from this PDF."
      ++ [LF] ++ lit "Text extraction is limited for this PDF document.").

Definition pdf_fallback_text (file_name : string) (document_info : docinfo)
  : outcome pystr :=
  let extracted_text := lit "PDF Document: " ++ lit file_name ++ [LF; LF] in
  extracted_text ←
    (if has_key document_info "metadata" then
       metadata ← item document_info "metadata";
       t ← metadata_text metadata;
       Ok (extracted_text ++ t)
     else Ok extracted_text);
  (if has_key document_info "extracted_images" then
     images ← item document_info "extracted_images";
     t ← images_note images;
     Ok (extracted_text ++ t)
   else Ok extracted_text).

(** [document_info["mime_type"] == "application/pdf"] *)
Definition is_pdf_info (document_info : docinfo) : bool :=
  match document_info !! "mime_type" with
  | Some (VStr s) => bool_decide (s = lit MIME_PDF)
  | _ => false
  end.

(** The [if]/[elif] chain that fills [extracted_text]. *)
Definition extract_text (file_name : string) (document_info : docinfo)
  : outcome pyval :=
  if has_key document_info "text_content" then item document_info "text_content"
  else if has_key document_info "content" then item document_info "content"
  else if has_key document_info "slides" then
    slides ← item document_info "slides";
    VStr <$> py_join [LF; LF] slides
  else if has_key document_info "sheets" then
    sheets ← item document_info "sheets";
    VStr <$> sheets_text sheets
  else if has_key document_info "body" then item document_info "body"
  else if has_key document_info "mime_type" && is_pdf_info document_info then
    VStr <$> pdf_fallback_text file_name document_info
  else Ok (VStr []).

(** *** [process_document] *)
Definition process_document
    (file_path file_name mime_type document_id : string) : M process_result :=
  try_except
    (found ← path_exists file_path;
     if negb found then
       mret (Error document_id "File not found")
     else
       document_info ← DocumentProcessor.process_document env upload_folder file_path;
       extracted_text ← lift (extract_text file_name document_info);
       _ ← lift (py_len extracted_text);
       doc_metadata ← lift (json_dumps document_info);
       created_at ← datetime_now;
       updated_at ← datetime_now;
       let document :=
         {| Document.file_name := file_name;
            Document.mime_type := mime_type;
            Document.file_path := file_path;
            Document.doc_metadata := Some doc_metadata;
            Document.status := "uploaded";
            Document.created_at := created_at;
            Document.updated_at := updated_at |} in
       let document_content := NewDocumentContent document_id None extracted_text in
       _ ← commit env [NewDocument document_id document; document_content];
       mret (Success document_id))
    (fun e =>
       _ ← rollback;
       mret (Error document_id (exc_str e))).

(** *** Reads *)
Definition get_document (document_id : string) : M (option document_view) :=
  gets (fun w =>
    match documents (db w) !! document_id with
    | None => None
    | Some document =>
        let document_content := document_contents (db w) !! document_id in
        Some {| view_document_id := document_id;
                view_file_name := Document.file_name document;
                view_mime_type := Document.mime_type document;
                view_file_path := Document.file_path document;
                view_status := Document.status document;
                view_analysis := document_content ≫= DocumentContent.analysis;
                view_extracted_text := document_content ≫= DocumentContent.extracted_text;
                view_metadata := default ∅ (Document.doc_metadata document);
                view_created_at := Document.created_at document;
                view_updated_at := Document.updated_at document |}
    end).

Definition document_exists (document_id : string) : M bool :=
  gets (fun w => bool_decide (is_Some (documents (db w) !! document_id))).

(** *** [delete_document] *)
Definition delete_document (document_id : string) : M bool :=
  document ← gets (fun w => documents (db w) !! document_id);
  match document with
  | None => mret false
  | Some document =>
      let file_path := Document.file_path document in
      _ ← delete_and_commit env document_id;
      _ ← try_except
            (found ← path_exists file_path;
             if (found : bool) then os_remove env file_path else mret tt)
            (fun _ => mret tt);
      mret true
  end.
End Methods.
End DocumentService.

(* ===================================================================== *)
(** ** Session creation ([src/api/routers/analysis.py]) *)
(* ===================================================================== *)

(** [AnalysisRequest] of [src/core/models.py]: its two fields. *)
Record AnalysisRequest := {
  ar_document_ids : list string;
  ar_context : option pystr }.

(** Attribute access on the request model. *)
Definition AnalysisRequest_getattr (request : AnalysisRequest) (name : string)
  : outcome pyval :=
  if bool_decide (name = "document_ids") then
    Ok (VList (map (fun i => VStr (lit i)) (ar_document_ids request)))
  else if bool_decide (name = "context") then
    Ok (match ar_context request with Some c => VStr c | None => VNone end)
  else
    Raise (PyExc "AttributeError"
             ("'AnalysisRequest' object has no attribute '" +:+ name +:+ "'")).

(** The declarative constructor takes keywords that name an attribute of the
    mapped class and rejects any other. *)
Fixpoint declarative_constructor (attributes : list string)
    (kwargs : list (string * pyval)) : outcome (list (string * pyval)) :=
  match kwargs with
  | [] => Ok []
  | (k, v) :: rest =>
      if bool_decide (k ∈ attributes) then
        set ← declarative_constructor attributes rest;
        Ok ((k, v) :: set)
      else
        Raise (PyExc "TypeError"
                 ("'" +:+ k +:+ "' is an invalid keyword argument for AnalysisSession"))
  end.

Definition kwarg (k : string) (kwargs : list (string * pyval)) : pyval :=
  match list_find (fun kv => kv.1 = k) kwargs with
  | Some (_, kv) => kv.2
  | None => VNone
  end.

Definition as_text (v : pyval) : option pystr :=
  match v with
  | VStr s => Some s
  | _ => None
  end.

Record analysis_response := {
  resp_analysis_id : string;
  resp_summary : pystr;
  resp_insights : list pyval;
  resp_document_count : Z }.

Module AnalysisRouter.
Section Handlers.
Variable env : Env.

(** [for doc_id in request.document_ids: if not document_exists(doc_id): raise ...] *)
Fixpoint check_documents_exist (document_ids : list string) : M unit :=
  match document_ids with
  | [] => mret tt
  | doc_id :: rest =>
      found ← DocumentService.document_exists doc_id;
      if negb found then
        raise (HTTPException 404 ("Document " +:+ doc_id +:+ " not found"))
      else check_documents_exist rest
  end.

Fixpoint collect_documents (document_ids : list string) : M (list (option document_view)) :=
  match document_ids with
  | [] => mret []
  | doc_id :: rest =>
      doc ← DocumentService.get_document doc_id;
      docs ← collect_documents rest;
      mret (doc :: docs)
  end.

(** [new_session.documents.append(doc)]: [doc] is the dictionary that
    [get_document] returned, which the relationship collection refuses. *)
Definition append_documents (documents : list (option document_view)) : M unit :=
  match documents with
  | [] => mret tt
  | _ :: _ =>
      raise (PyExc "AttributeError" "'dict' object has no attribute '_sa_instance_state'")
  end.

(** [analyze_documents]; [uuid4] is the identifier drawn for the session. *)
Definition analyze_documents (request : AnalysisRequest) (uuid4 : string)
  : M analysis_response :=
  try_except
    (_ ← check_documents_exist (ar_document_ids request);
     documents ← collect_documents (ar_document_ids request);
     let analysis_id := uuid4 in
     let summary :=
       lit "Document session with " ++ str_of_Z (Z.of_nat (length documents))
       ++ lit " document(s)" in
     context ← lift (AnalysisRequest_getattr request "query");
     created_at ← datetime_now;
     updated_at ← datetime_now;
     new_session ←
       lift (declarative_constructor AnalysisSession_attributes
               [("analysis_id", VStr (lit analysis_id));
                ("summary", VStr summary);
                ("context", context);
                ("created_at", VInt created_at);
                ("updated_at", VInt updated_at)]);
     _ ← append_documents documents;
     let row :=
       {| AnalysisSession.summary := as_text (kwarg "summary" new_session);
          AnalysisSession.context := as_text (kwarg "context" new_session);
          AnalysisSession.created_at := created_at;
          AnalysisSession.updated_at := updated_at |} in
     _ ← commit env [NewAnalysisSession None row (ar_document_ids request)];
     mret {| resp_analysis_id := analysis_id;
             resp_summary := summary;
             resp_insights := [];
             resp_document_count := Z.of_nat (length documents) |})
    (fun e =>
       raise (HTTPException 500 ("Error creating document session: " +:+ exc_str e))).
End Handlers.
End AnalysisRouter.

(* ===================================================================== *)
(** ** Answering a query ([src/api/routers/query.py]) *)
(* ===================================================================== *)

(** The request dictionary after [request.get("document_ids", [])] and
    [request.get("query", "")]. *)
Record QueryRequest := {
  qr_document_ids : list string;
  qr_query : pystr }.

Record query_response := {
  q_response : pystr;
  q_sources : list (string * string);       (* document_id, file_name *)
  q_created_at : Z }.

Definition apology : pystr :=
  lit ("I couldn't find any content in the selected documents. "
       +:+ "Please try with different documents or check if the documents "
       +:+ "were processed correctly.").

Definition system_prompt : pystr :=
  lit ("You are an AI assistant specialized in document analysis and question answering. "
       +:+ "Your task is to provide accurate, concise answers based solely on the content "
       +:+ "of the provided documents. Follow these guidelines:") ++ [LF]
  ++ lit "1. Only use information explicitly stated in the documents" ++ [LF]
  ++ lit "2. If the answer is not in the documents, say so clearly" ++ [LF]
  ++ lit "3. Cite specific document names when referencing information" ++ [LF]
  ++ lit "4. Provide direct quotes when appropriate" ++ [LF]
  ++ lit "5. Structure complex answers with bullet points or numbered lists" ++ [LF]
  ++ lit "6. Format code snippets, tables, and technical content appropriately" ++ [LF].

(** The section one document contributes to the prompt: nothing when it has
    no text. *)
Definition document_section (i : Z) (doc : document_view) : pystr :=
  match view_extracted_text doc with
  | None | Some [] => []
  | Some doc_content =>
      [LF; LF] ++ lit "--- DOCUMENT " ++ str_of_Z (i + 1) ++ lit ": "
      ++ lit (view_file_name doc) ++ lit " (ID: " ++ lit (view_document_id doc)
      ++ lit ") ---" ++ [LF] ++ doc_content ++ [LF]
  end.

(** [for i, doc in enumerate(documents): document_context += ...] *)
Fixpoint document_context (i : Z) (documents : list document_view) : pystr :=
  match documents with
  | [] => []
  | doc :: rest => document_section i doc ++ document_context (i + 1) rest
  end.

Definition sources_of (documents : list document_view) : list (string * string) :=
  map (fun doc => (view_document_id doc, view_file_name doc)) documents.

Module QueryRouter.
Section Handlers.
Variable env : Env.

Fixpoint collect_documents (document_ids : list string) : M (list document_view) :=
  match document_ids with
  | [] => mret []
  | doc_id :: rest =>
      document ← DocumentService.get_document doc_id;
      match document with
      | None => raise (HTTPException 404 ("Document " +:+ doc_id +:+ " not found"))
      | Some document =>
          documents ← collect_documents rest;
          mret (document :: documents)
      end
  end.

Definition query_documents (request : QueryRequest) : M query_response :=
  try_except
    (let document_ids := qr_document_ids request in
     let query := qr_query request in
     match document_ids, query with
     | [], _ => raise (HTTPException 400 "No documents selected")
     | _, [] => raise (HTTPException 400 "Query is required")
     | _, _ =>
         documents ← collect_documents document_ids;
         let document_context := document_context 0 documents in
         match strip document_context with
         | [] =>
             created_at ← datetime_now;
             mret {| q_response := apology;
                     q_sources := sources_of documents;
                     q_created_at := created_at |}
         | _ =>
             let prompt :=
               system_prompt ++ [LF; LF] ++ lit "DOCUMENT CONTENT:" ++ [LF]
               ++ document_context ++ [LF; LF] ++ lit "USER QUERY: " ++ query
               ++ [LF; LF]
               ++ lit ("Please provide a comprehensive answer based only on the "
                       +:+ "information in the documents above.") in
             _ ← record_call (CallGenerate prompt);
             response_text ← lift (generate_content env prompt);
             created_at ← datetime_now;
             mret {| q_response := response_text;
                     q_sources := sources_of documents;
                     q_created_at := created_at |}
         end
     end)
    (fun e => raise (HTTPException 500 (exc_str e))).
End Handlers.
End QueryRouter.

(* ===================================================================== *)
(** ** Specification vocabulary *)
(* ===================================================================== *)

(** The base file metadata of an existing file, as [get_file_info] builds it. *)
Definition file_info (env : Env) (file_path : string) (f : file) : docinfo :=
  <["modified_time" := VStr (lit (isoformat env (f_mtime f)))]>
  (<["created_time" := VStr (lit (isoformat env (f_ctime f)))]>
  (<["file_size" := VInt (Z.of_nat (length (f_bytes f)))]>
  (<["mime_type" := VStr (lit (DocumentProcessor.get_mime_type env file_path))]>
  (<["file_name" := VStr (lit (basename file_path))]>
  (<["file_path" := VStr (lit file_path)]> ∅))))).

(** Whether the parsing library an extractor relies on is installed. *)
Definition library_available (env : Env) (x : extractor) : bool :=
  match x with
  | PDF => true                      (* PyPDF2 is imported unconditionally *)
  | DOCX => DOCX_AVAILABLE env
  | PPTX => PPTX_AVAILABLE env
  | XLSX => XLSX_AVAILABLE env
  | EMAIL => EMAIL_AVAILABLE env
  | IMAGE | TEXT | GENERIC => true
  end.

(** Weakest precondition of a computation for a postcondition on normal
    return and one on a raised exception. *)
Definition wp {A} (m : M A) (Q : A -> World -> Prop) (R : exc -> World -> Prop)
    (w : World) : Prop :=
  match m w with
  | (Ok a, w') => Q a w'
  | (Raise e, w') => R e w'
  end.

(** The text read from a file: UTF-8 if the bytes decode, Latin-1 if not. *)
Definition decoded_text (bs : list byte) : pystr :=
  universal_newlines
    (match utf8_decode (map byte_val bs) with
     | Some s => s
     | None => latin1_decode (map byte_val bs)
     end).

(** [str(cell) if cell is not None else ""] *)
Definition cell_text (env : Env) (cell : pyval) : pystr :=
  match cell with
  | VNone => []
  | _ => py_str (py_repr env) cell
  end.

(** A sheet as text: its name, then one tab-separated line per row. *)
Definition sheet_as_text (env : Env) (sheet : pystr * list (list pyval)) : pystr :=
  lit "Sheet: " ++ fst sheet ++ [LF]
  ++ concat (map (fun row => join [9] (map (cell_text env) row) ++ [LF]) (snd sheet)).

Definition sheet_value (sheet : pystr * list (list pyval)) : pystr * pyval :=
  (fst sheet, VList (map VList (snd sheet))).

(** The note stored for a PDF without a text layer: the file name, the
    metadata entries if there are any, the number of page images if any
    were extracted. *)
Definition pdf_note (env : Env) (file_name : string)
    (metadata : option (list (pystr * pyval))) (images : option (list pyval)) : pystr :=
  lit "PDF Document: " ++ lit file_name ++ [LF; LF]
  ++ match metadata with
     | Some items =>
         lit "Metadata:" ++ [LF]
         ++ concat (map (fun kv => fst kv ++ lit ": " ++ py_str (py_repr env) (snd kv) ++ [LF])
                        items)
     | None => []
     end
  ++ match images with
     | Some l =>
         [LF] ++ lit "Note: " ++ str_of_Z (Z.of_nat (length l))
         ++ lit " images were extracted from this PDF."
         ++ [LF] ++ lit "Text extraction is limited for this PDF document."
     | None => []
     end.

(** The dictionary [get_document] builds from a document row. *)
Definition view_of (d : Database) (document_id : string) (document : Document.t)
  : document_view :=
  let document_content := document_contents d !! document_id in
  {| view_document_id := document_id;
     view_file_name := Document.file_name document;
     view_mime_type := Document.mime_type document;
     view_file_path := Document.file_path document;
     view_status := Document.status document;
     view_analysis := document_content ≫= DocumentContent.analysis;
     view_extracted_text := document_content ≫= DocumentContent.extracted_text;
     view_metadata := default ∅ (Document.doc_metadata document);
     view_created_at := Document.created_at document;
     view_updated_at := Document.updated_at document |}.

(** A document has text when its content row holds a non-empty string. *)
Definition has_text (d : Database) (document_id : string) : Prop :=
  exists c s, document_contents d !! document_id = Some c
              /\ DocumentContent.extracted_text c = Some s /\ s <> [].

Definition file_name_of (d : Database) (document_id : string) : string :=
  default "" (Document.file_name <$> documents d !! document_id).


(** The postconditions of the extractor lemmas: the result contains the
    base metadata; no exception escapes. *)
Definition keeps (base : docinfo) : docinfo -> World -> Prop :=
  fun result _ => base ⊆ result.
Definition never : exc -> World -> Prop := fun _ _ => False.

(** A computation that leaves the database as it found it. *)
Definition frames_db {A} (m : M A) : Prop := forall w, db (m w).2 = db w.

(** The document row [process_document] builds at clock [c]. *)
Definition new_document (file_path file_name mime_type : string) (doc_metadata : docinfo)
    (c : Z) : Document.t :=
  {| Document.file_name := file_name;
     Document.mime_type := mime_type;
     Document.file_path := file_path;
     Document.doc_metadata := Some doc_metadata;
     Document.status := "uploaded";
     Document.created_at := c;
     Document.updated_at := c + 1 |}.

(** What is computed between extraction and commit: the text to store,
    checked by [len], and the serialised metadata. *)
Definition prepared (env : Env) (file_name : string) (document_info : docinfo)
  : outcome (pyval * docinfo) :=
  extracted_text ← DocumentService.extract_text env file_name document_info;
  _ ← py_len extracted_text;
  doc_metadata ← json_dumps document_info;
  Ok (extracted_text, doc_metadata).

(** Whether the two rows of [document_id] can be committed: the error the
    flush or the commit raises, or the text that is stored. *)
Definition pair_commit_check (env : Env) (id : string) (extracted_text : pyval)
    (w : World) : exc + option pystr :=
  match documents (db w) !! id with
  | Some _ => inl (PyExc "IntegrityError" "UNIQUE constraint failed: documents.id")
  | None =>
      match bind_text extracted_text with
      | Raise e => inl e
      | Ok text =>
          match document_contents (db w) !! id with
          | Some _ =>
              inl (PyExc "IntegrityError" "UNIQUE constraint failed: document_contents.id")
          | None =>
              match commit_fault env with
              | Some e => inl e
              | None => inr text
              end
          end
      end
  end.

Definition with_pair (id : string) (row : Document.t) (text : option pystr)
    (d : Database) : Database :=
  with_document_contents
    (<[id := {| DocumentContent.analysis := None;
                DocumentContent.extracted_text := text |}]> (document_contents d))
    (with_documents (<[id := row]> (documents d)) d).

(** What the cascade has marked: how many rows, and that they are rows of
    the tables. *)
Definition marked_size (marked : gset string * gset string) : nat :=
  (size marked.1 + size marked.2)%nat.

Definition marked_rows (d : Database) (marked : gset string * gset string) : Prop :=
  marked.1 ⊆ dom (documents d) /\ marked.2 ⊆ dom (analysis_sessions d).

(** *** A concrete runtime for the examples *)

Definition has_suffix (suffix s : string) : bool :=
  String.prefix (String.rev suffix) (String.rev s).

(** A few entries of the table of [mimetypes]. *)
Definition sample_guess_type (p : string) : option string :=
  if has_suffix ".txt" p then Some "text/plain"
  else if has_suffix ".pdf" p then Some MIME_PDF
  else if has_suffix ".docx" p then Some MIME_DOCX
  else if has_suffix ".png" p then Some "image/png"
  else None.

Definition not_parsed {A} (_ : list byte) : outcome A :=
  Raise (PyExc "ValueError" "cannot parse").

(** A runtime without the optional libraries ([email] is part of the
    standard library). *)
Definition bare_env : Env :=
  {| guess_type := sample_guess_type;
     isoformat := pretty;
     py_repr := fun _ => lit "?";
     PDF2IMAGE_AVAILABLE := false;
     DOCX_AVAILABLE := false;
     PPTX_AVAILABLE := false;
     XLSX_AVAILABLE := false;
     EMAIL_AVAILABLE := true;
     PdfReader := not_parsed;
     convert_from_path := not_parsed;
     docx_Document := not_parsed;
     Presentation := not_parsed;
     load_workbook := not_parsed;
     BytesParser_parse := not_parsed;
     write_fault := fun _ => None;
     remove_fault := fun _ => None;
     commit_fault := None;
     generate_content := fun _ => Ok (lit "generated") |}.

Definition new_world : World :=
  {| fs := ∅; db := empty_db; clock := 0; calls := [] |}.

Definition two_lines : list byte :=
  bytes_of "line1" ++ ["010"%byte] ++ bytes_of "line2" ++ ["010"%byte].

Definition two_lines_text : pystr := lit "line1" ++ [LF] ++ lit "line2" ++ [LF].

Definition sample_document (file_name : string) : Document.t :=
  {| Document.file_name := file_name;
     Document.file_path := "./uploads/" +:+ file_name;
     Document.mime_type := "text/plain";
     Document.doc_metadata := None;
     Document.status := "uploaded";
     Document.created_at := 0;
     Document.updated_at := 0 |}.

Definition sample_content (text : pystr) : DocumentContent.t :=
  {| DocumentContent.analysis := None; DocumentContent.extracted_text := Some text |}.

Definition sample_session : AnalysisSession.t :=
  {| AnalysisSession.summary := Some (lit "Document session with 2 document(s)");
     AnalysisSession.context := None;
     AnalysisSession.created_at := 0;
     AnalysisSession.updated_at := 0 |}.

(** One document whose extraction produced no text. *)
Definition blank_db : Database :=
  {| documents := {[ "d1" := sample_document "scan.png" ]};
     document_contents := {[ "d1" := sample_content [] ]};
     analysis_sessions := ∅;
     document_analysis_association := [];
     queries := ∅ |}.

Definition blank_world : World := with_db blank_db new_world.

(** Two documents grouped in one session that has one recorded query. *)
Definition shared_db : Database :=
  {| documents := {[ "d1" := sample_document "a.txt"; "d2" := sample_document "b.txt" ]};
     document_contents := {[ "d1" := sample_content (lit "alpha");
                             "d2" := sample_content (lit "beta") ]};
     analysis_sessions := {[ "s1" := sample_session ]};
     document_analysis_association := [("d1", "s1"); ("d2", "s1")];
     queries := {[ 1 := {| Query.analysis_id := "s1";
                           Query.query_text := lit "what is alpha?";
                           Query.response_text := Some (lit "a letter");
                           Query.created_at := 1;
                           Query.updated_at := 1 |} ]} |}.

Definition shared_world : World := with_db shared_db new_world.

(** A runtime with the standard library only, and one that has [PyPDF2] but
    none of the other parsing libraries. *)
Definition stdlib_only (name : string) : bool := bool_decide (name = "email").

Definition with_PyPDF2 (name : string) : bool :=
  bool_decide (name = "email") || bool_decide (name = "PyPDF2").

(** A store holding one uploaded Word document. *)
Definition report_file : file :=
  {| f_bytes := bytes_of "PK-docx"; f_ctime := 3; f_mtime := 4 |}.

Definition report_world : World :=
  with_fs {[ "./uploads/report.docx" := report_file ]} new_world.

Definition notes_file : file :=
  {| f_bytes := two_lines; f_ctime := 7; f_mtime := 7 |}.

(** An extraction result with both a text and slides. *)
Definition mixed_info : docinfo :=
  <["slides" := VList [VStr (lit "one"); VStr (lit "two")]]>
    (<["text_content" := VStr (lit "hello")]> ∅).

(** A store holding one uploaded text file. *)
Definition notes_world : World :=
  with_fs {[ "./uploads/20240101000000_notes.txt" := notes_file ]} new_world.

(* ===================================================================== *)
(** ** Storing uploads and fetching URLs
       ([save_uploaded_file], [is_valid_url], [download_from_url],
        [process_url]) *)
(* ===================================================================== *)

Record url_parts := {
  url_scheme : string;
  url_netloc : string;
  url_path : string }.

Record http_response := {
  http_error : option exc;                       (* what [raise_for_status] raises *)
  header_content_disposition : option string;
  header_content_type : option string;
  response_content : list byte }.

(** The web and the rendering of the clock: [urlparse], [requests.get] and
    [datetime.strftime("%Y%m%d%H%M%S")]. *)
Record Net := {
  urlparse : string -> outcome url_parts;
  requests_get : string -> outcome http_response;
  strftime : Z -> string }.

Definition dquote : ascii := "034"%char.

(** The longest run of characters other than the double quote. *)
Fixpoint until_quote (s : string) : string :=
  match s with
  | EmptyString => EmptyString
  | String c r => if Ascii.eqb c dquote then EmptyString else String c (until_quote r)
  end.

Fixpoint string_drop (n : nat) (s : string) : string :=
  match n, s with
  | S n', String _ r => string_drop n' r
  | _, _ => s
  end.

(** The rest of the pattern after [filename=]: an optional quote, then one
    or more characters that are no quote. *)
Definition filename_group (rest : string) : option string :=
  match rest with
  | EmptyString => None
  | String c r =>
      if Ascii.eqb c dquote then
        match until_quote r with
        | EmptyString => None
        | name => Some name
        end
      else Some (until_quote rest)
  end.

(** [re.search] for the pattern of [download_from_url] — the text
    [filename=], an optional quote, a group of one or more characters that
    are no quote, an optional quote — and its group 1: the leftmost position
    at which the pattern matches. *)
Fixpoint search_filename (s : string) : option string :=
  match s with
  | EmptyString => None
  | String _ r =>
      if String.prefix "filename=" s then
        match filename_group (string_drop 9 s) with
        | Some name => Some name
        | None => search_filename r
        end
      else search_filename r
  end.

Module ProcessorUploads.
Section Methods.
Variable env : Env.
Variable net : Net.
Variable upload_folder : string.

Definition save_uploaded_file (file_content : list byte) (filename : string) : M string :=
  if bool_decide (filename = "") || bool_decide (strip (lit filename) = []) then
    raise (PyExc "ValueError" "Filename cannot be empty")
  else
    now ← datetime_now;
    let timestamp := strftime net now in
    let unique_filename := timestamp +:+ "_" +:+ filename in
    let file_path := path_join upload_folder unique_filename in
    try_except
      (_ ← write_bytes env file_path file_content;
       found ← path_exists file_path;
       if (found : bool) then mret file_path
       else raise (PyExc "FileNotFoundError"
                     ("File was not found after saving: " +:+ file_path)))
      (fun e => raise e).

Definition is_valid_url (url : string) : bool :=
  match urlparse net url with
  | Ok result =>
      negb (bool_decide (url_scheme result = "")) && negb (bool_decide (url_netloc result = ""))
  | Raise _ => false
  end.

Definition download_from_url (url : string) : M (string * list byte * string) :=
  try_except
    (response ← lift (requests_get net url);
     _ ← match http_error response with
         | Some e => raise e
         | None => mret tt
         end;
     let filename :=
       match header_content_disposition response with
       | Some content_disposition =>
           if bool_decide (content_disposition = "") then None
           else search_filename content_disposition
       | None => None
       end in
     filename ← match filename with
                | Some name => mret name
                | None =>
                    parsed_url ← lift (urlparse net url);
                    mret (basename (url_path parsed_url))
                end;
     filename ← (if bool_decide (filename = "") then
                   parsed_url ← lift (urlparse net url);
                   now ← datetime_now;
                   mret (url_netloc parsed_url +:+ "_" +:+ strftime net now +:+ ".html")
                 else mret filename);
     let content_type := default "text/html" (header_content_type response) in
     mret (filename, response_content response, content_type))
    (fun e => raise (PyExc "Exception" ("Failed to download from URL: " +:+ exc_str e))).

Definition process_url (url : string) : M (string * string * string) :=
  downloaded ← download_from_url url;
  let filename := downloaded.1.1 in
  let content := downloaded.1.2 in
  let mime_type := downloaded.2 in
  file_path ← save_uploaded_file content filename;
  mret (file_path, filename, mime_type).
End Methods.
End ProcessorUploads.

(** The dictionary [DocumentService.process_url] returns. *)
Inductive url_result :=
| UrlSuccess (document_id file_path file_name mime_type : string)
| UrlError (error : string).

Module ServiceUploads.
Section Methods.
Variable env : Env.
Variable net : Net.
Variable upload_folder : string.

Definition save_uploaded_file (file_content : list byte) (filename : string) : M string :=
  try_except
    (ProcessorUploads.save_uploaded_file env net upload_folder file_content filename)
    (fun e => raise e).

Definition process_url (url uuid4 : string) : M url_result :=
  try_except
    (if negb (ProcessorUploads.is_valid_url net url) then
       mret (UrlError "Invalid URL format")
     else
       processed ← ProcessorUploads.process_url env net upload_folder url;
       let document_id := uuid4 in
       mret (UrlSuccess document_id processed.1.1 processed.1.2 processed.2))
    (fun e => mret (UrlError (exc_str e))).
End Methods.
End ServiceUploads.

(* ===================================================================== *)
(** ** The document endpoints ([src/api/routers/documents.py]) *)
(* ===================================================================== *)

Record UploadFile := {
  upload_filename : string;
  upload_content : list byte }.

(** A call of [process_document] handed to the background tasks. *)
Record task := {
  task_file_path : string;
  task_file_name : string;
  task_mime_type : string;
  task_document_id : string }.

Inductive upload_response :=
| Uploaded (document_id status : string)
| UploadFailed (status_code : Z) (error : string).

Module DocumentsRouter.
Section Handlers.
Variable env : Env.
Variable net : Net.
Variable upload_folder : string.

(** The response and the tasks added to [background_tasks]. *)
Definition upload_document (file : UploadFile) (uuid4 : string)
  : M (upload_response * list task) :=
  try_except
    (let document_id := uuid4 in
     let file_content := upload_content file in
     saved ← try_except
               (file_path ← ServiceUploads.save_uploaded_file env net upload_folder
                              file_content (upload_filename file);
                mret (inl file_path))
               (fun save_error => mret (inr save_error));
     match saved with
     | inr save_error =>
         mret (UploadFailed 500 ("Failed to save file: " +:+ exc_str save_error), [])
     | inl file_path =>
         let mime_type := DocumentProcessor.get_mime_type env (upload_filename file) in
         mret (Uploaded document_id "uploaded",
               [{| task_file_path := file_path;
                   task_file_name := upload_filename file;
                   task_mime_type := mime_type;
                   task_document_id := document_id |}])
     end)
    (fun e => mret (UploadFailed 500 (exc_str e), [])).

Definition process_url (url uuid4 : string) : M (upload_response * list task) :=
  try_except
    (result ← ServiceUploads.process_url env net upload_folder url uuid4;
     match result with
     | UrlError error => mret (UploadFailed 400 error, [])
     | UrlSuccess document_id file_path file_name mime_type =>
         mret (Uploaded document_id "uploaded",
               [{| task_file_path := file_path;
                   task_file_name := file_name;
                   task_mime_type := mime_type;
                   task_document_id := document_id |}])
     end)
    (fun e => mret (UploadFailed 500 (exc_str e), [])).


Definition get_document (document_id : string) : M document_view :=
  document ← DocumentService.get_document document_id;
  match document with
  | None => raise (HTTPException 404 "Document not found")
  | Some document => mret document
  end.

Definition delete_document (document_id : string) : M string :=
  success ← DocumentService.delete_document env document_id;
  if negb success then raise (HTTPException 404 "Document not found")
  else mret ("Document " +:+ document_id +:+ " deleted").
End Handlers.
End DocumentsRouter.

(** The rows of a sheet that [process_xlsx] reads: the first hundred. *)
Definition first_100_rows (sheet : pystr * list (list pyval)) : pystr * list (list pyval) :=
  (fst sheet, take 100 (snd sheet)).

(** The value stored under ["extracted_images"]. *)
Definition image_paths_value (image_paths : list string) : pyval :=
  VList (map (fun p => VStr (lit p)) image_paths).

(** What the text step of [process_pdf] leaves in the dictionary: the MIME
    type of the path, and none of the keys the other extractors or the
    image step write. *)
Definition pdf_text_stage (mime_type : string) (result : docinfo) : Prop :=
  result !! "mime_type" = Some (VStr (lit mime_type))
  /\ result !! "content" = None
  /\ result !! "slides" = None
  /\ result !! "sheets" = None
  /\ result !! "body" = None
  /\ result !! "metadata" = None
  /\ result !! "extracted_images" = None
  /\ result !! "num_images_extracted" = None.

(** What [process_pdf] returns for an existing file: as above, with at most
    three page images reported. *)
Definition pdf_result (mime_type : string) (result : docinfo) : Prop :=
  result !! "mime_type" = Some (VStr (lit mime_type))
  /\ result !! "content" = None
  /\ result !! "slides" = None
  /\ result !! "sheets" = None
  /\ result !! "body" = None
  /\ result !! "metadata" = None
  /\ exists image_paths : option (list string),
       result !! "extracted_images" = image_paths_value <$> image_paths
       /\ result !! "num_images_extracted" = vlen <$> image_paths
       /\ from_option (fun l => (length l <= 3)%nat) True image_paths.

(** [not filename or filename.strip() == ''] *)
Definition blank_name (filename : string) : Prop :=
  filename = "" \/ strip (lit filename) = [].

(** Where an upload named [filename] received at time [now] is stored, and
    the file written there. *)
Definition upload_path (net : Net) (upload_folder : string) (now : Z) (filename : string)
  : string :=
  path_join upload_folder (strftime net now +:+ "_" +:+ filename).

Definition written_at (t : Z) (content : list byte) : file :=
  {| f_bytes := content; f_ctime := t; f_mtime := t |}.

(** The task an upload schedules. *)
Definition upload_task (env : Env) (net : Net) (upload_folder : string) (now : Z)
    (file : UploadFile) (document_id : string) : task :=
  {| task_file_path := upload_path net upload_folder now (upload_filename file);
     task_file_name := upload_filename file;
     task_mime_type := DocumentProcessor.get_mime_type env (upload_filename file);
     task_document_id := document_id |}.

(** The file name the [Content-Disposition] header of a response gives. *)
Definition disposition_filename (response : http_response) : option string :=
  header_content_disposition response ≫= search_filename.

(** A text without double quote. *)
Definition quote_free (s : string) : Prop :=
  forall c, In c (list_ascii_of_string s) -> c <> dquote.

(** The prompt [query_documents] sends for the resolved documents. *)
Definition query_prompt (documents : list document_view) (query : pystr) : pystr :=
  system_prompt ++ [LF; LF] ++ lit "DOCUMENT CONTENT:" ++ [LF]
  ++ document_context 0 documents ++ [LF; LF] ++ lit "USER QUERY: " ++ query
  ++ [LF; LF]
  ++ lit ("Please provide a comprehensive answer based only on the "
          +:+ "information in the documents above.").

(** The {document_id, file_name} pairs of the given identifiers. *)
Definition sources_in (d : Database) (document_ids : list string) : list (string * string) :=
  map (fun id => (id, file_name_of d id)) document_ids.

(** *** Further sample runtimes and stores *)

(** Two sheets, the first with one row more than [process_xlsx] reads. *)
Definition sample_workbook : list (pystr * list (list pyval)) :=
  [(lit "Totals", replicate 101 [VStr (lit "item"); VNone; VInt 3]);
   (lit "Notes", [[VStr (lit "all"); VNone]])].

Definition sample_message : email_message :=
  {| msg_From := lit "a@example.org"; msg_To := lit "b@example.org";
     msg_Subject := lit "minutes"; msg_Date := lit "Mon, 1 Jan 2024";
     msg_is_multipart := false; msg_parts := [];
     msg_content := Ok (lit "see you at ten") |}.

(** A runtime with the parsing libraries but [pdf2image]; each parser
    answers with one small document, the PDF reader with a page without
    text. *)
Definition office_env : Env :=
  {| guess_type := sample_guess_type;
     isoformat := pretty;
     py_repr := fun _ => lit "?";
     PDF2IMAGE_AVAILABLE := false;
     DOCX_AVAILABLE := true;
     PPTX_AVAILABLE := true;
     XLSX_AVAILABLE := true;
     EMAIL_AVAILABLE := true;
     PdfReader := fun _ => Ok [Ok []];
     convert_from_path := not_parsed;
     docx_Document := fun _ => Ok ([lit "Hello"; lit "World"], Ok [[[lit "cell"]]]);
     Presentation := fun _ => Ok [[Some (lit "Title"); None]; []];
     load_workbook := fun _ => Ok sample_workbook;
     BytesParser_parse := fun _ => Ok sample_message;
     write_fault := fun _ => None;
     remove_fault := fun _ => None;
     commit_fault := None;
     generate_content := fun _ => Ok (lit "generated") |}.

(** The bare runtime over a store that refuses every commit. *)
Definition locked : exc := PyExc "OperationalError" "database is locked".

Definition locked_env : Env :=
  {| guess_type := sample_guess_type;
     isoformat := pretty;
     py_repr := fun _ => lit "?";
     PDF2IMAGE_AVAILABLE := false;
     DOCX_AVAILABLE := false;
     PPTX_AVAILABLE := false;
     XLSX_AVAILABLE := false;
     EMAIL_AVAILABLE := true;
     PdfReader := not_parsed;
     convert_from_path := not_parsed;
     docx_Document := not_parsed;
     Presentation := not_parsed;
     load_workbook := not_parsed;
     BytesParser_parse := not_parsed;
     write_fault := fun _ => None;
     remove_fault := fun _ => None;
     commit_fault := Some locked;
     generate_content := fun _ => Ok (lit "generated") |}.

Definition scan_world : World :=
  with_fs {[ "./uploads/scan.pdf" := report_file ]} new_world.

(** A header naming [report.txt] between double quotes. *)
Definition sample_disposition : string :=
  "attachment; filename=" +:+ String dquote ("report.txt" +:+ String dquote EmptyString).

Definition sample_response : http_response :=
  {| http_error := None;
     header_content_disposition := Some sample_disposition;
     header_content_type := Some "text/plain";
     response_content := bytes_of "hello" |}.

Definition sample_parts : url_parts :=
  {| url_scheme := "https"; url_netloc := "example.org"; url_path := "/docs/page.html" |}.

(** A web with one host; every instant renders as the same second. *)
Definition sample_net : Net :=
  {| urlparse := fun url =>
       if String.prefix "https://example.org" url then Ok sample_parts
       else Ok {| url_scheme := EmptyString; url_netloc := EmptyString; url_path := url |};
     requests_get := fun _ => Ok sample_response;
     strftime := fun _ => "20240101000000" |}.

Definition notes_upload : UploadFile :=
  {| upload_filename := "notes.txt"; upload_content := two_lines |}.

Definition notes_again : UploadFile :=
  {| upload_filename := "notes.txt"; upload_content := bytes_of "changed" |}.

Definition blank_upload : UploadFile :=
  {| upload_filename := "  "; upload_content := two_lines |}.

Definition notes_path : string := "./uploads/20240101000000_notes.txt".

(** A runtime with other faults of the file system, another answer of the
    e-mail parser, another answer of the Word parser. *)
Definition with_faults (write remove : string -> option exc) (env : Env) : Env :=
  {| guess_type := guess_type env;
     isoformat := isoformat env;
     py_repr := py_repr env;
     PDF2IMAGE_AVAILABLE := PDF2IMAGE_AVAILABLE env;
     DOCX_AVAILABLE := DOCX_AVAILABLE env;
     PPTX_AVAILABLE := PPTX_AVAILABLE env;
     XLSX_AVAILABLE := XLSX_AVAILABLE env;
     EMAIL_AVAILABLE := EMAIL_AVAILABLE env;
     PdfReader := PdfReader env;
     convert_from_path := convert_from_path env;
     docx_Document := docx_Document env;
     Presentation := Presentation env;
     load_workbook := load_workbook env;
     BytesParser_parse := BytesParser_parse env;
     write_fault := write;
     remove_fault := remove;
     commit_fault := commit_fault env;
     generate_content := generate_content env |}.

Definition with_mail (msg : email_message) (env : Env) : Env :=
  {| guess_type := guess_type env;
     isoformat := isoformat env;
     py_repr := py_repr env;
     PDF2IMAGE_AVAILABLE := PDF2IMAGE_AVAILABLE env;
     DOCX_AVAILABLE := DOCX_AVAILABLE env;
     PPTX_AVAILABLE := PPTX_AVAILABLE env;
     XLSX_AVAILABLE := XLSX_AVAILABLE env;
     EMAIL_AVAILABLE := EMAIL_AVAILABLE env;
     PdfReader := PdfReader env;
     convert_from_path := convert_from_path env;
     docx_Document := docx_Document env;
     Presentation := Presentation env;
     load_workbook := load_workbook env;
     BytesParser_parse := fun _ => Ok msg;
     write_fault := write_fault env;
     remove_fault := remove_fault env;
     commit_fault := commit_fault env;
     generate_content := generate_content env |}.

Definition with_docx
    (doc : list pystr * outcome (list (list (list pystr)))) (env : Env) : Env :=
  {| guess_type := guess_type env;
     isoformat := isoformat env;
     py_repr := py_repr env;
     PDF2IMAGE_AVAILABLE := PDF2IMAGE_AVAILABLE env;
     DOCX_AVAILABLE := DOCX_AVAILABLE env;
     PPTX_AVAILABLE := PPTX_AVAILABLE env;
     XLSX_AVAILABLE := XLSX_AVAILABLE env;
     EMAIL_AVAILABLE := EMAIL_AVAILABLE env;
     PdfReader := PdfReader env;
     convert_from_path := convert_from_path env;
     docx_Document := fun _ => Ok doc;
     Presentation := Presentation env;
     load_workbook := load_workbook env;
     BytesParser_parse := BytesParser_parse env;
     write_fault := write_fault env;
     remove_fault := remove_fault env;
     commit_fault := commit_fault env;
     generate_content := generate_content env |}.

(** [str] of the [PermissionError] for a path. *)
Definition denied (p : string) : exc :=
  PyExc "PermissionError" ("[Errno 13] Permission denied: '" +:+ p +:+ "'").

(** No file can be removed. *)
Definition read_only_env : Env :=
  with_faults (fun _ => None) (fun p => Some (denied p)) bare_env.

(** A message with a text part and two attachments; the second attachment
    cannot be written. *)
Definition attached_message : email_message :=
  {| msg_From := lit "a@example.org"; msg_To := lit "b@example.org";
     msg_Subject := lit "figures"; msg_Date := lit "Mon, 1 Jan 2024";
     msg_is_multipart := true;
     msg_parts :=
       [{| part_content_type := "text/plain";
           part_content := Ok (lit "see attached");
           part_content_disposition := None;
           part_filename := None;
           part_payload := Some [] |};
        {| part_content_type := "application/octet-stream";
           part_content := Ok [];
           part_content_disposition := Some "attachment";
           part_filename := Some "ok.bin";
           part_payload := Some (bytes_of "first") |};
        {| part_content_type := "application/octet-stream";
           part_content := Ok [];
           part_content_disposition := Some "attachment";
           part_filename := Some "bad.bin";
           part_payload := Some (bytes_of "second") |}];
     msg_content := Ok [] |}.

Definition attachment_env : Env :=
  with_faults
    (fun p => if String.eqb p "./uploads/attachment_bad.bin" then Some (denied p) else None)
    (fun _ => None)
    (with_mail attached_message office_env).

(** A message whose content cannot be decoded. *)
Definition undecodable : exc := PyExc "LookupError" "unknown encoding: x-unknown".

Definition unreadable_message : email_message :=
  {| msg_From := lit "a@example.org"; msg_To := lit "b@example.org";
     msg_Subject := lit "minutes"; msg_Date := lit "Mon, 1 Jan 2024";
     msg_is_multipart := false; msg_parts := [];
     msg_content := Raise undecodable |}.

Definition unreadable_env : Env := with_mail unreadable_message office_env.

(** A Word document whose tables cannot be read. *)
Definition broken_tables : exc := PyExc "KeyError" "no relationship of that type".

Definition broken_tables_env : Env :=
  with_docx ([lit "Hello"; lit "World"], Raise broken_tables) office_env.

(** Three documents with their files: two grouped in a session that has a
    query, the third in no session (its association row names a session
    that is not there). *)
Definition mixed_db : Database :=
  {| documents := {[ "d1" := sample_document "a.txt"; "d2" := sample_document "b.txt";
                     "d3" := sample_document "c.txt" ]};
     document_contents := {[ "d1" := sample_content (lit "alpha");
                             "d2" := sample_content (lit "beta");
                             "d3" := sample_content (lit "gamma") ]};
     analysis_sessions := {[ "s1" := sample_session ]};
     document_analysis_association := [("d1", "s1"); ("d2", "s1"); ("d3", "s0")];
     queries := {[ 1 := {| Query.analysis_id := "s1";
                           Query.query_text := lit "what is alpha?";
                           Query.response_text := Some (lit "a letter");
                           Query.created_at := 1;
                           Query.updated_at := 1 |} ]} |}.

Definition mixed_world : World :=
  {| fs := {[ "./uploads/a.txt" := notes_file; "./uploads/b.txt" := notes_file;
              "./uploads/c.txt" := notes_file; notes_path := notes_file ]};
     db := mixed_db; clock := 0; calls := [] |}.

(* ===================================================================== *)
(** ** Rules for computations *)
(* ===================================================================== *)

Section Rules.
Context {A B : Type}.
Implicit Types (w : World) (e : exc).

Lemma wp_ret (a : A) Q R w : Q a w -> wp (mret a) Q R w.
Proof. done. Qed.

Lemma wp_raise e (Q : A -> World -> Prop) R w : R e w -> wp (raise e) Q R w.
Proof. done. Qed.

Lemma wp_lift (o : outcome A) Q R w :
  match o with Ok a => Q a w | Raise e => R e w end -> wp (lift o) Q R w.
Proof. unfold wp, lift. by destruct o. Qed.

Lemma wp_bind (m : M A) (k : A -> M B) Q R w :
  wp m (fun a => wp (k a) Q R) R w -> wp (m ≫= k) Q R w.
Proof.
  unfold wp, mbind, M_bind, bind. destruct (m w) as [[a|e] w']; done.
Qed.

Lemma wp_try_except (m : M A) (h : exc -> M A) Q R w :
  wp m Q (fun e => wp (h e) Q R) w -> wp (try_except m h) Q R w.
Proof.
  unfold wp, try_except. destruct (m w) as [[a|e] w']; done.
Qed.

Lemma wp_mono (m : M A) (Q Q' : A -> World -> Prop) (R R' : exc -> World -> Prop) w :
  wp m Q R w ->
  (forall a w', Q a w' -> Q' a w') ->
  (forall e w', R e w' -> R' e w') ->
  wp m Q' R' w.
Proof.
  unfold wp. destruct (m w) as [[a|e] w']; auto.
Qed.

(** Whatever a computation does, what follows it holds if it holds from
    every world. *)
Lemma wp_bind_any (m : M A) (k : A -> M B) Q (R : exc -> World -> Prop) w :
  (forall a w', wp (k a) Q R w') ->
  (forall e w', R e w') ->
  wp (m ≫= k) Q R w.
Proof.
  intros Hk HR. apply wp_bind. unfold wp at 1.
  destruct (m w) as [[a|e] w']; auto.
Qed.

Lemma wp_returns (m : M A) (Q : A -> World -> Prop) w :
  wp m Q (fun _ _ => False) w ->
  exists a w', m w = (Ok a, w') /\ Q a w'.
Proof.
  unfold wp. destruct (m w) as [[a|e] w']; [eauto | done].
Qed.
End Rules.

(** Peeling one monadic step off a goal. *)
Ltac wp_step :=
  match goal with
  | |- wp (mret _) _ _ _ => apply wp_ret
  | |- wp (raise _) _ _ _ => apply wp_raise
  | |- wp (try_except _ _) _ _ _ => apply wp_try_except
  | |- wp (lift ?o) _ _ _ => apply wp_lift; destruct o
  | |- wp (if ?b then _ else _) _ _ _ => destruct b
  | |- wp (match ?x with _ => _ end) _ _ _ => destruct x
  | |- wp (_ ≫= _) _ _ _ => apply wp_bind_any; intros
  end.

Lemma insert_keeps_info (base result : docinfo) (k : string) (v : pyval) :
  base !! k = None -> base ⊆ result -> base ⊆ <[k := v]> result.
Proof. intros. by apply insert_subseteq_r. Qed.

Lemma file_info_lookup_other env file_path f (k : string) :
  k ∉ ["modified_time"; "created_time"; "file_size"; "mime_type"; "file_name"; "file_path"] ->
  file_info env file_path f !! k = None.
Proof.
  intros Hk. unfold file_info.
  repeat (rewrite lookup_insert_ne; [| intros Heq; subst k; apply Hk; set_solver]).
  apply lookup_empty.
Qed.

(** A key an extractor adds, which is none of the base keys. *)
Ltac fresh_key :=
  apply file_info_lookup_other;
  rewrite !not_elem_of_cons; repeat split; try discriminate; apply not_elem_of_nil.

(** Unfolding the operations of the monad. *)
Ltac run :=
  unfold mbind, M_bind, bind, mret, M_ret, ret, raise, try_except_if, try_except,
         lift, gets, modify in *.

Lemma get_file_info_existing env file_path f w :
  fs w !! file_path = Some f ->
  DocumentProcessor.get_file_info env file_path w = (Ok (file_info env file_path f), w).
Proof.
  intros Hf. unfold DocumentProcessor.get_file_info, stat. run.
  by rewrite Hf.
Qed.

Lemma get_file_info_missing env file_path w :
  fs w !! file_path = None ->
  exists e, DocumentProcessor.get_file_info env file_path w = (Ok (error_info e file_path), w).
Proof.
  intros Hf. unfold DocumentProcessor.get_file_info, stat. run.
  rewrite Hf. eauto.
Qed.

Lemma wp_get_file_info env file_path f (Q : docinfo -> World -> Prop) R w :
  fs w !! file_path = Some f ->
  Q (file_info env file_path f) w ->
  wp (DocumentProcessor.get_file_info env file_path) Q R w.
Proof. intros Hf HQ. unfold wp. by rewrite (get_file_info_existing _ _ f). Qed.

(* ===================================================================== *)
(** ** The extraction dispatcher *)
(* ===================================================================== *)

Section Dispatcher.
Variable env : Env.
Variable upload_folder : string.

Lemma process_document_dispatch file_path f w :
  fs w !! file_path = Some f ->
  DocumentProcessor.process_document env upload_folder file_path w =
  DocumentProcessor.run_extractor env upload_folder
    (DocumentProcessor.select_extractor (DocumentProcessor.get_mime_type env file_path))
    file_path (with_calls (calls w ++ [CallExtract file_path]) w).
Proof.
  intros Hf. unfold DocumentProcessor.process_document, record_call, path_exists. run.
  cbn. rewrite Hf. rewrite bool_decide_true by eauto. done.
Qed.

Lemma generic_extractor_is_file_info file_path :
  DocumentProcessor.run_extractor env upload_folder GENERIC file_path =
  DocumentProcessor.get_file_info env file_path.
Proof. done. Qed.
End Dispatcher.


(* ===================================================================== *)
(** ** The format extractors keep the base metadata *)
(* ===================================================================== *)

Lemma wp_bind_post {A B} (m : M A) (k : A -> M B) (Q1 : A -> World -> Prop) Q R w :
  wp m Q1 R w ->
  (forall a w', Q1 a w' -> wp (k a) Q R w') ->
  wp (m ≫= k) Q R w.
Proof.
  intros Hm Hk. apply wp_bind. eapply wp_mono; [exact Hm | exact Hk | done].
Qed.

(** Closing a goal [base ⊆ <[k1:=_]> (... result)]. *)
Ltac keeps_info :=
  unfold DocumentProcessor.text_extraction_failed;
  repeat case_match;
  repeat (apply insert_keeps_info; [fresh_key |]);
  done.

Section Extractors.
Variable env : Env.
Variable upload_folder : string.
Variables (file_path : string) (f : file).

Lemma process_text_existing w :
  fs w !! file_path = Some f ->
  DocumentProcessor.process_text env file_path w =
  (Ok (<["line_count" := VInt (count LF (decoded_text (f_bytes f)) + 1)]>
         (<["text_content" := VStr (decoded_text (f_bytes f))]>
            (file_info env file_path f))), w).
Proof.
  intros Hf. unfold DocumentProcessor.process_text.
  unfold try_except_if, try_except at 1, mbind at 1, M_bind, bind at 1.
  rewrite (get_file_info_existing _ _ f) by done.
  unfold read_text_utf8, read_text_latin1, read_bytes, stat, decoded_text. run.
  rewrite Hf. destruct (utf8_decode (map byte_val (f_bytes f))); [done |].
  unfold is_UnicodeDecodeError. rewrite bool_decide_true by done.
  by rewrite Hf.
Qed.

Lemma process_image_existing w :
  fs w !! file_path = Some f ->
  DocumentProcessor.process_image env file_path w = (Ok (file_info env file_path f), w).
Proof.
  intros Hf. unfold DocumentProcessor.process_image. run.
  by rewrite (get_file_info_existing _ _ f).
Qed.

Lemma process_pdf_keeps w :
  fs w !! file_path = Some f ->
  wp (DocumentProcessor.process_pdf env upload_folder file_path)
     (keeps (file_info env file_path f)) never w.
Proof.
  intros Hf. unfold DocumentProcessor.process_pdf.
  apply wp_try_except, wp_bind.
  apply (wp_get_file_info _ _ f); [done |].
  apply (wp_bind_post _ _ (keeps (file_info env file_path f))).
  - repeat wp_step; unfold keeps; keeps_info.
  - intros result w' Hres.
    repeat wp_step; unfold keeps in *; keeps_info.
Qed.

Lemma process_docx_keeps w :
  fs w !! file_path = Some f ->
  wp (DocumentProcessor.process_docx env file_path) (keeps (file_info env file_path f)) never w.
Proof.
  intros Hf. unfold DocumentProcessor.process_docx.
  apply wp_try_except, wp_bind.
  apply (wp_get_file_info _ _ f); [done |].
  repeat wp_step; unfold keeps; keeps_info.
Qed.

Lemma process_pptx_keeps w :
  fs w !! file_path = Some f ->
  wp (DocumentProcessor.process_pptx env file_path) (keeps (file_info env file_path f)) never w.
Proof.
  intros Hf. unfold DocumentProcessor.process_pptx.
  apply wp_try_except, wp_bind.
  apply (wp_get_file_info _ _ f); [done |].
  repeat wp_step; unfold keeps; keeps_info.
Qed.

Lemma process_xlsx_keeps w :
  fs w !! file_path = Some f ->
  wp (DocumentProcessor.process_xlsx env file_path) (keeps (file_info env file_path f)) never w.
Proof.
  intros Hf. unfold DocumentProcessor.process_xlsx.
  apply wp_try_except, wp_bind.
  apply (wp_get_file_info _ _ f); [done |].
  repeat wp_step; unfold keeps; keeps_info.
Qed.

Lemma process_email_keeps w :
  fs w !! file_path = Some f ->
  wp (DocumentProcessor.process_email env upload_folder file_path)
     (keeps (file_info env file_path f)) never w.
Proof.
  intros Hf. unfold DocumentProcessor.process_email.
  apply wp_try_except, wp_bind.
  apply (wp_get_file_info _ _ f); [done |].
  repeat wp_step; unfold keeps; keeps_info.
Qed.

Lemma run_extractor_keeps x w :
  fs w !! file_path = Some f ->
  wp (DocumentProcessor.run_extractor env upload_folder x file_path)
     (keeps (file_info env file_path f)) never w.
Proof.
  intros Hf. destruct x; cbn.
  - by apply process_pdf_keeps.
  - by apply process_docx_keeps.
  - by apply process_pptx_keeps.
  - by apply process_xlsx_keeps.
  - by apply process_email_keeps.
  - unfold wp. rewrite process_image_existing by done. by unfold keeps.
  - unfold wp. rewrite process_text_existing by done. unfold keeps. keeps_info.
  - apply (wp_get_file_info _ _ f); [done |]. by unfold keeps.
Qed.

(** Without its library an extractor returns the base metadata and leaves
    the file store alone. *)
Lemma run_extractor_degraded x w :
  fs w !! file_path = Some f ->
  library_available env x = false ->
  DocumentProcessor.run_extractor env upload_folder x file_path w =
  (Ok (file_info env file_path f), w).
Proof.
  intros Hf Hx. destruct x; cbn in Hx; try done; cbn;
    [ unfold DocumentProcessor.process_docx
    | unfold DocumentProcessor.process_pptx
    | unfold DocumentProcessor.process_xlsx
    | unfold DocumentProcessor.process_email ];
    run; rewrite (get_file_info_existing _ _ f) by done; by rewrite Hx.
Qed.

(** Without [pdf2image] the PDF extractor writes no page image and
    reports none. *)
Lemma process_pdf_without_pdf2image w :
  PDF2IMAGE_AVAILABLE env = false ->
  wp (DocumentProcessor.process_pdf env upload_folder file_path)
     (fun result w' =>
        fs w' = fs w /\ result !! "extracted_images" = None
        /\ result !! "num_images_extracted" = None)
     never w.
Proof.
  intros Hlib. unfold DocumentProcessor.process_pdf. rewrite Hlib.
  unfold wp, DocumentProcessor.get_file_info, read_bytes, stat,
    DocumentProcessor.text_extraction_failed, error_info. run.
  destruct (fs w !! file_path) as [f' |] eqn:Hw; cbn; rewrite ?Hw; cbn.
  - destruct (PdfReader env (f_bytes f')) as [pages | e]; cbn.
    + destruct (extract_pages 0 pages) as [[| t l] | e]; cbn;
        try destruct (is_ImportError e); by simplify_map_eq.
    + destruct (is_ImportError e); by simplify_map_eq.
  - by simplify_map_eq.
Qed.
End Extractors.

(** Once the module is loaded: for an existing file — whatever its MIME
    type, and whatever the guarded libraries do or whether they are installed
    — extraction returns a result and does not raise; the result contains
    the base file metadata.  When the library of the selected extractor is
    not installed the result is the base metadata alone and nothing is
    written; without [pdf2image] the PDF extractor reports no page images. *)
Lemma extraction_keeps_file_info (env : Env) (upload_folder file_path : string)
    (f : file) (w : World) :
  fs w !! file_path = Some f ->
  let x := DocumentProcessor.select_extractor
             (DocumentProcessor.get_mime_type env file_path) in
  exists result w',
    DocumentProcessor.process_document env upload_folder file_path w = (Ok result, w')
    /\ file_info env file_path f ⊆ result
    /\ (library_available env x = false ->
        result = file_info env file_path f /\ fs w' = fs w)
    /\ (x = PDF -> PDF2IMAGE_AVAILABLE env = false ->
        fs w' = fs w /\ result !! "extracted_images" = None).
Proof.
  intros Hf x.
  rewrite (process_document_dispatch env upload_folder file_path f w Hf).
  fold x. set (w0 := with_calls _ w).
  assert (Hf0 : fs w0 !! file_path = Some f) by done.
  destruct (wp_returns _ _ _ (run_extractor_keeps env upload_folder file_path f x w0 Hf0))
    as (result & w' & Hrun & Hkeeps).
  exists result, w'. repeat apply conj; [done | done | |].
  - intros Hlib.
    rewrite (run_extractor_degraded env upload_folder file_path f x w0 Hf0 Hlib) in Hrun.
    by inversion Hrun.
  - intros Hx Hlib. rewrite Hx in Hrun. cbn in Hrun.
    pose proof (process_pdf_without_pdf2image env upload_folder file_path w0 Hlib) as Hpdf.
    unfold wp in Hpdf. rewrite Hrun in Hpdf. by destruct Hpdf as (? & ? & ?).
Qed.

(** The guarded imports degrade: with [PyPDF2] installed the module loads
    whatever else is missing, each flag telling whether its library is there. *)
Lemma guarded_imports_degrade (installed : string -> bool) :
  installed "PyPDF2" = true ->
  import_document_processor installed =
  Ok {| pdf2image_available := installed "pdf2image";
        docx_available := installed "docx";
        pptx_available := installed "pptx";
        xlsx_available := installed "openpyxl";
        email_available := installed "email" |}.
Proof.
  intros Hpdf. unfold import_document_processor, try_import, import_module.
  rewrite Hpdf.
  destruct (installed "pdf2image"), (installed "docx"), (installed "pptx"),
    (installed "openpyxl"), (installed "email"); reflexivity.
Qed.

(** C9, as the code behaves.  In a runtime where [PyPDF2] — the parsing
    library of the PDF extractor — is not installed, loading the module
    raises: no extractor, for any MIME type, returns base metadata there.
    The [except ImportError] clause of [process_pdf] is never reached. *)
Theorem module_import_needs_PyPDF2 (installed : string -> bool) :
  installed "PyPDF2" = false ->
  import_document_processor installed =
  Raise (PyExc "ModuleNotFoundError" "No module named 'PyPDF2'").
Proof.
  intros Hpdf. unfold import_document_processor, import_module. by rewrite Hpdf.
Qed.

(* ===================================================================== *)
(** ** The ingestion orchestrator *)
(* ===================================================================== *)

Section Orchestrator.
Variable env : Env.
Variable upload_folder : string.
Variables (file_path file_name mime_type document_id : string).

Lemma process_document_missing_file w :
  fs w !! file_path = None ->
  DocumentService.process_document env upload_folder
    file_path file_name mime_type document_id w =
  (Ok (Error document_id "File not found"), w).
Proof.
  intros Hf. unfold DocumentService.process_document, path_exists. run.
  rewrite Hf. by rewrite bool_decide_false by (by intros [? ?]).
Qed.

(** The run of [process_document] on an existing file, stage by stage. *)
Lemma process_document_run f w :
  fs w !! file_path = Some f ->
  DocumentService.process_document env upload_folder
    file_path file_name mime_type document_id w =
  match DocumentProcessor.process_document env upload_folder file_path w with
  | (Raise e, w1) => (Ok (Error document_id (exc_str e)), w1)
  | (Ok document_info, w1) =>
      match prepared env file_name document_info with
      | Raise e => (Ok (Error document_id (exc_str e)), w1)
      | Ok (extracted_text, doc_metadata) =>
          let w2 := with_clock (clock w1 + 1 + 1) w1 in
          let document :=
            new_document file_path file_name mime_type doc_metadata (clock w1) in
          match commit env [NewDocument document_id document;
                            NewDocumentContent document_id None extracted_text] w2 with
          | (Ok _, w3) => (Ok (Success document_id), w3)
          | (Raise e, w3) => (Ok (Error document_id (exc_str e)), w3)
          end
      end
  end.
Proof.
  intros Hf.
  unfold DocumentService.process_document, path_exists, prepared, rollback, datetime_now.
  run. unfold outcome_bind. cbv beta.
  rewrite Hf. rewrite bool_decide_true by eauto. cbn [negb]. cbv beta iota.
  destruct (DocumentProcessor.process_document env upload_folder file_path w)
    as [[document_info | e] w1]; [| reflexivity].
  cbv beta iota.
  destruct (DocumentService.extract_text env file_name document_info)
    as [extracted_text | e]; [| reflexivity].
  cbv beta iota.
  destruct (py_len extracted_text) as [n | e]; [| reflexivity].
  cbv beta iota.
  destruct (json_dumps document_info) as [doc_metadata | e]; [| reflexivity].
  cbv beta iota zeta. unfold new_document, with_clock. cbn [fs db clock calls].
  match goal with
  | |- context [commit env ?p ?w2] => destruct (commit env p w2) as [[[] | e] w3]
  end; reflexivity.
Qed.
End Orchestrator.

(** *** Extraction leaves the database alone *)

Section Frame.
Context {A B : Type}.

Lemma frames_ret (a : A) : frames_db (mret a : M A).
Proof. done. Qed.

Lemma frames_raise e : frames_db (raise e : M A).
Proof. done. Qed.

Lemma frames_lift (o : outcome A) : frames_db (lift o).
Proof. done. Qed.

Lemma frames_bind (m : M A) (k : A -> M B) :
  frames_db m -> (forall a, frames_db (k a)) -> frames_db (m ≫= k).
Proof.
  intros Hm Hk w. specialize (Hm w). unfold mbind, M_bind, bind.
  destruct (m w) as [[a | e] w1]; [| done].
  cbn in Hm. rewrite <- Hm. apply Hk.
Qed.

Lemma frames_try_except (m : M A) (h : exc -> M A) :
  frames_db m -> (forall e, frames_db (h e)) -> frames_db (try_except m h).
Proof.
  intros Hm Hh w. specialize (Hm w). unfold try_except.
  destruct (m w) as [[a | e] w1]; [done |].
  cbn in Hm. rewrite <- Hm. apply Hh.
Qed.
End Frame.

Lemma frames_stat p : frames_db (stat p).
Proof. intros w. unfold stat. by destruct (fs w !! p). Qed.

Lemma frames_write_bytes env p bs : frames_db (write_bytes env p bs).
Proof. intros w. unfold write_bytes. by destruct (write_fault env p). Qed.

Ltac frames :=
  repeat first
    [ apply frames_ret | apply frames_raise | apply frames_lift
    | apply frames_stat | apply frames_write_bytes
    | apply frames_try_except; [| intros ?]
    | apply frames_bind; [| intros ?]
    | match goal with
      | |- frames_db (if ?b then _ else _) => destruct b
      | |- frames_db (match ?x with _ => _ end) => destruct x
      end ].

Section ExtractionFrame.
Variable env : Env.
Variable upload_folder : string.

Lemma frames_get_file_info p : frames_db (DocumentProcessor.get_file_info env p).
Proof. unfold DocumentProcessor.get_file_info. frames. Qed.

Lemma frames_save_images p i images :
  frames_db (DocumentProcessor.save_images env upload_folder p i images).
Proof.
  revert i. induction images as [| image rest IH]; intros i; cbn; frames. apply IH.
Qed.

Lemma frames_save_attachments parts :
  frames_db (DocumentProcessor.save_attachments env upload_folder parts).
Proof.
  induction parts as [| part rest IH]; cbn; frames; apply IH.
Qed.

Lemma frames_run_extractor x p :
  frames_db (DocumentProcessor.run_extractor env upload_folder x p).
Proof.
  destruct x; cbn;
    [ unfold DocumentProcessor.process_pdf
    | unfold DocumentProcessor.process_docx
    | unfold DocumentProcessor.process_pptx
    | unfold DocumentProcessor.process_xlsx
    | unfold DocumentProcessor.process_email
    | unfold DocumentProcessor.process_image
    | unfold DocumentProcessor.process_text
    | ];
    unfold read_text_utf8, read_text_latin1, read_bytes, try_except_if;
    frames;
    auto using frames_get_file_info, frames_save_images, frames_save_attachments.
Qed.

Lemma frames_process_document p :
  frames_db (DocumentProcessor.process_document env upload_folder p).
Proof.
  unfold DocumentProcessor.process_document.
  apply frames_bind; [done |]. intros _.
  apply frames_bind; [done |]. intros found.
  destruct (negb found); [done |]. apply frames_run_extractor.
Qed.
End ExtractionFrame.

(** *** The commit of the two rows *)

Lemma commit_pair_eq env id row extracted_text w :
  commit env [NewDocument id row; NewDocumentContent id None extracted_text] w =
  match pair_commit_check env id extracted_text w with
  | inl e => (Raise e, w)
  | inr text => (Ok (), with_db (with_pair id row text (db w)) w)
  end.
Proof.
  unfold commit, flush, insert_row, pair_commit_check, with_pair.
  destruct (documents (db w) !! id); cbn; [done |].
  destruct (bind_text extracted_text); cbn; [| done].
  destruct (document_contents (db w) !! id); cbn; [done |].
  by destruct (commit_fault env).
Qed.

Lemma pair_commit_check_frame env id v w w' :
  db w' = db w -> pair_commit_check env id v w' = pair_commit_check env id v w.
Proof. intros H. unfold pair_commit_check. by rewrite H. Qed.

(** A run that ends with the error result and the database as it was: what
    is left to show is that some step before the commit did not go through. *)
Ltac stopped_early :=
  do 2 eexists; split; [reflexivity |];
  split; [left; split; [eexists; reflexivity | done] |];
  split; [| intros [=]];
  [intros f0 di0 w0 et0 n0 dm0 tx0 Hall; exfalso; revert f0 di0 w0 et0 n0 dm0 tx0 Hall].

(** C4.  Every invocation of [process_document] returns (it does not raise),
    and the committed database is left in one of two states: exactly as it
    was, with an error result, or with both the [Document] row (status
    ["uploaded"]) and the [DocumentContent] row of [document_id] added by the
    one commit, the identifier having been free in both tables.  A document
    row without its content row, or the converse, is never committed.
    The pair is persisted exactly when every step before the commit went
    through: the file exists, the extraction returned, the text and the
    metadata were computed, the text can be bound, the identifier is free
    in both tables and the store accepts the commit.  Then the result is
    the success and the database is the old one with the two rows, the
    [Document] row built from the arguments and the extraction result. *)
Theorem process_document_atomic (env : Env)
    (upload_folder file_path file_name mime_type document_id : string) (w : World) :
  exists r w',
    DocumentService.process_document env upload_folder
      file_path file_name mime_type document_id w = (Ok r, w')
    /\ ((exists msg, r = Error document_id msg) /\ db w' = db w
        \/ r = Success document_id
           /\ documents (db w) !! document_id = None
           /\ document_contents (db w) !! document_id = None
           /\ exists row text,
                Document.status row = "uploaded"
                /\ Document.mime_type row = mime_type
                /\ Document.file_name row = file_name
                /\ Document.file_path row = file_path
                /\ db w' = with_pair document_id row text (db w))
    /\ (forall f document_info w1 extracted_text n doc_metadata text,
          fs w !! file_path = Some f
          /\ DocumentProcessor.process_document env upload_folder file_path w
             = (Ok document_info, w1)
          /\ DocumentService.extract_text env file_name document_info = Ok extracted_text
          /\ py_len extracted_text = Ok n
          /\ json_dumps document_info = Ok doc_metadata
          /\ bind_text extracted_text = Ok text
          /\ documents (db w) !! document_id = None
          /\ document_contents (db w) !! document_id = None
          /\ commit_fault env = None ->
          r = Success document_id
          /\ db w' = with_pair document_id
                       (new_document file_path file_name mime_type doc_metadata (clock w1))
                       text (db w))
    /\ (r = Success document_id ->
        exists f document_info w1 extracted_text n doc_metadata text,
          fs w !! file_path = Some f
          /\ DocumentProcessor.process_document env upload_folder file_path w
             = (Ok document_info, w1)
          /\ DocumentService.extract_text env file_name document_info = Ok extracted_text
          /\ py_len extracted_text = Ok n
          /\ json_dumps document_info = Ok doc_metadata
          /\ bind_text extracted_text = Ok text
          /\ documents (db w) !! document_id = None
          /\ document_contents (db w) !! document_id = None
          /\ commit_fault env = None).
Proof.
  destruct (fs w !! file_path) as [f |] eqn:Hf.
  - rewrite (process_document_run _ _ _ _ _ _ f) by done.
    pose proof (frames_process_document env upload_folder file_path w) as Hdb.
    destruct (DocumentProcessor.process_document env upload_folder file_path w)
      as [[document_info | e] w1] eqn:Hextract; cbn in Hdb.
    2: { stopped_early. intros f0 di0 w0 et0 n0 dm0 tx0 (_ & [=] & _). }
    unfold prepared, mbind, outcome_bind.
    destruct (DocumentService.extract_text env file_name document_info)
      as [extracted_text | e] eqn:Htext.
    2: { stopped_early.
         intros f0 di0 w0 et0 n0 dm0 tx0 (_ & [= <- <-] & H & _). congruence. }
    destruct (py_len extracted_text) as [n | e] eqn:Hlen.
    2: { stopped_early.
         intros f0 di0 w0 et0 n0 dm0 tx0 (_ & [= <- <-] & H1 & H2 & _). congruence. }
    destruct (json_dumps document_info) as [doc_metadata | e] eqn:Hjson.
    2: { stopped_early.
         intros f0 di0 w0 et0 n0 dm0 tx0 (_ & [= <- <-] & _ & _ & H & _). congruence. }
    cbv zeta. rewrite commit_pair_eq.
    rewrite (pair_commit_check_frame _ _ _ w) by done.
    unfold pair_commit_check.
    destruct (documents (db w) !! document_id) eqn:Hd.
    { stopped_early. intros f0 di0 w0 et0 n0 dm0 tx0 (_ & _ & _ & _ & _ & _ & [=] & _). }
    destruct (bind_text extracted_text) as [text | e] eqn:Hbind.
    2: { stopped_early.
         intros f0 di0 w0 et0 n0 dm0 tx0 (_ & [= <- <-] & H1 & _ & _ & H2 & _).
         congruence. }
    destruct (document_contents (db w) !! document_id) eqn:Hc.
    { stopped_early.
      intros f0 di0 w0 et0 n0 dm0 tx0 (_ & _ & _ & _ & _ & _ & _ & [=] & _). }
    destruct (commit_fault env) eqn:Hfault.
    { stopped_early.
      intros f0 di0 w0 et0 n0 dm0 tx0 (_ & _ & _ & _ & _ & _ & _ & _ & [=]). }
    do 2 eexists. split; [done |]. split; [| split].
    + right. repeat apply conj; try done.
      exists (new_document file_path file_name mime_type doc_metadata (clock w1)), text.
      repeat apply conj; try reflexivity.
      cbn. by rewrite Hdb.
    + intros f0 di0 w0 et0 n0 dm0 tx0 (_ & [= <- <-] & H1 & _ & H2 & H3 & _).
      assert (et0 = extracted_text) as -> by congruence.
      assert (dm0 = doc_metadata) as -> by congruence.
      assert (tx0 = text) as -> by congruence.
      split; [done |]. cbn. by rewrite Hdb.
    + intros _. exists f, document_info, w1, extracted_text, n, doc_metadata, text.
      repeat apply conj; done.
  - rewrite process_document_missing_file by done.
    stopped_early. intros f0 di0 w0 et0 n0 dm0 tx0 ([=] & _).
Qed.

(** C5.  On a file path that does not exist [process_document] answers with
    the error status and stops there: the world is untouched, so the
    extraction dispatcher was not entered, no [DocumentContent] row was
    created and the [Document] row is as absent as before. *)
Theorem process_document_missing_file_stops (env : Env)
    (upload_folder file_path file_name mime_type document_id : string) (w : World) :
  fs w !! file_path = None ->
  exists r w',
    DocumentService.process_document env upload_folder
      file_path file_name mime_type document_id w = (Ok r, w')
    /\ r = Error document_id "File not found"
    /\ result_status r = "error"
    /\ calls w' = calls w
    /\ db w' = db w
    /\ w' = w.
Proof.
  intros Hf. rewrite process_document_missing_file by done.
  by eexists _, _.
Qed.


(* ===================================================================== *)
(** ** Flattening an extraction result *)
(* ===================================================================== *)

Lemma all_str_strs (l : list pystr) : all_str (map VStr l) = Ok l.
Proof. induction l as [| s l IH]; [done |]. cbn. by rewrite IH. Qed.

Lemma py_join_strs (sep : pystr) (l : list pystr) :
  py_join sep (VList (map VStr l)) = Ok (join sep l).
Proof. unfold py_join. cbn. by rewrite all_str_strs. Qed.

Section Flattening.
Variable env : Env.

Lemma row_text_cells (row : list pyval) :
  DocumentService.row_text env (VList row) = Ok (join [9] (map (cell_text env) row) ++ [LF]).
Proof. done. Qed.

Lemma rows_text (rows : list (list pyval)) :
  mapM_outcome (DocumentService.row_text env) (map VList rows) =
  Ok (map (fun row => join [9] (map (cell_text env) row) ++ [LF]) rows).
Proof.
  induction rows as [| row rows IH]; [done |].
  cbn [map mapM_outcome]. rewrite row_text_cells. cbn. by rewrite IH.
Qed.

Lemma sheet_text_rows (sheet : pystr * list (list pyval)) :
  DocumentService.sheet_text env (sheet_value sheet) = Ok (sheet_as_text env sheet).
Proof.
  unfold DocumentService.sheet_text, sheet_value, sheet_as_text. cbn.
  by rewrite rows_text.
Qed.

Lemma sheets_text_sheets (sheets : list (pystr * list (list pyval))) :
  DocumentService.sheets_text env (VDict (map sheet_value sheets)) =
  Ok (join [LF; LF] (map (sheet_as_text env) sheets)).
Proof.
  unfold DocumentService.sheets_text. cbn.
  assert (mapM_outcome (DocumentService.sheet_text env) (map sheet_value sheets)
          = Ok (map (sheet_as_text env) sheets)) as ->; [| done].
  induction sheets as [| sheet sheets IH]; [done |].
  cbn [map mapM_outcome]. rewrite sheet_text_rows. cbn. by rewrite IH.
Qed.
End Flattening.

Lemma has_key_true (d : docinfo) k v : d !! k = Some v -> has_key d k = true.
Proof. intros H. unfold has_key. rewrite bool_decide_true; eauto. Qed.

Lemma has_key_false (d : docinfo) k : d !! k = None -> has_key d k = false.
Proof.
  intros H. unfold has_key. rewrite bool_decide_false; [done |].
  rewrite H. by intros [? ?].
Qed.

Lemma item_some (d : docinfo) k v : d !! k = Some v -> item d k = Ok v.
Proof. intros H. unfold item. by rewrite H. Qed.

Lemma pdf_fallback_note env file_name (document_info : docinfo) metadata images :
  document_info !! "metadata" = VDict <$> metadata ->
  document_info !! "extracted_images" = VList <$> images ->
  DocumentService.pdf_fallback_text env file_name document_info =
  Ok (pdf_note env file_name metadata images).
Proof.
  intros Hm Hi. unfold DocumentService.pdf_fallback_text, pdf_note.
  destruct metadata as [items |]; destruct images as [l |]; cbn in Hm, Hi;
    rewrite ?(has_key_true _ _ _ Hm), ?(has_key_true _ _ _ Hi),
            ?(has_key_false _ _ Hm), ?(has_key_false _ _ Hi),
            ?(item_some _ _ _ Hm), ?(item_some _ _ _ Hi);
    cbn; f_equal; rewrite <- ?app_assoc, ?app_nil_r; reflexivity.
Qed.

Lemma is_pdf_info_spec (document_info : docinfo) :
  DocumentService.is_pdf_info document_info = true <->
  document_info !! "mime_type" = Some (VStr (lit MIME_PDF)).
Proof.
  unfold DocumentService.is_pdf_info.
  destruct (document_info !! "mime_type") as [[] |]; try (split; [done | by intros [=]]).
  rewrite bool_decide_eq_true. split; [by intros -> | by intros [= ->]].
Qed.

(** What reaches the content row is a string: [len] rejects every scalar and
    the SQL binding every container. *)
Lemma stored_text_is_str v n text :
  py_len v = Ok n -> bind_text v = Ok text -> exists s, v = VStr s /\ text = Some s.
Proof. destruct v; cbn; intros [=] [=]; eauto. Qed.

(** C7.  The text stored in [DocumentContent.extracted_text] is computed from
    the extraction result by the first rule that applies, in this order: the
    plain text under ["text_content"], then under ["content"]; the slide
    texts joined by blank lines; the sheets, each as its name followed by
    its rows as tab-separated lines, joined by blank lines; the e-mail body;
    for a PDF the synthesised note with the metadata entries and the number
    of extracted images; the empty string otherwise.  A successful
    [process_document] stores exactly that text. *)
Theorem extracted_text_priority_order (env : Env) (upload_folder : string) :
  (forall (file_name : string) (document_info : docinfo),
     let t := DocumentService.extract_text env file_name document_info in
     (forall v, document_info !! "text_content" = Some v -> t = Ok v)
     /\ (document_info !! "text_content" = None ->
         (forall v, document_info !! "content" = Some v -> t = Ok v)
         /\ (document_info !! "content" = None ->
             (forall slides,
                document_info !! "slides" = Some (VList (map VStr slides)) ->
                t = Ok (VStr (join [LF; LF] slides)))
             /\ (document_info !! "slides" = None ->
                 (forall sheets,
                    document_info !! "sheets" = Some (VDict (map sheet_value sheets)) ->
                    t = Ok (VStr (join [LF; LF] (map (sheet_as_text env) sheets))))
                 /\ (document_info !! "sheets" = None ->
                     (forall v, document_info !! "body" = Some v -> t = Ok v)
                     /\ (document_info !! "body" = None ->
                         (forall metadata images,
                            document_info !! "mime_type" = Some (VStr (lit MIME_PDF)) ->
                            document_info !! "metadata" = VDict <$> metadata ->
                            document_info !! "extracted_images" = VList <$> images ->
                            t = Ok (VStr (pdf_note env file_name metadata images)))
                         /\ (document_info !! "mime_type" <> Some (VStr (lit MIME_PDF)) ->
                             t = Ok (VStr []))))))))
  /\ (forall (file_path file_name mime_type document_id : string) (w w' : World),
        DocumentService.process_document env upload_folder
          file_path file_name mime_type document_id w = (Ok (Success document_id), w') ->
        exists document_info w1 text,
          DocumentProcessor.process_document env upload_folder file_path w
            = (Ok document_info, w1)
          /\ DocumentService.extract_text env file_name document_info = Ok (VStr text)
          /\ document_contents (db w') !! document_id =
               Some {| DocumentContent.analysis := None;
                       DocumentContent.extracted_text := Some text |}).
Proof.
  split.
  - intros file_name document_info t. subst t. unfold DocumentService.extract_text.
    split.
    { intros v H. by rewrite (has_key_true _ _ _ H), (item_some _ _ _ H). }
    intros H1. rewrite (has_key_false _ _ H1). split.
    { intros v H. by rewrite (has_key_true _ _ _ H), (item_some _ _ _ H). }
    intros H2. rewrite (has_key_false _ _ H2). split.
    { intros slides H. rewrite (has_key_true _ _ _ H), (item_some _ _ _ H).
      unfold mbind, outcome_bind. by rewrite py_join_strs. }
    intros H3. rewrite (has_key_false _ _ H3). split.
    { intros sheets H. rewrite (has_key_true _ _ _ H), (item_some _ _ _ H).
      unfold mbind, outcome_bind. by rewrite sheets_text_sheets. }
    intros H4. rewrite (has_key_false _ _ H4). split.
    { intros v H. by rewrite (has_key_true _ _ _ H), (item_some _ _ _ H). }
    intros H5. rewrite (has_key_false _ _ H5). split.
    { intros metadata images H Hm Hi. rewrite (has_key_true _ _ _ H).
      rewrite (proj2 (is_pdf_info_spec _) H). cbn.
      by rewrite (pdf_fallback_note _ _ _ metadata images). }
    intros H. destruct (DocumentService.is_pdf_info document_info) eqn:Hp.
    { by apply is_pdf_info_spec in Hp. }
    by rewrite andb_false_r.
  - intros file_path file_name mime_type document_id w w' Hrun.
    destruct (fs w !! file_path) as [f |] eqn:Hf;
      [| by rewrite process_document_missing_file in Hrun].
    rewrite (process_document_run _ _ _ _ _ _ f) in Hrun by done.
    destruct (DocumentProcessor.process_document env upload_folder file_path w)
      as [[document_info | e] w1]; [| done].
    unfold prepared in Hrun.
    destruct (DocumentService.extract_text env file_name document_info)
      as [extracted_text | e] eqn:Ht; [| done].
    cbn in Hrun. destruct (py_len extracted_text) as [n | e] eqn:Hlen; [| done].
    cbn in Hrun. destruct (json_dumps document_info) as [doc_metadata | e]; [| done].
    cbn -[commit] in Hrun. rewrite commit_pair_eq in Hrun.
    unfold pair_commit_check in Hrun.
    destruct (documents _ !! document_id); [done |].
    destruct (bind_text extracted_text) as [text | e] eqn:Hb; [| done].
    destruct (stored_text_is_str _ _ _ Hlen Hb) as (s & -> & ->).
    destruct (document_contents _ !! document_id); [done |].
    destruct (commit_fault env); [done |].
    inversion Hrun; subst. exists document_info, w1, s.
    repeat apply conj; [done | done |].
    cbn. by rewrite lookup_insert_eq.
Qed.

(* ===================================================================== *)
(** ** The text extractor *)
(* ===================================================================== *)

(** The text extractor returns in every world, whatever the file holds. *)
Lemma process_text_never_raises env file_path w :
  exists result w', DocumentProcessor.process_text env file_path w = (Ok result, w').
Proof.
  assert (wp (DocumentProcessor.process_text env file_path)
             (fun _ _ => True) (fun _ _ => False) w) as H.
  { unfold DocumentProcessor.process_text. apply wp_try_except.
    unfold wp.
    destruct ((result ← DocumentProcessor.get_file_info env file_path;
               try_except_if is_UnicodeDecodeError
                 (content ← read_text_utf8 file_path;
                  mret (<["line_count" := VInt (count LF content + 1)]>
                          (<["text_content" := VStr content]> result)))
                 (fun _ =>
                    content ← read_text_latin1 file_path;
                    mret (<["line_count" := VInt (count LF content + 1)]>
                            (<["text_content" := VStr content]> result)))) w)
      as [[a | e] w']; done. }
  destruct (wp_returns _ _ _ H) as (result & w' & Hrun & _). eauto.
Qed.

(** UTF-8 first, Latin-1 when the bytes do not decode. *)
Lemma decoded_text_utf8 bs s :
  utf8_decode (map byte_val bs) = Some s -> decoded_text bs = universal_newlines s.
Proof. intros H. unfold decoded_text. by rewrite H. Qed.

Lemma decoded_text_latin1 bs :
  utf8_decode (map byte_val bs) = None ->
  decoded_text bs = universal_newlines (latin1_decode (map byte_val bs)).
Proof. intros H. unfold decoded_text. by rewrite H. Qed.

(** C3.  For a stored file holding ["line1\nline2\n"] the text extractor
    returns, without raising, the text ["line1\nline2\n"] and the line count
    3: one more than the number of newline characters, not the 2 lines the
    file has. *)
Theorem two_line_file_counts_three_lines (env : Env) (file_path : string)
    (f : file) (w : World) :
  fs w !! file_path = Some f ->
  f_bytes f = two_lines ->
  exists result,
    DocumentProcessor.process_text env file_path w = (Ok result, w)
    /\ result !! "text_content" = Some (VStr two_lines_text)
    /\ result !! "line_count" = Some (VInt 3)
    /\ result !! "line_count" <> Some (VInt 2).
Proof.
  intros Hf Hbytes. rewrite (process_text_existing env file_path f w Hf).
  rewrite Hbytes.
  replace (decoded_text two_lines) with two_lines_text by (by vm_compute).
  eexists. split; [done |].
  rewrite lookup_insert_ne by done. rewrite !lookup_insert_eq.
  by vm_compute.
Qed.

(** The same file through the orchestrator: the text is stored as it was
    read, and the metadata records three lines. *)
Example uploaded_text_file_is_stored :
  let run := DocumentService.process_document bare_env "./uploads"
               "./uploads/20240101000000_notes.txt" "notes.txt" "text/plain" "d1"
               notes_world in
  run.1 = Ok (Success "d1")
  /\ document_contents (db run.2) !! "d1" = Some (sample_content two_lines_text)
  /\ (row ← documents (db run.2) !! "d1";
      metadata ← Document.doc_metadata row;
      (metadata : docinfo) !! "line_count") = Some (VInt 3).
Proof. by vm_compute. Qed.

(* ===================================================================== *)
(** ** Reads of the service *)
(* ===================================================================== *)

Lemma get_document_view document_id w :
  DocumentService.get_document document_id w =
  (Ok (view_of (db w) document_id <$> documents (db w) !! document_id), w).
Proof.
  unfold DocumentService.get_document, gets.
  by destruct (documents (db w) !! document_id).
Qed.

Lemma document_exists_lookup document_id w :
  DocumentService.document_exists document_id w =
  (Ok (bool_decide (is_Some (documents (db w) !! document_id))), w).
Proof. done. Qed.

(* ===================================================================== *)
(** ** Answering a query *)
(* ===================================================================== *)

Lemma strip_nil : strip [] = [].
Proof. done. Qed.

Lemma collect_documents_resolved (document_ids : list string) w :
  (forall id, id ∈ document_ids -> is_Some (documents (db w) !! id)) ->
  exists docs,
    QueryRouter.collect_documents document_ids w = (Ok docs, w)
    /\ sources_of docs = map (fun id => (id, file_name_of (db w) id)) document_ids
    /\ Forall (fun doc => exists id row,
                  id ∈ document_ids /\ documents (db w) !! id = Some row
                  /\ doc = view_of (db w) id row) docs.
Proof.
  induction document_ids as [| id ids IH]; intros Hall.
  - exists []. by repeat split.
  - destruct (Hall id) as [row Hrow]; [by left |].
    destruct IH as (docs & Hrun & Hsrc & Hdocs).
    { intros id' Hin. apply Hall. by right. }
    exists (view_of (db w) id row :: docs).
    cbn [QueryRouter.collect_documents]. unfold mbind, M_bind, bind.
    rewrite get_document_view, Hrow. cbn [fmap option_fmap option_map].
    rewrite Hrun. repeat split.
    + unfold sources_of in *. cbn [map]. rewrite Hsrc. f_equal.
      unfold file_name_of. by rewrite Hrow.
    + constructor.
      * exists id, row. repeat split; [by left | done].
      * eapply Forall_impl; [exact Hdocs |].
        intros doc (id' & row' & Hin & Hl & ->). exists id', row'.
        repeat split; [by right | done].
Qed.

Lemma document_context_without_text i docs :
  Forall (fun doc => view_extracted_text doc = None \/ view_extracted_text doc = Some []) docs ->
  document_context i docs = [].
Proof.
  intros H. revert i. induction H as [| doc docs Hdoc _ IH]; intros i; [done |].
  cbn [document_context]. rewrite IH. unfold document_section.
  by destruct Hdoc as [-> | ->].
Qed.

Lemma view_without_text d id row :
  ~ has_text d id ->
  view_extracted_text (view_of d id row) = None
  \/ view_extracted_text (view_of d id row) = Some [].
Proof.
  intros Hno. unfold view_of. cbn.
  destruct (document_contents d !! id) as [c |] eqn:Hc; [| by left]. cbn.
  destruct (DocumentContent.extracted_text c) as [[| x s] |] eqn:Ht; [by right | | by left].
  exfalso. apply Hno. by exists c, (x :: s).
Qed.

(** The claim without its amendment: for an empty question the request is
    rejected, although the documents are given, resolve and have no text. *)
Lemma query_with_empty_question_is_rejected :
  let request := {| qr_document_ids := ["d1"]; qr_query := [] |} in
  qr_document_ids request <> []
  /\ (forall id, id ∈ qr_document_ids request -> is_Some (documents (db blank_world) !! id))
  /\ (forall id, id ∈ qr_document_ids request -> ~ has_text (db blank_world) id)
  /\ QueryRouter.query_documents bare_env request blank_world
     = (Raise (HTTPException 500 "400: Query is required"), blank_world).
Proof.
  cbv zeta. repeat apply conj.
  - done.
  - intros id Hin. apply list_elem_of_singleton in Hin as ->. by eexists.
  - intros id Hin (c & s & Hc & Ht & Hs). apply list_elem_of_singleton in Hin as ->.
    vm_compute in Hc. inversion Hc; subst. cbn in Ht. by inversion Ht; subst.
  - by vm_compute.
Qed.

(** C6, amended.  For a non-empty question over a non-empty list of document
    ids that all resolve, if no document has non-empty extracted text the
    query operation returns the fixed apology with the {document_id,
    file_name} sources of all the given documents, in order, and the
    generation capability is not called: only the clock has advanced. *)
Theorem query_without_text_short_circuits (env : Env) (request : QueryRequest) (w : World) :
  qr_document_ids request <> [] ->
  qr_query request <> [] ->
  (forall id, id ∈ qr_document_ids request -> is_Some (documents (db w) !! id)) ->
  (forall id, id ∈ qr_document_ids request -> ~ has_text (db w) id) ->
  exists w',
    QueryRouter.query_documents env request w =
      (Ok {| q_response := apology;
             q_sources := map (fun id => (id, file_name_of (db w) id))
                              (qr_document_ids request);
             q_created_at := clock w |}, w')
    /\ calls w' = calls w
    /\ w' = with_clock (clock w + 1) w.
Proof.
  intros Hids Hquery Hall Hno.
  destruct (collect_documents_resolved _ w Hall) as (docs & Hrun & Hsrc & Hdocs).
  assert (document_context 0 docs = []) as Hctx.
  { apply document_context_without_text.
    eapply Forall_impl; [exact Hdocs |].
    intros doc (id & row & Hin & _ & ->). apply view_without_text. by apply Hno. }
  exists (with_clock (clock w + 1) w).
  unfold QueryRouter.query_documents.
  destruct (qr_document_ids request) as [| id ids] eqn:Eids; [done |].
  destruct (qr_query request) as [| c q] eqn:Equery; [done |].
  unfold try_except, mbind, M_bind, bind. rewrite Hrun, Hctx, strip_nil.
  unfold datetime_now. by rewrite Hsrc.
Qed.

(* ===================================================================== *)
(** ** Creating a session *)
(* ===================================================================== *)

Lemma check_documents_exist_reads (document_ids : list string) w :
  (AnalysisRouter.check_documents_exist document_ids w = (Ok (), w)
   /\ forall id, id ∈ document_ids -> is_Some (documents (db w) !! id))
  \/ exists id,
       id ∈ document_ids /\ documents (db w) !! id = None
       /\ AnalysisRouter.check_documents_exist document_ids w =
            (Raise (HTTPException 404 ("Document " +:+ id +:+ " not found")), w).
Proof.
  induction document_ids as [| id ids IH].
  - left. split; [done |]. intros id Hin. by apply not_elem_of_nil in Hin.
  - cbn [AnalysisRouter.check_documents_exist]. unfold mbind, M_bind, bind.
    rewrite document_exists_lookup.
    destruct (documents (db w) !! id) as [row |] eqn:Hrow.
    + rewrite bool_decide_true by eauto. cbn [negb].
      destruct IH as [[Hrun Hall] | (id' & Hin & Hnone & Hrun)].
      * left. split; [done |]. intros id' Hin.
        apply elem_of_cons in Hin as [-> | Hin]; [by rewrite Hrow | by apply Hall].
      * right. exists id'. repeat split; [by right | done | done].
    + rewrite bool_decide_false by (by intros [? ?]). cbn [negb].
      right. exists id. repeat split; [by left | done].
Qed.

Lemma analysis_collect_documents_reads (document_ids : list string) w :
  exists docs,
    AnalysisRouter.collect_documents document_ids w = (Ok docs, w)
    /\ length docs = length document_ids.
Proof.
  induction document_ids as [| id ids (docs & Hrun & Hlen)].
  - by exists [].
  - cbn [AnalysisRouter.collect_documents]. unfold mbind, M_bind, bind.
    rewrite get_document_view, Hrun. eexists. split; [done |]. cbn. by rewrite Hlen.
Qed.

(** C2, as the code behaves.  [analyze_documents] never returns: whatever
    the request, it raises an HTTP 500 error and leaves the world — the
    database in particular — as it was.  When a document id does not resolve
    the error wraps the 404; when all resolve it wraps the [AttributeError]
    of [request.query], a field the request model does not have.  No
    session row is created in either case. *)
Theorem analyze_documents_never_creates_session (env : Env) (request : AnalysisRequest)
    (uuid4 : string) (w : World) :
  exists detail,
    AnalysisRouter.analyze_documents env request uuid4 w
      = (Raise (HTTPException 500 detail), w)
    /\ ((forall id, id ∈ ar_document_ids request -> is_Some (documents (db w) !! id)) ->
        detail = "Error creating document session: "
                 +:+ "'AnalysisRequest' object has no attribute 'query'")
    /\ ((exists id, id ∈ ar_document_ids request /\ documents (db w) !! id = None) ->
        exists id, id ∈ ar_document_ids request /\ documents (db w) !! id = None
                   /\ detail = "Error creating document session: 404: Document "
                               +:+ id +:+ " not found").
Proof.
  unfold AnalysisRouter.analyze_documents, try_except.
  unfold mbind at 1, M_bind, bind at 1.
  destruct (check_documents_exist_reads (ar_document_ids request) w)
    as [[Hrun Hall] | (id & Hin & Hnone & Hrun)]; rewrite Hrun.
  - destruct (analysis_collect_documents_reads (ar_document_ids request) w)
      as (docs & Hdocs & _).
    unfold mbind at 1, bind at 1. rewrite Hdocs.
    eexists. split; [reflexivity |]. split; [done |].
    intros (id & Hin & Hnone). destruct (Hall id Hin) as [row Hrow]. congruence.
  - eexists. split; [reflexivity |]. split.
    + intros Hall. destruct (Hall id Hin) as [row Hrow]. congruence.
    + intros _. exists id. repeat split; try done.
Qed.

(** Two requests on a store that holds documents [d1] and [d2]: the session
    table is as empty after as before. *)
Example analyze_existing_documents_fails :
  AnalysisRouter.analyze_documents bare_env
    {| ar_document_ids := ["d1"; "d2"]; ar_context := Some (lit "compare") |}
    "s-new" shared_world
  = (Raise (HTTPException 500
       "Error creating document session: 'AnalysisRequest' object has no attribute 'query'"),
     shared_world).
Proof. by vm_compute. Qed.

Example analyze_unknown_document_fails :
  AnalysisRouter.analyze_documents bare_env
    {| ar_document_ids := ["d1"; "d9"]; ar_context := None |} "s-new" shared_world
  = (Raise (HTTPException 500
       "Error creating document session: 404: Document d9 not found"),
     shared_world).
Proof. by vm_compute. Qed.

(* ===================================================================== *)
(** ** Deleting a document *)
(* ===================================================================== *)

Lemma cascade_step_eq d marked :
  cascade_step d marked =
  (marked.1 ∪ linked_documents d marked.2, marked.2 ∪ linked_sessions d marked.1).
Proof. reflexivity. Qed.

Lemma elem_of_linked_sessions d (docs : gset string) s :
  s ∈ linked_sessions d docs <->
  exists doc, doc ∈ docs /\ (doc, s) ∈ document_analysis_association d
              /\ s ∈ dom (analysis_sessions d).
Proof.
  unfold linked_sessions. rewrite elem_of_list_to_set, list_elem_of_fmap. split.
  - intros ([doc s'] & -> & Hin). apply list_elem_of_filter in Hin as [[H1 H2] Hin].
    exists doc. by repeat split.
  - intros (doc & H1 & Hin & H2). exists (doc, s). split; [done |].
    by apply list_elem_of_filter.
Qed.

Lemma elem_of_linked_documents d (sessions : gset string) doc :
  doc ∈ linked_documents d sessions <->
  exists s, s ∈ sessions /\ (doc, s) ∈ document_analysis_association d
            /\ doc ∈ dom (documents d).
Proof.
  unfold linked_documents. rewrite elem_of_list_to_set, list_elem_of_fmap. split.
  - intros ([doc' s] & -> & Hin). apply list_elem_of_filter in Hin as [[H1 H2] Hin].
    exists s. by repeat split.
  - intros (s & H1 & Hin & H2). exists (doc, s). split; [done |].
    by apply list_elem_of_filter.
Qed.

Lemma cascade_iter_incr n d marked :
  marked.1 ⊆ (cascade_iter n d marked).1 /\ marked.2 ⊆ (cascade_iter n d marked).2.
Proof.
  revert marked. induction n as [| n IH]; intros marked; [done |].
  cbn [cascade_iter]. destruct (IH (cascade_step d marked)) as [H1 H2].
  rewrite cascade_step_eq in H1, H2. cbn in H1, H2. clear IH.
  split; (etransitivity; [| eassumption]); apply union_subseteq_l.
Qed.

(** The sessions a document belongs to are marked with it. *)
Lemma delete_cascade_marks_sessions d document_id s :
  is_Some (documents d !! document_id) ->
  is_Some (analysis_sessions d !! s) ->
  (document_id, s) ∈ document_analysis_association d ->
  document_id ∈ (delete_cascade d document_id).1 /\ s ∈ (delete_cascade d document_id).2.
Proof.
  intros Hdoc Hs Hin. unfold delete_cascade.
  assert (size (documents d) <> 0%nat) as Hsize.
  { intros H0. apply map_size_empty_inv in H0. rewrite H0, lookup_empty in Hdoc.
    by destruct Hdoc. }
  destruct (size (documents d)) as [| n]; [done |]. cbn [Nat.add cascade_iter].
  destruct (cascade_iter_incr (n + size (analysis_sessions d)) d
              (cascade_step d ({[document_id]}, ∅))) as [H1 H2].
  rewrite cascade_step_eq in H1, H2. cbn [fst snd] in H1, H2. split.
  - apply H1. set_solver.
  - apply H2. apply elem_of_union_r, elem_of_linked_sessions.
    exists document_id. repeat split; [set_solver | done | by apply elem_of_dom].
Qed.

(** The other documents of those sessions are marked as well. *)
Lemma delete_cascade_marks_siblings d document_id s other :
  is_Some (documents d !! document_id) ->
  is_Some (documents d !! other) ->
  is_Some (analysis_sessions d !! s) ->
  (document_id, s) ∈ document_analysis_association d ->
  (other, s) ∈ document_analysis_association d ->
  other ∈ (delete_cascade d document_id).1.
Proof.
  intros Hdoc Hother Hs Hin Hin'. unfold delete_cascade.
  assert (size (documents d) <> 0%nat /\ size (analysis_sessions d) <> 0%nat)
    as [Hsize Hsize'].
  { split; intros H0; apply map_size_empty_inv in H0.
    - rewrite H0, lookup_empty in Hdoc. by destruct Hdoc.
    - rewrite H0, lookup_empty in Hs. by destruct Hs. }
  destruct (size (documents d)) as [| n]; [done |].
  destruct (size (analysis_sessions d)) as [| m]; [done |].
  replace (S n + S m)%nat with (S (S (n + m))) by lia. cbn [cascade_iter].
  destruct (cascade_iter_incr (n + m) d
              (cascade_step d (cascade_step d ({[document_id]}, ∅)))) as [H1 _].
  apply H1. rewrite !cascade_step_eq. cbn [fst snd].
  apply elem_of_union_r, elem_of_linked_documents.
  exists s. repeat split; [| done | by apply elem_of_dom].
  apply elem_of_union_r, elem_of_linked_sessions.
  exists document_id. repeat split; [set_solver | done | by apply elem_of_dom].
Qed.

(** *** The rounds of the cascade reach its fixed point *)

Lemma cascade_step_rows d marked :
  marked_rows d marked -> marked_rows d (cascade_step d marked).
Proof.
  intros [H1 H2]. rewrite cascade_step_eq. split; cbn [fst snd].
  - apply union_least; [done |]. intros x Hx.
    by apply elem_of_linked_documents in Hx as (? & ? & ? & ?).
  - apply union_least; [done |]. intros x Hx.
    by apply elem_of_linked_sessions in Hx as (? & ? & ? & ?).
Qed.

Lemma marked_rows_size d marked :
  marked_rows d marked ->
  (marked_size marked <= size (documents d) + size (analysis_sessions d))%nat.
Proof.
  intros [H1 H2]. unfold marked_size.
  apply subseteq_size in H1, H2. rewrite size_dom in H1. rewrite size_dom in H2. lia.
Qed.

Lemma cascade_step_grows d marked :
  cascade_step d marked <> marked ->
  (marked_size marked < marked_size (cascade_step d marked))%nat.
Proof.
  rewrite cascade_step_eq. destruct marked as [docs sessions]. cbn [fst snd].
  intros Hne. unfold marked_size. cbn [fst snd].
  assert (size docs <= size (docs ∪ linked_documents d sessions))%nat as H1
    by apply subseteq_size, union_subseteq_l.
  assert (size sessions <= size (sessions ∪ linked_sessions d docs))%nat as H2
    by apply subseteq_size, union_subseteq_l.
  destruct (decide (docs ∪ linked_documents d sessions = docs)) as [E1 | N1].
  - destruct (decide (sessions ∪ linked_sessions d docs = sessions)) as [E2 | N2].
    + exfalso. apply Hne. by rewrite E1, E2.
    + assert (sessions ⊂ sessions ∪ linked_sessions d docs) as Hs.
      { split; [apply union_subseteq_l |]. intros Hsub. apply N2.
        apply (anti_symm (⊆)); [done | apply union_subseteq_l]. }
      apply subset_size in Hs. lia.
  - assert (docs ⊂ docs ∪ linked_documents d sessions) as Hs.
    { split; [apply union_subseteq_l |]. intros Hsub. apply N1.
      apply (anti_symm (⊆)); [done | apply union_subseteq_l]. }
    apply subset_size in Hs. lia.
Qed.

Lemma cascade_iter_fixed n d marked :
  cascade_step d marked = marked -> cascade_iter n d marked = marked.
Proof.
  intros Hfix. induction n as [| n IH]; [done |]. cbn [cascade_iter]. by rewrite Hfix.
Qed.

Lemma cascade_iter_closed n d marked :
  marked_rows d marked ->
  (size (documents d) + size (analysis_sessions d) - marked_size marked < n)%nat ->
  cascade_step d (cascade_iter n d marked) = cascade_iter n d marked.
Proof.
  revert marked. induction n as [| n IH]; intros marked Hrows Hroom; [lia |].
  cbn [cascade_iter].
  destruct (decide (cascade_step d marked = marked)) as [Hfix | Hgrow].
  - rewrite Hfix. by rewrite !cascade_iter_fixed.
  - apply IH; [by apply cascade_step_rows |].
    pose proof (cascade_step_grows d marked Hgrow).
    pose proof (marked_rows_size d _ (cascade_step_rows d marked Hrows)).
    lia.
Qed.

(** Nothing more is reachable from what [delete_cascade] marks. *)
Lemma delete_cascade_closed d document_id :
  is_Some (documents d !! document_id) ->
  cascade_step d (delete_cascade d document_id) = delete_cascade d document_id.
Proof.
  intros Hdoc. apply cascade_iter_closed.
  - split; cbn [fst snd]; [| apply empty_subseteq].
    apply singleton_subseteq_l. by apply elem_of_dom.
  - assert (size (documents d) <> 0%nat) as Hsize.
    { intros H0. apply map_size_empty_inv in H0. rewrite H0, lookup_empty in Hdoc.
      by destruct Hdoc. }
    unfold marked_size. cbn [fst snd]. rewrite size_singleton, size_empty. lia.
Qed.

Section Delete.
Variable env : Env.

Lemma delete_document_run document_id row w :
  documents (db w) !! document_id = Some row ->
  commit_fault env = None ->
  exists w',
    DocumentService.delete_document env document_id w = (Ok true, w')
    /\ db w' = delete_marked (db w) (delete_cascade (db w) document_id).
Proof.
  intros Hrow Hfault.
  unfold DocumentService.delete_document, delete_and_commit, path_exists, os_remove.
  run. rewrite Hrow, Hfault. cbn [fs db with_db].
  destruct (fs w !! Document.file_path row) as [f |] eqn:Hf.
  - rewrite bool_decide_true by eauto.
    destruct (remove_fault env (Document.file_path row)); [by eexists |].
    cbn [fs with_db]. rewrite Hf. by eexists.
  - rewrite bool_decide_false by (by intros [? ?]). by eexists.
Qed.
End Delete.

(** C1, as the code behaves.  Deleting a document that belongs to a session
    removes the document, its content row and the association rows, and —
    through the ["delete"] cascade configured on [Document.analysis_sessions]
    — deletes the session itself; the session is not left with a reduced
    document list. *)
Theorem delete_document_deletes_its_sessions (env : Env) (document_id s : string)
    (row : Document.t) (w : World) :
  commit_fault env = None ->
  documents (db w) !! document_id = Some row ->
  is_Some (analysis_sessions (db w) !! s) ->
  (document_id, s) ∈ document_analysis_association (db w) ->
  exists w',
    DocumentService.delete_document env document_id w = (Ok true, w')
    /\ documents (db w') !! document_id = None
    /\ document_contents (db w') !! document_id = None
    /\ ((document_id, s) ∉ document_analysis_association (db w'))
    /\ analysis_sessions (db w') !! s = None.
Proof.
  intros Hfault Hrow Hs Hin.
  destruct (delete_document_run env document_id row w Hrow Hfault) as (w' & Hrun & Hdb).
  destruct (delete_cascade_marks_sessions (db w) document_id s) as [Hd Hsm]; [eauto .. |].
  exists w'. split; [done |]. rewrite Hdb. unfold delete_marked. cbn.
  repeat apply conj.
  - apply map_lookup_filter_None. right. intros x _ Hx. by apply Hx.
  - apply map_lookup_filter_None. right. intros x _ Hx. by apply Hx.
  - intros Hin'. apply list_elem_of_filter in Hin' as [Hkeep _]. apply Hkeep.
    left. split; [done | by apply elem_of_dom].
  - apply map_lookup_filter_None. right. intros x _ Hx. by apply Hx.
Qed.

(** On the store with [d1] and [d2] grouped in session [s1], deleting [d1]
    empties every table: the session and its query go, and with the session
    the other document and its content. *)
Example delete_one_of_two_documents :
  let run := DocumentService.delete_document bare_env "d1" shared_world in
  run.1 = Ok true /\ db run.2 = empty_db.
Proof. by vm_compute. Qed.

(* ===================================================================== *)
(** ** The theorems at concrete inputs *)
(* ===================================================================== *)

Lemma delete_document_deletes_its_sessions_witness :
  commit_fault bare_env = None
  /\ documents (db shared_world) !! "d1" = Some (sample_document "a.txt")
  /\ is_Some (analysis_sessions (db shared_world) !! "s1")
  /\ ("d1", "s1") ∈ document_analysis_association (db shared_world)
  /\ exists w',
       DocumentService.delete_document bare_env "d1" shared_world = (Ok true, w')
       /\ documents (db w') !! "d1" = None
       /\ document_contents (db w') !! "d1" = None
       /\ (("d1", "s1") ∉ document_analysis_association (db w'))
       /\ analysis_sessions (db w') !! "s1" = None.
Proof.
  assert (is_Some (analysis_sessions (db shared_world) !! "s1")) as Hs
    by (exists sample_session; reflexivity).
  assert (("d1", "s1") ∈ document_analysis_association (db shared_world)) as Hin
    by apply list_elem_of_here.
  repeat apply conj; [reflexivity | reflexivity | exact Hs | exact Hin |].
  exact (delete_document_deletes_its_sessions bare_env "d1" "s1"
           (sample_document "a.txt") shared_world eq_refl eq_refl Hs Hin).
Defined.

Lemma analyze_documents_never_creates_session_witness :
  exists detail,
    AnalysisRouter.analyze_documents bare_env
      {| ar_document_ids := ["d1"; "d2"]; ar_context := None |} "s-new" shared_world
    = (Raise (HTTPException 500 detail), shared_world).
Proof.
  destruct (analyze_documents_never_creates_session bare_env
              {| ar_document_ids := ["d1"; "d2"]; ar_context := None |}
              "s-new" shared_world) as (detail & Hrun & _).
  exists detail. exact Hrun.
Defined.

Lemma two_line_file_counts_three_lines_witness :
  fs notes_world !! "./uploads/20240101000000_notes.txt" = Some notes_file
  /\ f_bytes notes_file = two_lines
  /\ exists result,
       DocumentProcessor.process_text bare_env "./uploads/20240101000000_notes.txt"
         notes_world = (Ok result, notes_world)
       /\ result !! "text_content" = Some (VStr two_lines_text)
       /\ result !! "line_count" = Some (VInt 3)
       /\ result !! "line_count" <> Some (VInt 2).
Proof.
  repeat apply conj; [reflexivity | reflexivity |].
  exact (two_line_file_counts_three_lines bare_env "./uploads/20240101000000_notes.txt"
           notes_file notes_world eq_refl eq_refl).
Defined.

Lemma process_document_missing_file_stops_witness :
  fs new_world !! "./uploads/gone.txt" = None
  /\ exists r w',
       DocumentService.process_document bare_env "./uploads"
         "./uploads/gone.txt" "gone.txt" "text/plain" "d1" new_world = (Ok r, w')
       /\ r = Error "d1" "File not found"
       /\ result_status r = "error"
       /\ calls w' = calls new_world
       /\ db w' = db new_world
       /\ w' = new_world.
Proof.
  split; [reflexivity |].
  exact (process_document_missing_file_stops bare_env "./uploads"
           "./uploads/gone.txt" "gone.txt" "text/plain" "d1" new_world eq_refl).
Defined.

Lemma process_document_atomic_witness :
  (exists w',
     DocumentService.process_document bare_env "./uploads"
       notes_path "notes.txt" "text/plain" "d1" notes_world = (Ok (Success "d1"), w')
     /\ is_Some (documents (db w') !! "d1")
     /\ document_contents (db w') !! "d1" = Some (sample_content two_lines_text))
  /\ (exists msg w',
        DocumentService.process_document locked_env "./uploads"
          notes_path "notes.txt" "text/plain" "d1" notes_world = (Ok (Error "d1" msg), w')
        /\ db w' = db notes_world).
Proof.
  split.
  - destruct (process_document_atomic bare_env "./uploads" notes_path "notes.txt"
                "text/plain" "d1" notes_world) as (r & w' & Hrun & _ & Hwhen & _).
    destruct (Hwhen notes_file
                (match (DocumentProcessor.process_document bare_env "./uploads"
                          notes_path notes_world).1 with
                 | Ok document_info => document_info
                 | Raise _ => ∅
                 end)
                (DocumentProcessor.process_document bare_env "./uploads"
                   notes_path notes_world).2
                (VStr two_lines_text) 12
                (match (DocumentProcessor.process_document bare_env "./uploads"
                          notes_path notes_world).1 with
                 | Ok document_info => document_info
                 | Raise _ => ∅
                 end)
                (Some two_lines_text)) as [Hr Hdb].
    { repeat apply conj; vm_compute; reflexivity. }
    subst r. exists w'. split; [exact Hrun |]. rewrite Hdb.
    split; [eexists; vm_compute; reflexivity | vm_compute; reflexivity].
  - destruct (process_document_atomic locked_env "./uploads" notes_path "notes.txt"
                "text/plain" "d1" notes_world)
      as (r & w' & Hrun & [[[msg Hr] Hdb] | [Hr _]] & _ & Honly).
    + subst r. exists msg, w'. split; [exact Hrun | exact Hdb].
    + destruct (Honly Hr) as (f & di & w1 & et & n & dm & tx & Hall).
      destruct Hall as (_ & _ & _ & _ & _ & _ & _ & _ & Hfault). discriminate Hfault.
Defined.

Lemma query_without_text_short_circuits_witness :
  let request := {| qr_document_ids := ["d1"]; qr_query := lit "what is X?" |} in
  exists w',
    QueryRouter.query_documents bare_env request blank_world =
      (Ok {| q_response := apology;
             q_sources := map (fun id => (id, file_name_of (db blank_world) id))
                              (qr_document_ids request);
             q_created_at := clock blank_world |}, w')
    /\ calls w' = calls blank_world
    /\ w' = with_clock (clock blank_world + 1) blank_world.
Proof.
  cbv zeta.
  apply (query_without_text_short_circuits bare_env
           {| qr_document_ids := ["d1"]; qr_query := lit "what is X?" |} blank_world).
  - discriminate.
  - discriminate.
  - intros id Hin. apply list_elem_of_singleton in Hin. subst id.
    exists (sample_document "scan.png"). reflexivity.
  - intros id Hin (c & s & Hc & Ht & Hs). apply list_elem_of_singleton in Hin. subst id.
    vm_compute in Hc. inversion Hc; subst. cbn in Ht. inversion Ht; subst. by apply Hs.
Defined.

Lemma extracted_text_priority_order_witness :
  DocumentService.extract_text bare_env "deck.pptx" mixed_info = Ok (VStr (lit "hello")).
Proof.
  destruct (extracted_text_priority_order bare_env "./uploads") as [Horder _].
  destruct (Horder "deck.pptx" mixed_info) as [Htext _].
  apply Htext. reflexivity.
Defined.


Lemma module_import_needs_PyPDF2_witness :
  stdlib_only "PyPDF2" = false
  /\ import_document_processor stdlib_only =
     Raise (PyExc "ModuleNotFoundError" "No module named 'PyPDF2'").
Proof.
  split; [reflexivity |].
  exact (module_import_needs_PyPDF2 stdlib_only eq_refl).
Defined.

(** With [PyPDF2] alone the module loads and every flag is off; a Word
    document then yields its base metadata. *)
Example bare_runtime_loads :
  exists a, import_document_processor with_PyPDF2 = Ok a /\ loaded_with bare_env a
            /\ docx_available a = false.
Proof.
  rewrite guarded_imports_degrade by reflexivity. eexists. split; [reflexivity |].
  by vm_compute.
Qed.

Lemma extraction_keeps_file_info_witness :
  fs report_world !! "./uploads/report.docx" = Some report_file
  /\ exists result w',
       DocumentProcessor.process_document bare_env "./uploads" "./uploads/report.docx"
         report_world = (Ok result, w')
       /\ file_info bare_env "./uploads/report.docx" report_file ⊆ result
       /\ (library_available bare_env DOCX = false ->
           result = file_info bare_env "./uploads/report.docx" report_file
           /\ fs w' = fs report_world).
Proof.
  split; [reflexivity |].
  destruct (extraction_keeps_file_info bare_env "./uploads" "./uploads/report.docx"
              report_file report_world eq_refl)
    as (result & w' & Hrun & Hkeeps & Hdegraded & _).
  exists result, w'. repeat apply conj; [exact Hrun | exact Hkeeps | exact Hdegraded].
Defined.

(* ===================================================================== *)
(** ** Deleting a document: refusals, faults and what is left alone *)
(* ===================================================================== *)

(** X1.  Deleting an identifier that names no document changes nothing: the
    service answers [False] and the endpoint raises HTTP 404. *)
Theorem delete_unknown_document_is_refused (env : Env) (document_id : string) (w : World) :
  documents (db w) !! document_id = None ->
  DocumentService.delete_document env document_id w = (Ok false, w)
  /\ DocumentsRouter.delete_document env document_id w
     = (Raise (HTTPException 404 "Document not found"), w).
Proof.
  intros Hnone.
  assert (DocumentService.delete_document env document_id w = (Ok false, w)) as Hrun.
  { unfold DocumentService.delete_document. run. by rewrite Hnone. }
  split; [done |].
  unfold DocumentsRouter.delete_document, mbind, M_bind, bind. by rewrite Hrun.
Qed.

(** X2.  A failure to remove the backing file does not undo the deletion:
    the rows are deleted and the service answers [True] whether [os.remove]
    fails, succeeds or finds no file.  The file is gone exactly when the
    removal did not fail. *)
Theorem delete_document_survives_file_removal_failure (env : Env) (document_id : string)
    (row : Document.t) (w : World) :
  documents (db w) !! document_id = Some row ->
  commit_fault env = None ->
  exists w',
    DocumentService.delete_document env document_id w = (Ok true, w')
    /\ db w' = delete_marked (db w) (delete_cascade (db w) document_id)
    /\ fs w' = match remove_fault env (Document.file_path row) with
               | Some _ => fs w
               | None => base.delete (Document.file_path row) (fs w)
               end
    /\ calls w' = calls w /\ clock w' = clock w.
Proof.
  intros Hrow Hfault.
  unfold DocumentService.delete_document, delete_and_commit, path_exists, os_remove.
  run. rewrite Hrow, Hfault. cbn [fs db with_db].
  destruct (fs w !! Document.file_path row) as [f |] eqn:Hf.
  - rewrite bool_decide_true by eauto.
    destruct (remove_fault env (Document.file_path row)); [by eexists |].
    cbn [fs with_db]. rewrite Hf. by eexists.
  - rewrite bool_decide_false by (by intros [? ?]).
    eexists. repeat apply conj; try reflexivity. cbn [fs with_db].
    destruct (remove_fault env (Document.file_path row)); [done |].
    symmetry. by apply delete_id.
Qed.

(** X3.  When the store refuses the commit, [delete_document] raises and
    nothing is deleted: the rows stay and the backing file is not touched. *)
Theorem delete_document_commit_failure_keeps_everything (env : Env) (document_id : string)
    (row : Document.t) (e : exc) (w : World) :
  documents (db w) !! document_id = Some row ->
  commit_fault env = Some e ->
  DocumentService.delete_document env document_id w = (Raise e, w).
Proof.
  intros Hrow Hfault. unfold DocumentService.delete_document, delete_and_commit. run.
  by rewrite Hrow, Hfault.
Qed.

Lemma filter_keeps_all {A} (P : A -> Prop) `{forall x, Decision (P x)} (l : list A) :
  Forall P l -> filter P l = l.
Proof.
  induction 1 as [| x l Hx _ IH]; [done |].
  rewrite filter_cons_True by done. by rewrite IH.
Qed.

Lemma delete_cascade_unlinked d document_id :
  (forall s, (document_id, s) ∈ document_analysis_association d ->
             analysis_sessions d !! s = None) ->
  delete_cascade d document_id = ({[document_id]}, ∅).
Proof.
  intros Hfree. unfold delete_cascade. apply cascade_iter_fixed.
  rewrite cascade_step_eq. cbn [fst snd]. f_equal.
  - apply set_eq. intros x. rewrite elem_of_union, elem_of_linked_documents.
    split; [| by left]. intros [Hx | (s & Hs & _)]; [done |].
    by apply not_elem_of_empty in Hs.
  - apply set_eq. intros s. rewrite elem_of_union, elem_of_linked_sessions.
    split; [| by left]. intros [Hs | (doc & Hdoc & Hin & Hdom)]; [done |].
    apply elem_of_singleton in Hdoc. subst doc.
    apply elem_of_dom in Hdom. rewrite (Hfree s Hin) in Hdom. by destruct Hdom.
Qed.

Lemma filter_not_singleton {A} (m : gmap string A) (id : string) :
  filter (fun kv => kv.1 ∉ ({[id]} : gset string)) m = base.delete id m.
Proof.
  apply map_eq. intros k. destruct (base.delete id m !! k) as [x |] eqn:E.
  - apply lookup_delete_Some in E as [Hne Hk].
    apply map_lookup_filter_Some. split; [done |]. cbn. set_solver.
  - apply lookup_delete_None in E as [-> | Hk].
    + apply map_lookup_filter_None. right. intros x _. cbn. set_solver.
    + apply map_lookup_filter_None. by left.
Qed.

Lemma cascade_flags :
  delete Document_content = true /\ delete AnalysisSession_queries = true.
Proof. done. Qed.

(** X4.  Deleting a document that belongs to no session removes its row and
    its content row and nothing else: the other documents and contents, the
    sessions, the association rows and the queries are as before. *)
Theorem delete_unlinked_document_removes_only_it (env : Env) (document_id : string)
    (row : Document.t) (w : World) :
  documents (db w) !! document_id = Some row ->
  commit_fault env = None ->
  (forall s, (document_id, s) ∈ document_analysis_association (db w) ->
             analysis_sessions (db w) !! s = None) ->
  exists w',
    DocumentService.delete_document env document_id w = (Ok true, w')
    /\ documents (db w') = base.delete document_id (documents (db w))
    /\ document_contents (db w') = base.delete document_id (document_contents (db w))
    /\ analysis_sessions (db w') = analysis_sessions (db w)
    /\ document_analysis_association (db w') = document_analysis_association (db w)
    /\ queries (db w') = queries (db w).
Proof.
  intros Hrow Hfault Hfree.
  destruct (delete_document_run env document_id row w Hrow Hfault) as (w' & Hrun & Hdb).
  exists w'. split; [done |]. rewrite Hdb, (delete_cascade_unlinked _ _ Hfree).
  unfold delete_marked. destruct cascade_flags as [-> ->].
  cbn [documents document_contents analysis_sessions document_analysis_association
       queries fst snd].
  repeat apply conj.
  - apply filter_not_singleton.
  - apply filter_not_singleton.
  - apply map_filter_id. intros k x _. cbn. apply not_elem_of_empty.
  - apply filter_keeps_all. apply Forall_forall. intros [doc s] Hin. cbn.
    intros [[Hdoc Hdom] | [Hs _]]; [| by apply not_elem_of_empty in Hs].
    apply elem_of_singleton in Hdoc. subst doc.
    apply elem_of_dom in Hdom. rewrite (Hfree s Hin) in Hdom. by destruct Hdom.
  - apply map_filter_id. intros k x _. cbn. apply not_elem_of_empty.
Qed.

(* ===================================================================== *)
(** ** What a processed document looks like afterwards *)
(* ===================================================================== *)

(** Reading back the rows a successful [process_document] committed. *)
Lemma success_reads_back (env : Env)
    (upload_folder file_path file_name mime_type document_id : string) (w w' : World) :
  DocumentService.process_document env upload_folder
    file_path file_name mime_type document_id w = (Ok (Success document_id), w') ->
  exists document_info w1 text view,
    DocumentProcessor.process_document env upload_folder file_path w
      = (Ok document_info, w1)
    /\ DocumentService.extract_text env file_name document_info = Ok (VStr text)
    /\ DocumentService.document_exists document_id w' = (Ok true, w')
    /\ DocumentService.get_document document_id w' = (Ok (Some view), w')
    /\ view_document_id view = document_id
    /\ view_file_name view = file_name
    /\ view_file_path view = file_path
    /\ view_mime_type view = mime_type
    /\ view_status view = "uploaded"
    /\ view_analysis view = None
    /\ view_extracted_text view = Some text
    /\ view_metadata view = document_info.
Proof.
  intros Hrun.
  destruct (fs w !! file_path) as [f |] eqn:Hf;
    [| by rewrite process_document_missing_file in Hrun].
  rewrite (process_document_run _ _ _ _ _ _ f) in Hrun by done.
  destruct (DocumentProcessor.process_document env upload_folder file_path w)
    as [[document_info | e] w1]; [| done].
  unfold prepared in Hrun.
  destruct (DocumentService.extract_text env file_name document_info)
    as [extracted_text | e] eqn:Ht; [| done].
  cbn in Hrun. destruct (py_len extracted_text) as [n | e] eqn:Hlen; [| done].
  cbn in Hrun. unfold json_dumps in Hrun. case_bool_decide; [| done].
  cbn -[commit] in Hrun. rewrite commit_pair_eq in Hrun.
  unfold pair_commit_check in Hrun.
  destruct (documents _ !! document_id); [done |].
  destruct (bind_text extracted_text) as [text | e] eqn:Hb; [| done].
  destruct (stored_text_is_str _ _ _ Hlen Hb) as (s & -> & ->).
  destruct (document_contents _ !! document_id); [done |].
  destruct (commit_fault env); [done |].
  inversion Hrun; subst. clear Hrun.
  set (d' := with_pair document_id
               (new_document file_path file_name mime_type document_info (clock w1))
               (Some s) (db w1)).
  assert (documents d' !! document_id
          = Some (new_document file_path file_name mime_type document_info (clock w1)))
    as Hdoc by (cbn; apply lookup_insert_eq).
  assert (document_contents d' !! document_id = Some (sample_content s))
    as Hcontent by (cbn; apply lookup_insert_eq).
  exists document_info, w1, s,
    (view_of d' document_id
       (new_document file_path file_name mime_type document_info (clock w1))).
  repeat apply conj; try done.
  - rewrite document_exists_lookup. cbn [db with_db]. fold d'. rewrite Hdoc.
    by rewrite bool_decide_true by eauto.
  - rewrite get_document_view. cbn [db with_db]. fold d'. by rewrite Hdoc.
  - unfold view_of. cbn [view_analysis]. by rewrite Hcontent.
  - unfold view_of. cbn [view_extracted_text]. by rewrite Hcontent.
Qed.

(** X5.  After a successful [process_document] the document can be read
    back: [document_exists] holds and [get_document] returns the file name,
    path and MIME type that were given, the status ["uploaded"], no
    analysis, the extraction result as metadata and, as extracted text, the
    text the flattening rule computes from that result. *)
Theorem processed_document_reads_back (env : Env)
    (upload_folder file_path file_name mime_type document_id : string) (w w' : World) :
  DocumentService.process_document env upload_folder
    file_path file_name mime_type document_id w = (Ok (Success document_id), w') ->
  exists document_info w1 text view,
    DocumentProcessor.process_document env upload_folder file_path w
      = (Ok document_info, w1)
    /\ DocumentService.extract_text env file_name document_info = Ok (VStr text)
    /\ DocumentService.document_exists document_id w' = (Ok true, w')
    /\ DocumentService.get_document document_id w' = (Ok (Some view), w')
    /\ view_document_id view = document_id
    /\ view_file_name view = file_name
    /\ view_file_path view = file_path
    /\ view_mime_type view = mime_type
    /\ view_status view = "uploaded"
    /\ view_analysis view = None
    /\ view_extracted_text view = Some text
    /\ view_metadata view = document_info.
Proof.
  apply success_reads_back.
Qed.

(** The two ways a call of [process_document] can end, for use below. *)
Lemma process_document_outcomes (env : Env)
    (upload_folder file_path file_name mime_type document_id : string) (w : World) :
  exists r w',
    DocumentService.process_document env upload_folder
      file_path file_name mime_type document_id w = (Ok r, w')
    /\ ((exists msg, r = Error document_id msg) /\ db w' = db w
        \/ r = Success document_id
           /\ documents (db w) !! document_id = None
           /\ document_contents (db w) !! document_id = None
           /\ exists row text, db w' = with_pair document_id row text (db w)).
Proof.
  destruct (fs w !! file_path) as [f |] eqn:Hf.
  - rewrite (process_document_run _ _ _ _ _ _ f) by done.
    pose proof (frames_process_document env upload_folder file_path w) as Hdb.
    destruct (DocumentProcessor.process_document env upload_folder file_path w)
      as [[document_info | e] w1]; cbn in Hdb; [| by eauto 10].
    destruct (prepared env file_name document_info) as [[extracted_text doc_metadata] | e];
      [| by eauto 10].
    cbv zeta. rewrite commit_pair_eq.
    rewrite (pair_commit_check_frame _ _ _ w) by done.
    unfold pair_commit_check.
    destruct (documents (db w) !! document_id) eqn:Hd; [by eauto 10 |].
    destruct (bind_text extracted_text) as [text | e]; [| by eauto 10].
    destruct (document_contents (db w) !! document_id) eqn:Hc; [by eauto 10 |].
    destruct (commit_fault env); [by eauto 10 |].
    do 2 eexists. split; [done |]. right.
    repeat apply conj; try done.
    exists (new_document file_path file_name mime_type doc_metadata (clock w1)), text.
    cbn. by rewrite Hdb.
  - rewrite process_document_missing_file by done. eauto 10.
Qed.

(** X6.  [process_document] never overwrites: if the identifier already has
    a document row or a content row, the call answers with an error and the
    database is unchanged. *)
Theorem process_document_never_overwrites (env : Env)
    (upload_folder file_path file_name mime_type document_id : string) (w : World) :
  is_Some (documents (db w) !! document_id)
  \/ is_Some (document_contents (db w) !! document_id) ->
  exists msg w',
    DocumentService.process_document env upload_folder
      file_path file_name mime_type document_id w = (Ok (Error document_id msg), w')
    /\ db w' = db w.
Proof.
  intros Htaken.
  destruct (process_document_outcomes env upload_folder file_path file_name mime_type
              document_id w) as (r & w' & Hrun & [[[msg ->] Hdb] | (_ & Hd & Hc & _)]).
  - by exists msg, w'.
  - rewrite Hd, Hc in Htaken. by destruct Htaken as [[? ?] | [? ?]].
Qed.

(** X7.  Processing one document leaves every other document alone: the
    rows of any other identifier, the sessions, the association rows and
    the queries are the same before and after, whatever the outcome. *)
Theorem process_document_leaves_other_rows (env : Env)
    (upload_folder file_path file_name mime_type document_id other : string)
    (w : World) :
  other <> document_id ->
  let w' := (DocumentService.process_document env upload_folder
               file_path file_name mime_type document_id w).2 in
  documents (db w') !! other = documents (db w) !! other
  /\ document_contents (db w') !! other = document_contents (db w) !! other
  /\ analysis_sessions (db w') = analysis_sessions (db w)
  /\ document_analysis_association (db w') = document_analysis_association (db w)
  /\ queries (db w') = queries (db w).
Proof.
  intros Hne. cbv zeta.
  destruct (process_document_outcomes env upload_folder file_path file_name mime_type
              document_id w)
    as (r & w' & Hrun & [[_ Hdb] | (_ & _ & _ & row & text & Hdb)]);
    rewrite Hrun; cbn [snd]; rewrite Hdb; [done |].
  unfold with_pair. cbn. by rewrite !lookup_insert_ne.
Qed.

(* ===================================================================== *)
(** ** From a stored file to the stored text *)
(* ===================================================================== *)

Lemma file_info_serializable env file_path f :
  map_Forall (fun (_ : string) v => json_serializable v = true) (file_info env file_path f).
Proof.
  unfold file_info. repeat (apply map_Forall_insert_2; [done |]). apply map_Forall_empty.
Qed.

Lemma json_dumps_ok (d : docinfo) :
  map_Forall (fun (_ : string) v => json_serializable v = true) d -> json_dumps d = Ok d.
Proof. intros H. unfold json_dumps. by rewrite bool_decide_true. Qed.

(** The run of [process_document] once the extraction result and its text
    are known and the identifier is free. *)
Lemma process_document_stores env upload_folder file_path file_name mime_type document_id
    f w document_info w1 text :
  fs w !! file_path = Some f ->
  DocumentProcessor.process_document env upload_folder file_path w = (Ok document_info, w1) ->
  DocumentService.extract_text env file_name document_info = Ok (VStr text) ->
  map_Forall (fun (_ : string) v => json_serializable v = true) document_info ->
  commit_fault env = None ->
  documents (db w) !! document_id = None ->
  document_contents (db w) !! document_id = None ->
  exists w',
    DocumentService.process_document env upload_folder
      file_path file_name mime_type document_id w = (Ok (Success document_id), w')
    /\ document_contents (db w') !! document_id =
         Some {| DocumentContent.analysis := None;
                 DocumentContent.extracted_text := Some text |}
    /\ (documents (db w') !! document_id ≫= Document.doc_metadata) = Some document_info
    /\ fs w' = fs w1.
Proof.
  intros Hf Hextract Htext Hjson Hfault Hd Hc.
  rewrite (process_document_run _ _ _ _ _ _ f) by done.
  pose proof (frames_process_document env upload_folder file_path w) as Hdb.
  rewrite Hextract in *. cbn in Hdb. unfold prepared. rewrite Htext. cbn.
  rewrite (json_dumps_ok _ Hjson). cbn -[commit]. rewrite commit_pair_eq.
  unfold pair_commit_check. cbn [db with_clock bind_text]. rewrite Hdb, Hd, Hc, Hfault.
  eexists. split; [reflexivity |]. cbn. by rewrite !lookup_insert_eq.
Qed.

(** X8.  A stored file whose type selects the text extractor, processed
    under a free identifier with a store that accepts the commit, ends up
    with its decoded content (UTF-8, else Latin-1) as extracted text; the
    file store is not changed. *)
Theorem text_file_is_stored_as_decoded (env : Env)
    (upload_folder file_path file_name mime_type document_id : string)
    (f : file) (w : World) :
  fs w !! file_path = Some f ->
  DocumentProcessor.select_extractor (DocumentProcessor.get_mime_type env file_path) = TEXT ->
  commit_fault env = None ->
  documents (db w) !! document_id = None ->
  document_contents (db w) !! document_id = None ->
  exists w',
    DocumentService.process_document env upload_folder
      file_path file_name mime_type document_id w = (Ok (Success document_id), w')
    /\ document_contents (db w') !! document_id =
         Some {| DocumentContent.analysis := None;
                 DocumentContent.extracted_text := Some (decoded_text (f_bytes f)) |}
    /\ fs w' = fs w.
Proof.
  intros Hf Hx Hfault Hd Hc.
  pose proof (process_document_dispatch env upload_folder file_path f w Hf) as Hrun.
  rewrite Hx in Hrun. cbn [DocumentProcessor.run_extractor] in Hrun.
  rewrite (process_text_existing env file_path f) in Hrun by done.
  set (result := <["line_count" := VInt (count LF (decoded_text (f_bytes f)) + 1)]>
                   (<["text_content" := VStr (decoded_text (f_bytes f))]>
                      (file_info env file_path f))) in *.
  assert (result !! "text_content" = Some (VStr (decoded_text (f_bytes f)))) as Hkey
    by (unfold result; by rewrite lookup_insert_ne, lookup_insert_eq).
  assert (DocumentService.extract_text env file_name result
          = Ok (VStr (decoded_text (f_bytes f)))) as Htext.
  { unfold DocumentService.extract_text.
    by rewrite (has_key_true _ _ _ Hkey), (item_some _ _ _ Hkey). }
  assert (map_Forall (fun (_ : string) v => json_serializable v = true) result) as Hjson.
  { unfold result. do 2 (apply map_Forall_insert_2; [done |]).
    apply file_info_serializable. }
  destruct (process_document_stores env upload_folder file_path file_name mime_type
              document_id f w _ _ _ Hf Hrun Htext Hjson Hfault Hd Hc)
    as (w' & Hok & Hcontent & _ & Hfs).
  by exists w'.
Qed.

(** Looking a key up through the entries an extractor added. *)
Ltac lookup_added :=
  repeat (rewrite lookup_insert_ne by done);
  first [ apply lookup_insert_eq | fresh_key ].

Section ParsedOffice.
Variable env : Env.
Variable upload_folder : string.
Variables (file_path file_name : string) (f : file) (w : World).
Hypothesis Hf : fs w !! file_path = Some f.

Lemma process_xlsx_parsed workbook :
  XLSX_AVAILABLE env = true ->
  load_workbook env (f_bytes f) = Ok workbook ->
  DocumentProcessor.process_xlsx env file_path w =
  (Ok (<["sheet_count" := vlen workbook]>
         (<["sheets" := VDict (map sheet_value (map first_100_rows workbook))]>
            (file_info env file_path f))), w).
Proof.
  intros Hlib Hparse. unfold DocumentProcessor.process_xlsx.
  unfold try_except at 1, mbind at 1, M_bind, bind at 1.
  rewrite (get_file_info_existing _ _ f) by done. rewrite Hlib.
  unfold read_bytes, stat. run. rewrite Hf, Hparse.
  unfold vlen. rewrite map_map, length_map. reflexivity.
Qed.

Lemma process_docx_parsed paragraphs tables :
  DOCX_AVAILABLE env = true ->
  docx_Document env (f_bytes f) = Ok (paragraphs, tables) ->
  exists result,
    DocumentProcessor.process_docx env file_path w = (Ok result, w)
    /\ result !! "text_content" = Some (VStr (join [LF] paragraphs))
    /\ result !! "paragraph_count" = Some (vlen paragraphs)
    /\ match tables with
       | Ok read =>
           result !! "table_count" = Some (vlen read)
           /\ is_Some (result !! "tables")
           /\ result !! "docx_extraction_error" = None
       | Raise e =>
           result !! "table_count" = None
           /\ result !! "tables" = None
           /\ result !! "docx_extraction_error" = Some (VStr (lit (exc_str e)))
       end.
Proof.
  intros Hlib Hparse. unfold DocumentProcessor.process_docx.
  unfold try_except at 1, mbind at 1, M_bind, bind at 1.
  rewrite (get_file_info_existing _ _ f) by done. rewrite Hlib.
  unfold read_bytes, stat. run. rewrite Hf, Hparse. cbn [fst snd].
  destruct tables as [read | e];
    (eexists; split; [reflexivity |]);
    (split; [lookup_added |]); (split; [lookup_added |]).
  - split; [lookup_added |]. split; [eexists; lookup_added | lookup_added].
  - split; [lookup_added |]. split; [lookup_added | lookup_added].
Qed.

Lemma process_pptx_parsed prs :
  PPTX_AVAILABLE env = true ->
  Presentation env (f_bytes f) = Ok prs ->
  DocumentProcessor.process_pptx env file_path w =
  (Ok (<["slide_count" := vlen prs]>
         (<["slides" := VList (map VStr (map slide_text prs))]>
            (file_info env file_path f))), w).
Proof.
  intros Hlib Hparse. unfold DocumentProcessor.process_pptx.
  unfold try_except at 1, mbind at 1, M_bind, bind at 1.
  rewrite (get_file_info_existing _ _ f) by done. rewrite Hlib.
  unfold read_bytes, stat. run. rewrite Hf, Hparse.
  unfold vlen. by rewrite ?length_map.
Qed.
End ParsedOffice.

(** The rules of [extract_text] that the office formats reach. *)
Lemma extract_text_text_content env file_name (document_info : docinfo) v :
  document_info !! "text_content" = Some v ->
  DocumentService.extract_text env file_name document_info = Ok v.
Proof.
  intros H. unfold DocumentService.extract_text.
  by rewrite (has_key_true _ _ _ H), (item_some _ _ _ H).
Qed.

Lemma extract_text_slides env file_name (document_info : docinfo) slides :
  document_info !! "text_content" = None ->
  document_info !! "content" = None ->
  document_info !! "slides" = Some (VList (map VStr slides)) ->
  DocumentService.extract_text env file_name document_info = Ok (VStr (join [LF; LF] slides)).
Proof.
  intros H1 H2 H. unfold DocumentService.extract_text.
  rewrite (has_key_false _ _ H1), (has_key_false _ _ H2).
  rewrite (has_key_true _ _ _ H), (item_some _ _ _ H).
  unfold mbind, outcome_bind. by rewrite py_join_strs.
Qed.

Lemma extract_text_sheets env file_name (document_info : docinfo) sheets :
  document_info !! "text_content" = None ->
  document_info !! "content" = None ->
  document_info !! "slides" = None ->
  document_info !! "sheets" = Some (VDict (map sheet_value sheets)) ->
  DocumentService.extract_text env file_name document_info =
  Ok (VStr (join [LF; LF] (map (sheet_as_text env) sheets))).
Proof.
  intros H1 H2 H3 H. unfold DocumentService.extract_text.
  rewrite (has_key_false _ _ H1), (has_key_false _ _ H2), (has_key_false _ _ H3).
  rewrite (has_key_true _ _ _ H), (item_some _ _ _ H).
  unfold mbind, outcome_bind. by rewrite sheets_text_sheets.
Qed.

(** X9.  A spreadsheet that parses is flattened sheet by sheet, in the order
    of the workbook: each sheet contributes its name and at most its first
    hundred rows, one tab-separated line per row; rows beyond the hundredth
    never reach the text.  [sheet_count] is the number of sheets. *)
Theorem spreadsheet_text_has_first_hundred_rows (env : Env)
    (file_path file_name : string) (f : file) (w : World)
    (workbook : list (pystr * list (list pyval))) :
  fs w !! file_path = Some f ->
  XLSX_AVAILABLE env = true ->
  load_workbook env (f_bytes f) = Ok workbook ->
  exists result,
    DocumentProcessor.process_xlsx env file_path w = (Ok result, w)
    /\ result !! "sheet_count" = Some (vlen workbook)
    /\ DocumentService.extract_text env file_name result =
         Ok (VStr (join [LF; LF]
                     (map (sheet_as_text env) (map first_100_rows workbook))))
    /\ Forall (fun sheet => (length (snd sheet) <= 100)%nat) (map first_100_rows workbook)
    /\ map fst (map first_100_rows workbook) = map fst workbook.
Proof.
  intros Hf Hlib Hparse.
  rewrite (process_xlsx_parsed env file_path f w Hf workbook Hlib Hparse).
  eexists. split; [reflexivity |]. repeat apply conj.
  - lookup_added.
  - apply extract_text_sheets; lookup_added.
  - apply Forall_forall. intros sheet Hin.
    apply list_elem_of_fmap in Hin as (sheet0 & -> & _). cbn.
    rewrite length_take. lia.
  - rewrite map_map. by apply map_ext.
Qed.

(** X10.  For a Word document that parses, the text to store is the
    paragraphs joined by newlines; the tables are extracted into the
    metadata (with their count) but are no part of that text. *)
Theorem word_text_is_the_paragraphs (env : Env)
    (file_path file_name : string) (f : file) (w : World)
    (paragraphs : list pystr) (tables : list (list (list pystr))) :
  fs w !! file_path = Some f ->
  DOCX_AVAILABLE env = true ->
  docx_Document env (f_bytes f) = Ok (paragraphs, Ok tables) ->
  exists result,
    DocumentProcessor.process_docx env file_path w = (Ok result, w)
    /\ DocumentService.extract_text env file_name result = Ok (VStr (join [LF] paragraphs))
    /\ result !! "paragraph_count" = Some (vlen paragraphs)
    /\ result !! "table_count" = Some (vlen tables).
Proof.
  intros Hf Hlib Hparse.
  destruct (process_docx_parsed env file_path f w Hf paragraphs (Ok tables) Hlib Hparse)
    as (result & Hrun & Htext & Hp & Ht & _).
  exists result. repeat apply conj; try done.
  by apply extract_text_text_content.
Qed.

(** X25.  When the paragraphs of a Word document are read but reading its
    tables raises, the result keeps the text and the paragraph count that
    were already set, has the error and neither ["tables"] nor
    ["table_count"]; the text to store is still the paragraphs joined by
    newlines. *)
Theorem word_text_survives_table_failure (env : Env)
    (file_path file_name : string) (f : file) (w : World)
    (paragraphs : list pystr) (e : exc) :
  fs w !! file_path = Some f ->
  DOCX_AVAILABLE env = true ->
  docx_Document env (f_bytes f) = Ok (paragraphs, Raise e) ->
  exists result,
    DocumentProcessor.process_docx env file_path w = (Ok result, w)
    /\ DocumentService.extract_text env file_name result = Ok (VStr (join [LF] paragraphs))
    /\ result !! "paragraph_count" = Some (vlen paragraphs)
    /\ result !! "tables" = None
    /\ result !! "table_count" = None
    /\ result !! "docx_extraction_error" = Some (VStr (lit (exc_str e))).
Proof.
  intros Hf Hlib Hparse.
  destruct (process_docx_parsed env file_path f w Hf paragraphs (Raise e) Hlib Hparse)
    as (result & Hrun & Htext & Hp & Hcount & Htables & Herror).
  exists result. repeat apply conj; try done.
  by apply extract_text_text_content.
Qed.

(** X11.  For a presentation that parses, there is one slide text per
    slide — the texts of its shapes that have text, each followed by a
    newline, the whole stripped — and the text to store is the slide texts
    joined by blank lines. *)
Theorem presentation_text_is_the_slides (env : Env)
    (file_path file_name : string) (f : file) (w : World)
    (prs : list (list (option pystr))) :
  fs w !! file_path = Some f ->
  PPTX_AVAILABLE env = true ->
  Presentation env (f_bytes f) = Ok prs ->
  exists result,
    DocumentProcessor.process_pptx env file_path w = (Ok result, w)
    /\ result !! "slide_count" = Some (vlen prs)
    /\ DocumentService.extract_text env file_name result =
         Ok (VStr (join [LF; LF] (map slide_text prs))).
Proof.
  intros Hf Hlib Hparse.
  rewrite (process_pptx_parsed env file_path f w Hf prs Hlib Hparse).
  eexists. split; [reflexivity |]. split; [lookup_added |].
  apply extract_text_slides; lookup_added.
Qed.

(* ===================================================================== *)
(** ** PDF documents *)
(* ===================================================================== *)

Lemma file_info_mime_type env file_path f :
  file_info env file_path f !! "mime_type" =
  Some (VStr (lit (DocumentProcessor.get_mime_type env file_path))).
Proof. unfold file_info. by simplify_map_eq. Qed.

(** Looking up a key other than the ones just written. *)
Ltac lookup_kept :=
  repeat (rewrite lookup_insert_ne by done);
  first [ assumption | apply file_info_mime_type | fresh_key ].

Section Pdf.
Variable env : Env.
Variable upload_folder : string.
Variables (file_path : string) (f : file).

(** When every page image is written, there is one path per image. *)
Lemma wp_save_images i images w :
  wp (DocumentProcessor.save_images env upload_folder file_path i images)
     (fun image_paths _ => length image_paths = length images) (fun _ _ => True) w.
Proof.
  revert i w. induction images as [| image rest IH]; intros i w;
    cbn [DocumentProcessor.save_images].
  - by apply wp_ret.
  - apply wp_bind_any; [intros _ w1 | done].
    apply (wp_bind_post _ _ (fun image_paths _ => length image_paths = length rest));
      [apply IH |].
    intros image_paths w2 Hlen. apply wp_ret. cbn. by rewrite Hlen.
Qed.

Lemma process_pdf_result w :
  fs w !! file_path = Some f ->
  wp (DocumentProcessor.process_pdf env upload_folder file_path)
     (fun result _ => pdf_result (DocumentProcessor.get_mime_type env file_path) result)
     never w.
Proof.
  intros Hf. unfold DocumentProcessor.process_pdf.
  apply wp_try_except, wp_bind.
  apply (wp_get_file_info _ _ f); [done |].
  apply (wp_bind_post _ _
           (fun result _ =>
              pdf_text_stage (DocumentProcessor.get_mime_type env file_path) result)).
  - repeat wp_step; unfold DocumentProcessor.text_extraction_failed;
      repeat case_match; unfold pdf_text_stage; repeat apply conj; lookup_kept.
  - intros result w1 (Hmime & Hc & Hsl & Hsh & Hb & Hm & Hi & Hn).
    destruct (PDF2IMAGE_AVAILABLE env).
    + apply wp_try_except.
      apply wp_bind_any; [intros bs w2 |].
      * apply wp_bind_any; [intros images w3 |].
        -- apply (wp_bind_post _ _
                    (fun image_paths _ => length image_paths = length (take 3 images)));
             [eapply wp_mono; [apply wp_save_images | done |] |].
           ++ intros e w4 _. apply wp_ret.
              unfold pdf_result. repeat apply conj; try lookup_kept.
              exists None. cbn. repeat apply conj; try lookup_kept. done.
           ++ intros image_paths w4 Hlen. apply wp_ret.
              unfold pdf_result. repeat apply conj; try lookup_kept.
              exists (Some image_paths). cbn. repeat apply conj.
              ** rewrite lookup_insert_ne by done. apply lookup_insert_eq.
              ** apply lookup_insert_eq.
              ** rewrite Hlen, length_take. lia.
        -- intros e w3. apply wp_ret.
           unfold pdf_result. repeat apply conj; try lookup_kept.
           exists None. cbn. repeat apply conj; try lookup_kept. done.
      * intros e w2. apply wp_ret.
        unfold pdf_result. repeat apply conj; try lookup_kept.
        exists None. cbn. repeat apply conj; try lookup_kept. done.
    + apply wp_ret. unfold pdf_result. repeat apply conj; try lookup_kept.
      exists None. cbn. repeat apply conj; try lookup_kept. done.
Qed.
End Pdf.

(** X12.  A stored file whose type selects the PDF extractor always gets a
    result: it never carries a ["metadata"] entry, and reports at most
    three page images, ["num_images_extracted"] being their number.  When
    no text was extracted, the text to store is the note made of the file
    name and, if page images were written, their number — never the
    empty string and never a metadata section. *)
Theorem pdf_without_text_gets_a_note (env : Env) (upload_folder file_path file_name : string)
    (f : file) (w : World) :
  fs w !! file_path = Some f ->
  DocumentProcessor.get_mime_type env file_path = MIME_PDF ->
  exists result w1 (image_paths : option (list string)),
    DocumentProcessor.process_document env upload_folder file_path w = (Ok result, w1)
    /\ result !! "metadata" = None
    /\ result !! "extracted_images" = image_paths_value <$> image_paths
    /\ result !! "num_images_extracted" = vlen <$> image_paths
    /\ from_option (fun l => (length l <= 3)%nat) True image_paths
    /\ (PDF2IMAGE_AVAILABLE env = false -> image_paths = None)
    /\ (result !! "text_content" = None ->
        DocumentService.extract_text env file_name result =
        Ok (VStr (pdf_note env file_name None
                    (map (fun p => VStr (lit p)) <$> image_paths)))).
Proof.
  intros Hf Hmime.
  rewrite (process_document_dispatch env upload_folder file_path f w Hf), Hmime.
  change (DocumentProcessor.select_extractor MIME_PDF) with PDF.
  cbn [DocumentProcessor.run_extractor].
  set (w0 := with_calls (calls w ++ [CallExtract file_path]) w).
  assert (Hf0 : fs w0 !! file_path = Some f) by done.
  pose proof (process_pdf_result env upload_folder file_path f w0 Hf0) as Hres.
  pose proof (process_pdf_without_pdf2image env upload_folder file_path w0) as Hno.
  unfold wp in Hres, Hno.
  destruct (DocumentProcessor.process_pdf env upload_folder file_path w0)
    as [[result | e] w1]; [| done].
  rewrite Hmime in Hres.
  destruct Hres as (Hm & Hc & Hsl & Hsh & Hb & Hmeta & image_paths & Hi & Hn & Hlen).
  exists result, w1, image_paths. repeat apply conj; try done.
  - intros Hlib. destruct (Hno Hlib) as (_ & Hnone & _).
    rewrite Hnone in Hi. by destruct image_paths.
  - intros Ht. unfold DocumentService.extract_text.
    rewrite (has_key_false _ _ Ht), (has_key_false _ _ Hc), (has_key_false _ _ Hsl),
      (has_key_false _ _ Hsh), (has_key_false _ _ Hb), (has_key_true _ _ _ Hm).
    rewrite (proj2 (is_pdf_info_spec _) Hm). cbn [andb].
    rewrite (pdf_fallback_note env file_name result None
               (map (fun p => VStr (lit p)) <$> image_paths)); [done | done |].
    rewrite Hi. by destruct image_paths.
Qed.

(* ===================================================================== *)
(** ** E-mail messages *)
(* ===================================================================== *)

(** X13.  Once an e-mail message parses, its headers are in the result.
    If reading the body raises, the result has the headers and the error,
    but no body and no attachment list, and nothing was written.  If the
    body is read, it is in the result whatever happens to the attachments:
    when writing an attachment fails, the result has the error and no
    attachment list, but still the body, and the body is the text to
    store; what was written before the failure stays written.  A message
    that is not multipart has an empty attachment list and writes no
    file. *)
Theorem email_body_survives_attachment_failure (env : Env)
    (upload_folder file_path file_name : string) (f : file) (w : World)
    (msg : email_message) :
  fs w !! file_path = Some f ->
  EMAIL_AVAILABLE env = true ->
  BytesParser_parse env (f_bytes f) = Ok msg ->
  exists result w1,
    DocumentProcessor.process_email env upload_folder file_path w = (Ok result, w1)
    /\ is_Some (result !! "headers")
    /\ match email_body msg with
       | Raise e =>
           result !! "body" = None
           /\ result !! "attachments" = None
           /\ result !! "email_extraction_error" = Some (VStr (lit (exc_str e)))
           /\ w1 = w
       | Ok body =>
           result !! "body" = Some (VStr body)
           /\ DocumentService.extract_text env file_name result = Ok (VStr body)
           /\ (msg_is_multipart msg = false ->
               result !! "attachments" = Some (VList [])
               /\ result !! "email_extraction_error" = None
               /\ w1 = w)
           /\ (msg_is_multipart msg = true ->
               match DocumentProcessor.save_attachments env upload_folder
                       (msg_parts msg) w with
               | (Ok attachments, w') =>
                   result !! "attachments" = Some (VList attachments)
                   /\ result !! "attachment_count" = Some (vlen attachments)
                   /\ result !! "email_extraction_error" = None
                   /\ w1 = w'
               | (Raise e, w') =>
                   result !! "attachments" = None
                   /\ result !! "email_extraction_error" = Some (VStr (lit (exc_str e)))
                   /\ w1 = w'
               end)
       end.
Proof.
  intros Hf Hlib Hparse. unfold DocumentProcessor.process_email.
  unfold try_except at 1, mbind at 1, M_bind, bind at 1.
  rewrite (get_file_info_existing _ _ f) by done. rewrite Hlib.
  unfold read_bytes, stat. run. rewrite Hf, Hparse.
  assert (Htext : forall (result : docinfo) body,
            result !! "text_content" = None -> result !! "content" = None ->
            result !! "slides" = None -> result !! "sheets" = None ->
            result !! "body" = Some (VStr body) ->
            DocumentService.extract_text env file_name result = Ok (VStr body)).
  { intros result body H1 H2 H3 H4 H5. unfold DocumentService.extract_text.
    by rewrite (has_key_false _ _ H1), (has_key_false _ _ H2), (has_key_false _ _ H3),
      (has_key_false _ _ H4), (has_key_true _ _ _ H5), (item_some _ _ _ H5). }
  destruct (email_body msg) as [body | e] eqn:Hbody.
  - destruct (msg_is_multipart msg) eqn:Hmulti.
    + destruct (DocumentProcessor.save_attachments env upload_folder (msg_parts msg) w)
        as [[attachments | e] w'] eqn:Hsave;
        do 2 eexists; (split; [reflexivity |]);
        (split; [eexists; lookup_added |]);
        (split; [lookup_added |]);
        (split; [apply Htext; lookup_added |]);
        (split; [done |]); intros _.
      * split; [lookup_added |]. split; [lookup_added |]. split; [lookup_added | done].
      * split; [lookup_added |]. split; [lookup_added | done].
    + do 2 eexists. split; [reflexivity |].
      split; [eexists; lookup_added |].
      split; [lookup_added |].
      split; [apply Htext; lookup_added |].
      split; [| done]. intros _.
      split; [lookup_added |]. split; [lookup_added | done].
  - do 2 eexists. split; [reflexivity |].
    split; [eexists; lookup_added |].
    split; [lookup_added |]. split; [lookup_added |]. split; [lookup_added | done].
Qed.

(* ===================================================================== *)
(** ** Uploading a file *)
(* ===================================================================== *)

Section Uploads.
Variable env : Env.
Variable net : Net.
Variable upload_folder : string.

Lemma blank_name_decide filename :
  bool_decide (filename = "") || bool_decide (strip (lit filename) = []) = true
  <-> blank_name filename.
Proof.
  unfold blank_name. rewrite orb_true_iff, !bool_decide_eq_true. done.
Qed.

Lemma save_uploaded_file_blank content filename w :
  blank_name filename ->
  ProcessorUploads.save_uploaded_file env net upload_folder content filename w =
  (Raise (PyExc "ValueError" "Filename cannot be empty"), w).
Proof.
  intros Hblank. unfold ProcessorUploads.save_uploaded_file.
  by rewrite (proj2 (blank_name_decide filename) Hblank).
Qed.

Lemma save_uploaded_file_named content filename w :
  ~ blank_name filename ->
  let file_path := upload_path net upload_folder (clock w) filename in
  ProcessorUploads.save_uploaded_file env net upload_folder content filename w =
  match write_fault env file_path with
  | Some e => (Raise e, with_clock (clock w + 1) w)
  | None =>
      (Ok file_path,
       {| fs := <[file_path := written_at (clock w + 1) content]> (fs w);
          db := db w; clock := clock w + 1; calls := calls w |})
  end.
Proof.
  intros Hname. cbv zeta. unfold ProcessorUploads.save_uploaded_file.
  destruct (bool_decide (filename = "") || bool_decide (strip (lit filename) = []))
    eqn:Hb; [by apply blank_name_decide in Hb |].
  unfold datetime_now, write_bytes, path_exists, upload_path. run.
  destruct (write_fault env _) as [e |]; [done |].
  cbn [fs with_fs with_clock clock db calls].
  rewrite lookup_insert_eq. rewrite bool_decide_true by eauto. done.
Qed.

Lemma upload_document_named file uuid4 w :
  ~ blank_name (upload_filename file) ->
  write_fault env (upload_path net upload_folder (clock w) (upload_filename file)) = None ->
  DocumentsRouter.upload_document env net upload_folder file uuid4 w =
  (Ok (Uploaded uuid4 "uploaded", [upload_task env net upload_folder (clock w) file uuid4]),
   {| fs := <[upload_path net upload_folder (clock w) (upload_filename file)
               := written_at (clock w + 1) (upload_content file)]> (fs w);
      db := db w; clock := clock w + 1; calls := calls w |}).
Proof.
  intros Hname Hfault.
  unfold DocumentsRouter.upload_document, ServiceUploads.save_uploaded_file. run.
  rewrite save_uploaded_file_named by done. cbv zeta. by rewrite Hfault.
Qed.
End Uploads.

(** X14.  An upload whose file name is empty or only white space is
    refused with status 500 and the message of the [ValueError]; nothing is
    written, no task is scheduled, the clock is not even read. *)
Theorem upload_with_blank_filename_is_refused (env : Env) (net : Net)
    (upload_folder : string) (file : UploadFile) (uuid4 : string) (w : World) :
  blank_name (upload_filename file) ->
  DocumentsRouter.upload_document env net upload_folder file uuid4 w =
  (Ok (UploadFailed 500 "Failed to save file: Filename cannot be empty", []), w).
Proof.
  intros Hblank. unfold DocumentsRouter.upload_document, ServiceUploads.save_uploaded_file.
  run. by rewrite save_uploaded_file_blank.
Qed.


(** X16.  Two uploads of the same file name whose timestamps render alike
    (the format has a resolution of one second) get the same path: both are
    accepted with their own identifier and task, and the file the two tasks
    will read holds the bytes of the second upload. *)
Theorem same_second_uploads_share_a_file (env : Env) (net : Net)
    (upload_folder : string) (first second : UploadFile) (id1 id2 : string) (w : World) :
  ~ blank_name (upload_filename first) ->
  upload_filename second = upload_filename first ->
  strftime net (clock w + 1) = strftime net (clock w) ->
  write_fault env (upload_path net upload_folder (clock w) (upload_filename first)) = None ->
  exists t1 t2 w1 w2,
    DocumentsRouter.upload_document env net upload_folder first id1 w
      = (Ok (Uploaded id1 "uploaded", [t1]), w1)
    /\ DocumentsRouter.upload_document env net upload_folder second id2 w1
      = (Ok (Uploaded id2 "uploaded", [t2]), w2)
    /\ task_document_id t1 = id1 /\ task_document_id t2 = id2
    /\ task_file_path t2 = task_file_path t1
    /\ f_bytes <$> fs w2 !! task_file_path t1 = Some (upload_content second).
Proof.
  intros Hname Hsame Htime Hfault.
  rewrite (upload_document_named env net upload_folder first id1 w Hname Hfault).
  do 4 eexists. split; [reflexivity |].
  rewrite upload_document_named.
  - split; [reflexivity |].
    cbn [task_document_id task_file_path upload_task fs clock].
    unfold upload_path. rewrite Hsame, Htime.
    repeat apply conj; try done. by rewrite lookup_insert_eq.
  - by rewrite Hsame.
  - cbn [clock]. unfold upload_path in *. by rewrite Hsame, Htime.
Qed.


(* ===================================================================== *)
(** ** Fetching a URL *)
(* ===================================================================== *)

Lemma until_quote_split s :
  exists post,
    s = until_quote s +:+ post
    /\ quote_free (until_quote s)
    /\ (post = "" \/ exists rest, post = String dquote rest).
Proof.
  induction s as [| c r (post & Hs & Hfree & Hpost)]; cbn [until_quote].
  - exists "". repeat split; [by intros c [] | by left].
  - destruct (Ascii.eqb c dquote) eqn:Hc.
    + apply Ascii.eqb_eq in Hc as ->. exists (String dquote r).
      repeat split; [by intros c [] | right; by eexists].
    + exists post. split; [| split; [| done]].
      * change (String c r = String c (until_quote r +:+ post)). by f_equal.
      * intros c' [<- | Hin]; [| by apply Hfree].
        intros ->. by rewrite Ascii.eqb_refl in Hc.
Qed.

Lemma filename_group_shape rest name :
  filename_group rest = Some name ->
  name <> ""
  /\ quote_free name
  /\ exists q post,
       rest = q +:+ name +:+ post
       /\ (q = "" \/ q = String dquote "")
       /\ (post = "" \/ exists r, post = String dquote r).
Proof.
  unfold filename_group. destruct rest as [| c r]; [done |].
  destruct (Ascii.eqb c dquote) eqn:Hc.
  - apply Ascii.eqb_eq in Hc as ->.
    destruct (until_quote_split r) as (post & Hs & Hfree & Hpost).
    destruct (until_quote r) as [| c' name'] eqn:Hu; [done |].
    intros [= <-]. repeat split; [done | done |].
    exists (String dquote ""), post. cbn. split; [by rewrite Hs at 1 | by auto].
  - intros [= <-].
    destruct (until_quote_split (String c r)) as (post & Hs & Hfree & Hpost).
    repeat split; [| done |].
    + cbn. by rewrite Hc.
    + exists "", post. cbn [String.append]. by auto.
Qed.



Lemma content_disposition_shape_nonempty content_disposition name :
  search_filename content_disposition = Some name -> name <> "" /\ quote_free name.
Proof.
  induction content_disposition as [| c r IH]; [done |].
  cbn [search_filename].
  destruct (String.prefix "filename=" (String c r)); [| exact IH].
  destruct (filename_group (string_drop 9 (String c r))) as [name' |] eqn:Hg; [| exact IH].
  intros [= ->]. by destruct (filename_group_shape _ _ Hg) as (? & ? & _).
Qed.

Lemma search_filename_empty : search_filename "" = None.
Proof. done. Qed.

Section Urls.
Variable env : Env.
Variable net : Net.
Variable upload_folder : string.


End Urls.



(** X21.  The name under which a downloaded page is stored: the file name
    of the [Content-Disposition] header if the pattern finds one; otherwise
    the last segment of the URL path; and if that is empty, the host
    followed by the timestamp and [.html] (only then is the clock read).
    The bytes are those of the response. *)
Theorem url_file_name_precedence (net : Net) (url : string) (response : http_response)
    (parsed_url : url_parts) (w : World) :
  requests_get net url = Ok response ->
  http_error response = None ->
  urlparse net url = Ok parsed_url ->
  let mime_type := default "text/html" (header_content_type response) in
  let content := response_content response in
  ProcessorUploads.download_from_url net url w =
  match disposition_filename response with
  | Some name => (Ok (name, content, mime_type), w)
  | None =>
      if bool_decide (basename (url_path parsed_url) = "") then
        (Ok (url_netloc parsed_url +:+ "_" +:+ strftime net (clock w) +:+ ".html",
             content, mime_type),
         with_clock (clock w + 1) w)
      else (Ok (basename (url_path parsed_url), content, mime_type), w)
  end.
Proof.
  intros Hget Herr Hparse. cbv zeta.
  unfold ProcessorUploads.download_from_url, disposition_filename, datetime_now. run.
  rewrite Hget, Herr.
  destruct (header_content_disposition response) as [content_disposition |];
    cbn [mbind option_bind].
  - case_bool_decide as Hcd.
    + subst. rewrite search_filename_empty, Hparse.
      by case_bool_decide.
    + destruct (search_filename content_disposition) as [name |] eqn:Hname.
      * destruct (content_disposition_shape_nonempty _ _ Hname).
        by rewrite bool_decide_false.
      * rewrite Hparse. by case_bool_decide.
  - rewrite Hparse. by case_bool_decide.
Qed.

(* ===================================================================== *)
(** ** Queries that reach the generation service, and those that fail *)
(* ===================================================================== *)

Lemma lstrip_keeps (s : pystr) (c : Z) :
  c ∈ s -> py_isspace c = false -> c ∈ lstrip s.
Proof.
  intros Hin Hc. induction s as [| x r IH]; [done |]. cbn [lstrip].
  destruct (py_isspace x) eqn:Hx; [| done].
  apply elem_of_cons in Hin as [-> | Hin]; [congruence | by apply IH].
Qed.

Lemma strip_keeps (s : pystr) (c : Z) :
  c ∈ s -> py_isspace c = false -> strip s <> [].
Proof.
  intros Hin Hc. unfold strip, rstrip.
  assert (c ∈ rev (lstrip (rev (lstrip s)))) as H.
  { rewrite list_elem_of_In, <- in_rev, <- list_elem_of_In.
    apply lstrip_keeps; [| done].
    rewrite list_elem_of_In, <- in_rev, <- list_elem_of_In. by apply lstrip_keeps. }
  intros Hnil. rewrite Hnil in H. by apply not_elem_of_nil in H.
Qed.

Lemma document_section_dash i doc x t :
  view_extracted_text doc = Some (x :: t) -> 45 ∈ document_section i doc.
Proof.
  intros Ht. unfold document_section. rewrite Ht.
  change (lit "--- DOCUMENT ") with (45 :: lit "-- DOCUMENT ").
  do 2 apply list_elem_of_further. apply list_elem_of_here.
Qed.

Lemma document_context_with_text i docs doc x t :
  doc ∈ docs -> view_extracted_text doc = Some (x :: t) ->
  strip (document_context i docs) <> [].
Proof.
  intros Hin Ht. apply (strip_keeps _ 45); [| done].
  revert i. induction docs as [| d rest IH]; intros i; [by apply not_elem_of_nil in Hin |].
  cbn [document_context]. apply elem_of_app.
  apply elem_of_cons in Hin as [<- | Hin].
  - left. by eapply document_section_dash.
  - right. by apply IH.
Qed.

Section Queries.
Variable env : Env.

(** Resolving the identifiers stops at the first one without a row. *)
Lemma collect_documents_reads (document_ids : list string) w :
  (QueryRouter.collect_documents document_ids w
     = (Ok (omap (fun id => view_of (db w) id <$> documents (db w) !! id) document_ids), w)
   /\ forall id, id ∈ document_ids -> is_Some (documents (db w) !! id))
  \/ exists id,
       id ∈ document_ids /\ documents (db w) !! id = None
       /\ QueryRouter.collect_documents document_ids w =
            (Raise (HTTPException 404 ("Document " +:+ id +:+ " not found")), w).
Proof.
  induction document_ids as [| id ids IH].
  - left. split; [done |]. intros id Hin. by apply not_elem_of_nil in Hin.
  - cbn [QueryRouter.collect_documents omap list_omap]. unfold mbind, M_bind, bind.
    rewrite get_document_view.
    destruct (documents (db w) !! id) as [row |] eqn:Hrow; cbn [fmap option_fmap option_map].
    + destruct IH as [[Hrun Hall] | (missing & Hin & Hnone & Hrun)]; rewrite Hrun.
      * left. split; [done |]. intros id' Hin.
        apply elem_of_cons in Hin as [-> | Hin]; [by eexists | by apply Hall].
      * right. exists missing. split; [by right | done].
    + right. exists id. split; [by left | done].
Qed.

Lemma resolved_views (document_ids : list string) (d : Database) :
  (forall id, id ∈ document_ids -> is_Some (documents d !! id)) ->
  sources_of (omap (fun id => view_of d id <$> documents d !! id) document_ids)
    = sources_in d document_ids
  /\ forall id, id ∈ document_ids ->
       exists row, documents d !! id = Some row
         /\ view_of d id row
            ∈ omap (fun id => view_of d id <$> documents d !! id) document_ids.
Proof.
  induction document_ids as [| id ids IH]; intros Hall.
  - split; [done |]. intros id Hin. by apply not_elem_of_nil in Hin.
  - destruct (Hall id) as [row Hrow]; [by left |].
    destruct IH as [Hsrc Hviews]; [intros id' Hin; apply Hall; by right |].
    cbn [omap list_omap]. rewrite Hrow. cbn [fmap option_fmap option_map].
    split.
    + unfold sources_of, sources_in in *. cbn [map]. rewrite Hsrc. f_equal.
      unfold file_name_of. by rewrite Hrow.
    + intros id' Hin. apply elem_of_cons in Hin as [-> | Hin].
      * exists row. split; [done | by left].
      * destruct (Hviews id' Hin) as (row' & Hrow' & Hin'). exists row'.
        split; [done | by right].
Qed.
End Queries.



(** X24.  A non-empty question over documents that all resolve, at least
    one of which has non-empty extracted text, makes exactly one call of
    the generation service, with the prompt built from the texts and the
    question.  The answer carries the generated text and the sources of
    all the given documents, those without text included; if the service
    raises, the handler answers status 500 after the call was made. *)
Theorem query_with_text_generates_once (env : Env) (request : QueryRequest) (w : World) :
  qr_query request <> [] ->
  (forall id, id ∈ qr_document_ids request -> is_Some (documents (db w) !! id)) ->
  (exists id, id ∈ qr_document_ids request /\ has_text (db w) id) ->
  exists documents prompt,
    QueryRouter.collect_documents (qr_document_ids request) w = (Ok documents, w)
    /\ prompt = query_prompt documents (qr_query request)
    /\ QueryRouter.query_documents env request w =
       match generate_content env prompt with
       | Ok response_text =>
           (Ok {| q_response := response_text;
                  q_sources := sources_in (db w) (qr_document_ids request);
                  q_created_at := clock w |},
            {| fs := fs w; db := db w; clock := clock w + 1;
               calls := calls w ++ [CallGenerate prompt] |})
       | Raise e =>
           (Raise (HTTPException 500 (exc_str e)),
            with_calls (calls w ++ [CallGenerate prompt]) w)
       end.
Proof.
  intros Hquery Hall (id & Hin & c & s & Hc & Ht & Hs).
  destruct (collect_documents_reads (qr_document_ids request) w)
    as [[Hrun _] | (missing & Hmissing & Hrow & _)].
  2: { destruct (Hall missing Hmissing) as [row Hrow']. congruence. }
  destruct (resolved_views (qr_document_ids request) (db w) Hall) as [Hsrc Hviews].
  destruct (Hviews id Hin) as (row & Hrow & Hview).
  set (docs := omap (fun id => view_of (db w) id <$> documents (db w) !! id)
                 (qr_document_ids request)) in *.
  assert (strip (document_context 0 docs) <> []) as Hctx.
  { destruct s as [| x t]; [done |].
    apply (document_context_with_text 0 docs _ x t Hview).
    unfold view_of. cbn [view_extracted_text]. rewrite Hc. exact Ht. }
  exists docs, (query_prompt docs (qr_query request)).
  split; [done |]. split; [done |].
  unfold QueryRouter.query_documents.
  destruct (qr_document_ids request) as [| id0 ids] eqn:Eids;
    [by apply not_elem_of_nil in Hin |].
  destruct (qr_query request) as [| ch q] eqn:Equery; [done |].
  unfold try_except, mbind, M_bind, bind. rewrite Hrun.
  destruct (strip (document_context 0 docs)) as [| y l] eqn:Hstrip; [done |].
  unfold record_call, modify, lift, datetime_now, mret, M_ret, ret.
  fold (query_prompt docs (ch :: q)).
  destruct (generate_content env (query_prompt docs (ch :: q))); [| done].
  by rewrite Hsrc.
Qed.

(* ===================================================================== *)
(** ** The further theorems at concrete inputs *)
(* ===================================================================== *)

Lemma delete_unknown_document_is_refused_witness :
  documents (db shared_world) !! "d9" = None
  /\ DocumentService.delete_document bare_env "d9" shared_world = (Ok false, shared_world)
  /\ DocumentsRouter.delete_document bare_env "d9" shared_world
     = (Raise (HTTPException 404 "Document not found"), shared_world).
Proof.
  split; [reflexivity |].
  exact (delete_unknown_document_is_refused bare_env "d9" shared_world eq_refl).
Defined.

Lemma delete_document_survives_file_removal_failure_witness :
  documents (db mixed_world) !! "d3" = Some (sample_document "c.txt")
  /\ is_Some (fs mixed_world !! "./uploads/c.txt")
  /\ remove_fault read_only_env "./uploads/c.txt" = Some (denied "./uploads/c.txt")
  /\ exists w',
       DocumentService.delete_document read_only_env "d3" mixed_world = (Ok true, w')
       /\ documents (db w') !! "d3" = None
       /\ document_contents (db w') !! "d3" = None
       /\ fs w' = fs mixed_world.
Proof.
  split; [reflexivity |]. split; [eexists; reflexivity |]. split; [reflexivity |].
  destruct (delete_document_survives_file_removal_failure read_only_env "d3"
              (sample_document "c.txt") mixed_world eq_refl eq_refl)
    as (w' & Hrun & Hdb & Hfs & _).
  exists w'. split; [exact Hrun |].
  split; [rewrite Hdb; vm_compute; reflexivity |].
  split; [rewrite Hdb; vm_compute; reflexivity |].
  exact Hfs.
Defined.

Lemma delete_document_commit_failure_keeps_everything_witness :
  documents (db shared_world) !! "d1" = Some (sample_document "a.txt")
  /\ commit_fault locked_env = Some locked
  /\ DocumentService.delete_document locked_env "d1" shared_world
     = (Raise locked, shared_world).
Proof.
  split; [reflexivity |]. split; [reflexivity |].
  exact (delete_document_commit_failure_keeps_everything locked_env "d1"
           (sample_document "a.txt") locked shared_world eq_refl eq_refl).
Defined.

Lemma delete_unlinked_document_removes_only_it_witness :
  ("d3", "s0") ∈ document_analysis_association (db mixed_world)
  /\ analysis_sessions (db mixed_world) !! "s0" = None
  /\ exists w',
       DocumentService.delete_document bare_env "d3" mixed_world = (Ok true, w')
       /\ documents (db w') !! "d3" = None
       /\ documents (db w') !! "d1" = Some (sample_document "a.txt")
       /\ document_contents (db w') !! "d2" = Some (sample_content (lit "beta"))
       /\ analysis_sessions (db w') = analysis_sessions (db mixed_world)
       /\ document_analysis_association (db w')
          = document_analysis_association (db mixed_world)
       /\ queries (db w') = queries (db mixed_world).
Proof.
  split; [do 2 apply list_elem_of_further; apply list_elem_of_here |].
  split; [reflexivity |].
  destruct (delete_unlinked_document_removes_only_it bare_env "d3"
              (sample_document "c.txt") mixed_world eq_refl eq_refl)
    as (w' & Hrun & Hdocs & Hcontents & Hsessions & Hrows & Hqueries).
  - intros s Hin.
    apply elem_of_cons in Hin. destruct Hin as [Heq | Hin]; [discriminate Heq |].
    apply elem_of_cons in Hin. destruct Hin as [Heq | Hin]; [discriminate Heq |].
    apply list_elem_of_singleton in Hin. injection Hin as ->. reflexivity.
  - exists w'. split; [exact Hrun |].
    split; [rewrite Hdocs; vm_compute; reflexivity |].
    split; [rewrite Hdocs; vm_compute; reflexivity |].
    split; [rewrite Hcontents; vm_compute; reflexivity |].
    split; [exact Hsessions |]. split; [exact Hrows | exact Hqueries].
Defined.

Lemma processed_document_reads_back_witness :
  let run := DocumentService.process_document bare_env "./uploads"
               notes_path "notes.txt" "text/plain" "d1" notes_world in
  run = (Ok (Success "d1"), run.2)
  /\ exists view,
       DocumentService.get_document "d1" run.2 = (Ok (Some view), run.2)
       /\ view_file_name view = "notes.txt"
       /\ view_status view = "uploaded".
Proof.
  cbv zeta.
  assert (DocumentService.process_document bare_env "./uploads"
            notes_path "notes.txt" "text/plain" "d1" notes_world
          = (Ok (Success "d1"),
             (DocumentService.process_document bare_env "./uploads"
                notes_path "notes.txt" "text/plain" "d1" notes_world).2)) as Hrun
    by (vm_compute; reflexivity).
  split; [exact Hrun |].
  destruct (processed_document_reads_back bare_env "./uploads" notes_path "notes.txt"
              "text/plain" "d1" notes_world _ Hrun)
    as (document_info & w1 & text & view & _ & _ & _ & Hget & _ & Hname & _ & _ & Hstatus & _).
  exists view. repeat apply conj; [exact Hget | exact Hname | exact Hstatus].
Defined.

Lemma process_document_never_overwrites_witness :
  fs mixed_world !! notes_path = Some notes_file
  /\ (DocumentService.process_document bare_env "./uploads"
        notes_path "notes.txt" "text/plain" "d4" mixed_world).1 = Ok (Success "d4")
  /\ exists msg w',
       DocumentService.process_document bare_env "./uploads"
         notes_path "notes.txt" "text/plain" "d1" mixed_world = (Ok (Error "d1" msg), w')
       /\ db w' = db mixed_world.
Proof.
  split; [reflexivity |]. split; [vm_compute; reflexivity |].
  apply (process_document_never_overwrites bare_env "./uploads" notes_path "notes.txt"
           "text/plain" "d1" mixed_world).
  left. exists (sample_document "a.txt"). reflexivity.
Defined.

Lemma process_document_leaves_other_rows_witness :
  let run := DocumentService.process_document bare_env "./uploads"
               notes_path "notes.txt" "text/plain" "d4" mixed_world in
  run.1 = Ok (Success "d4")
  /\ is_Some (documents (db run.2) !! "d4")
  /\ documents (db run.2) !! "d1" = documents (db mixed_world) !! "d1"
  /\ document_contents (db run.2) !! "d1" = document_contents (db mixed_world) !! "d1"
  /\ analysis_sessions (db run.2) = analysis_sessions (db mixed_world)
  /\ document_analysis_association (db run.2)
     = document_analysis_association (db mixed_world)
  /\ queries (db run.2) = queries (db mixed_world).
Proof.
  cbv zeta. split; [vm_compute; reflexivity |].
  split; [eexists; vm_compute; reflexivity |].
  apply (process_document_leaves_other_rows bare_env "./uploads" notes_path "notes.txt"
           "text/plain" "d4" "d1" mixed_world).
  discriminate.
Defined.

Lemma text_file_is_stored_as_decoded_witness :
  exists w',
    DocumentService.process_document bare_env "./uploads"
      notes_path "notes.txt" "text/plain" "d1" notes_world = (Ok (Success "d1"), w')
    /\ document_contents (db w') !! "d1" =
         Some {| DocumentContent.analysis := None;
                 DocumentContent.extracted_text := Some (decoded_text (f_bytes notes_file)) |}
    /\ fs w' = fs notes_world.
Proof.
  apply (text_file_is_stored_as_decoded bare_env "./uploads" notes_path "notes.txt"
           "text/plain" "d1" notes_file notes_world); reflexivity.
Defined.

Lemma spreadsheet_text_has_first_hundred_rows_witness :
  map (fun sheet => length (snd sheet)) sample_workbook = [101%nat; 1%nat]
  /\ exists result,
       DocumentProcessor.process_xlsx office_env "./uploads/report.docx" report_world
         = (Ok result, report_world)
       /\ result !! "sheet_count" = Some (VInt 2)
       /\ DocumentService.extract_text office_env "report.xlsx" result =
            Ok (VStr (join [LF; LF]
                        (map (sheet_as_text office_env)
                             (map first_100_rows sample_workbook))))
       /\ map (fun sheet => length (snd sheet)) (map first_100_rows sample_workbook)
          = [100%nat; 1%nat]
       /\ map fst (map first_100_rows sample_workbook) = [lit "Totals"; lit "Notes"].
Proof.
  split; [reflexivity |].
  destruct (spreadsheet_text_has_first_hundred_rows office_env "./uploads/report.docx"
              "report.xlsx" report_file report_world sample_workbook
              eq_refl eq_refl eq_refl) as (result & Hrun & Hcount & Htext & _ & Hnames).
  exists result. split; [exact Hrun |]. split; [exact Hcount |].
  split; [exact Htext |]. split; [reflexivity |]. rewrite Hnames. reflexivity.
Defined.

Lemma word_text_is_the_paragraphs_witness :
  exists result,
    DocumentProcessor.process_docx office_env "./uploads/report.docx" report_world
      = (Ok result, report_world)
    /\ DocumentService.extract_text office_env "report.docx" result
       = Ok (VStr (join [LF] [lit "Hello"; lit "World"])).
Proof.
  destruct (word_text_is_the_paragraphs office_env "./uploads/report.docx"
              "report.docx" report_file report_world [lit "Hello"; lit "World"]
              [[[lit "cell"]]] eq_refl eq_refl eq_refl) as (result & Hrun & Htext & _).
  exists result. split; [exact Hrun | exact Htext].
Defined.

Lemma presentation_text_is_the_slides_witness :
  exists result,
    DocumentProcessor.process_pptx office_env "./uploads/report.docx" report_world
      = (Ok result, report_world)
    /\ result !! "slide_count" = Some (VInt 2).
Proof.
  destruct (presentation_text_is_the_slides office_env "./uploads/report.docx"
              "deck.pptx" report_file report_world [[Some (lit "Title"); None]; []]
              eq_refl eq_refl eq_refl) as (result & Hrun & Hcount & _).
  exists result. split; [exact Hrun | exact Hcount].
Defined.

Lemma pdf_without_text_gets_a_note_witness :
  exists result w1,
    DocumentProcessor.process_document office_env "./uploads" "./uploads/scan.pdf" scan_world
      = (Ok result, w1)
    /\ result !! "metadata" = None.
Proof.
  destruct (pdf_without_text_gets_a_note office_env "./uploads" "./uploads/scan.pdf"
              "scan.pdf" report_file scan_world eq_refl eq_refl)
    as (result & w1 & image_paths & Hrun & Hmeta & _).
  exists result, w1. split; [exact Hrun | exact Hmeta].
Defined.

Lemma email_body_survives_attachment_failure_witness :
  (exists result w1,
     DocumentProcessor.process_email attachment_env "./uploads" "./uploads/report.docx"
       report_world = (Ok result, w1)
     /\ is_Some (result !! "headers")
     /\ result !! "body" = Some (VStr (lit "see attached"))
     /\ DocumentService.extract_text attachment_env "mail.eml" result
        = Ok (VStr (lit "see attached"))
     /\ result !! "attachments" = None
     /\ result !! "email_extraction_error"
        = Some (VStr (lit (exc_str (denied "./uploads/attachment_bad.bin"))))
     /\ f_bytes <$> fs w1 !! "./uploads/attachment_ok.bin" = Some (bytes_of "first")
     /\ fs w1 !! "./uploads/attachment_bad.bin" = None)
  /\ (exists result,
        DocumentProcessor.process_email unreadable_env "./uploads" "./uploads/report.docx"
          report_world = (Ok result, report_world)
        /\ is_Some (result !! "headers")
        /\ result !! "body" = None
        /\ result !! "email_extraction_error" = Some (VStr (lit (exc_str undecodable)))).
Proof.
  split.
  - destruct (email_body_survives_attachment_failure attachment_env "./uploads"
                "./uploads/report.docx" "mail.eml" report_file report_world
                attached_message eq_refl eq_refl eq_refl)
      as (result & w1 & Hrun & Hheaders & Hbody & Htext & _ & Hmulti).
    destruct (Hmulti eq_refl) as (Hnone & Herror & Hworld).
    exists result, w1. split; [exact Hrun |]. split; [exact Hheaders |].
    split; [exact Hbody |]. split; [exact Htext |]. split; [exact Hnone |].
    split; [exact Herror |]. rewrite Hworld. split; reflexivity.
  - destruct (email_body_survives_attachment_failure unreadable_env "./uploads"
                "./uploads/report.docx" "mail.eml" report_file report_world
                unreadable_message eq_refl eq_refl eq_refl)
      as (result & w1 & Hrun & Hheaders & Hbody & _ & Herror & Hworld).
    exists result. rewrite Hworld in Hrun. split; [exact Hrun |].
    split; [exact Hheaders |]. split; [exact Hbody | exact Herror].
Defined.

Lemma upload_with_blank_filename_is_refused_witness :
  blank_name (upload_filename blank_upload)
  /\ DocumentsRouter.upload_document bare_env sample_net "./uploads" blank_upload "d1"
       new_world
     = (Ok (UploadFailed 500 "Failed to save file: Filename cannot be empty", []),
        new_world).
Proof.
  assert (blank_name (upload_filename blank_upload)) as Hblank by (right; reflexivity).
  split; [exact Hblank |].
  exact (upload_with_blank_filename_is_refused bare_env sample_net "./uploads"
           blank_upload "d1" new_world Hblank).
Defined.

Lemma notes_upload_named : ~ blank_name (upload_filename notes_upload).
Proof.
  intros [H | H]; [discriminate H |]. vm_compute in H. discriminate H.
Defined.

Lemma same_second_uploads_share_a_file_witness :
  exists t1 t2 w1 w2,
    DocumentsRouter.upload_document bare_env sample_net "./uploads" notes_upload "d1"
      new_world = (Ok (Uploaded "d1" "uploaded", [t1]), w1)
    /\ DocumentsRouter.upload_document bare_env sample_net "./uploads" notes_again "d2" w1
      = (Ok (Uploaded "d2" "uploaded", [t2]), w2)
    /\ task_document_id t1 = "d1" /\ task_document_id t2 = "d2"
    /\ task_file_path t2 = task_file_path t1
    /\ f_bytes <$> fs w2 !! task_file_path t1 = Some (upload_content notes_again).
Proof.
  exact (same_second_uploads_share_a_file bare_env sample_net "./uploads"
           notes_upload notes_again "d1" "d2" new_world
           notes_upload_named eq_refl eq_refl eq_refl).
Defined.




Lemma url_file_name_precedence_witness :
  ProcessorUploads.download_from_url sample_net "https://example.org/docs/page.html"
    new_world
  = (Ok ("report.txt", bytes_of "hello", "text/plain"), new_world).
Proof.
  exact (url_file_name_precedence sample_net "https://example.org/docs/page.html"
           sample_response sample_parts new_world eq_refl eq_refl eq_refl).
Defined.

Lemma question_given : lit "what is alpha?" <> [].
Proof. intros H. vm_compute in H. discriminate H. Defined.



Lemma query_with_text_generates_once_witness :
  exists documents prompt w',
    QueryRouter.collect_documents ["d1"; "d2"] shared_world = (Ok documents, shared_world)
    /\ prompt = query_prompt documents (lit "what is alpha?")
    /\ QueryRouter.query_documents bare_env
         {| qr_document_ids := ["d1"; "d2"]; qr_query := lit "what is alpha?" |}
         shared_world
       = (Ok {| q_response := lit "generated";
                q_sources := sources_in (db shared_world) ["d1"; "d2"];
                q_created_at := 0 |}, w')
    /\ calls w' = [CallGenerate prompt].
Proof.
  destruct (query_with_text_generates_once bare_env
              {| qr_document_ids := ["d1"; "d2"]; qr_query := lit "what is alpha?" |}
              shared_world question_given) as (documents & prompt & Hdocs & Hprompt & Hrun).
  - intros id Hin. apply elem_of_cons in Hin. destruct Hin as [-> | Hin].
    + exists (sample_document "a.txt"). reflexivity.
    + apply list_elem_of_singleton in Hin. subst id.
      exists (sample_document "b.txt"). reflexivity.
  - exists "d1". split; [apply list_elem_of_here |].
    exists (sample_content (lit "alpha")), (lit "alpha").
    repeat apply conj; [reflexivity | reflexivity |].
    intros H. vm_compute in H. discriminate H.
  - exists documents, prompt. eexists.
    split; [exact Hdocs |]. split; [exact Hprompt |].
    split; [exact Hrun | reflexivity].
Defined.

Lemma word_text_survives_table_failure_witness :
  exists result,
    DocumentProcessor.process_docx broken_tables_env "./uploads/report.docx" report_world
      = (Ok result, report_world)
    /\ DocumentService.extract_text broken_tables_env "report.docx" result
       = Ok (VStr (join [LF] [lit "Hello"; lit "World"]))
    /\ result !! "tables" = None
    /\ result !! "docx_extraction_error" = Some (VStr (lit (exc_str broken_tables))).
Proof.
  destruct (word_text_survives_table_failure broken_tables_env "./uploads/report.docx"
              "report.docx" report_file report_world [lit "Hello"; lit "World"]
              broken_tables eq_refl eq_refl eq_refl)
    as (result & Hrun & Htext & _ & Htables & _ & Herror).
  exists result. repeat apply conj; [exact Hrun | exact Htext | exact Htables | exact Herror].
Defined.
